(** * Daily Lifestyle Tracker: program calendar and statistics aggregation

    A shallow embedding of [app.py]: the program calendar
    ([get_program_info], [get_week_number], [is_strength_available]), the
    aggregator ([get_summary_stats]), the record written by the daily-entry
    form ([show_daily_entry]) and the week partition of the monthly view
    ([show_monthly_summary]).

    Conventions of the embedding.
    - A Python exception is a value of [exn]; code that can raise returns
      a [result].
    - A Python [int] is a [Z].  A Python [float] is idealised as an exact
      rational ([Q]) where a statement concerns single expressions of the
      code; [num] keeps the int/float distinction and [num_eq] is Python's
      numeric [==].  Where sums taken in different groupings are compared,
      rounding matters: [Binary64] follows the aggregator with IEEE 754
      doubles.
    - A [dict] is an association list in insertion order with pairwise
      distinct keys, since iteration order is observable in the program.
    - [datetime.date] follows CPython's pure-Python implementation
      (proleptic Gregorian ordinals). *)

From Stdlib Require Import ZArith QArith Qfield List String Ascii Bool Lia Lqa Permutation.
From Stdlib Require Import DecimalString DecimalNat Sorted OrderedTypeEx SpecFloat.
Import ListNotations.
Local Open Scope Z_scope.

(** ** Exceptions *)

Inductive exn : Type :=
| ValueError
| KeyError
| ZeroDivisionError
| OverflowError.

Inductive result (A : Type) : Type :=
| Ok (a : A)
| Raise (e : exn).

Arguments Ok {A} a.
Arguments Raise {A} e.

Definition bind {A B : Type} (c : result A) (k : A -> result B) : result B :=
  match c with
  | Ok a => k a
  | Raise e => Raise e
  end.

Notation "x <- c ;; k" := (bind c (fun x => k))
  (at level 61, c at next level, right associativity).

Definition raises {A : Type} (c : result A) : Prop :=
  exists e, c = Raise e.

(** ** [datetime.date] *)

Module PyDate.

Record date : Type := mkdate { year : Z; month : Z; day : Z }.

Definition MINYEAR : Z := 1.
Definition MAXYEAR : Z := 9999.
Definition MAXORDINAL : Z := 3652059.

Definition DAYS_IN_MONTH : list Z :=
  [-1; 31; 28; 31; 30; 31; 30; 31; 31; 30; 31; 30; 31].

(* _DAYS_BEFORE_MONTH is filled by a loop over _DAYS_IN_MONTH[1:]. *)
Definition DAYS_BEFORE_MONTH : list Z :=
  fst (fold_left (fun '(acc, dbm) dim => (acc ++ [dbm], dbm + dim))
                 (tl DAYS_IN_MONTH) ([-1], 0)).

Definition index (l : list Z) (i : Z) : Z := nth (Z.to_nat i) l 0.

Definition is_leap (y : Z) : bool :=
  (y mod 4 =? 0) && (negb (y mod 100 =? 0) || (y mod 400 =? 0)).

Definition days_before_year (y : Z) : Z :=
  let y := y - 1 in
  y * 365 + y / 4 - y / 100 + y / 400.

Definition days_in_month (y m : Z) : Z :=
  if (m =? 2) && is_leap y then 29 else index DAYS_IN_MONTH m.

Definition days_before_month (y m : Z) : Z :=
  index DAYS_BEFORE_MONTH m + (if (2 <? m) && is_leap y then 1 else 0).

Definition ymd2ord (y m d : Z) : Z :=
  days_before_year y + days_before_month y m + d.

(* _check_date_fields *)
Definition valid_date (d : date) : bool :=
  (MINYEAR <=? year d) && (year d <=? MAXYEAR)
  && (1 <=? month d) && (month d <=? 12)
  && (1 <=? day d) && (day d <=? days_in_month (year d) (month d)).

(* date(year, month, day) *)
Definition date_new (y m d : Z) : result date :=
  if valid_date (mkdate y m d) then Ok (mkdate y m d) else Raise ValueError.

Definition toordinal (d : date) : Z := ymd2ord (year d) (month d) (day d).

Definition DI400Y : Z := days_before_year 401.
Definition DI100Y : Z := days_before_year 101.
Definition DI4Y : Z := days_before_year 5.

Definition ord2ymd (n : Z) : date :=
  let n := n - 1 in
  let n400 := n / DI400Y in
  let n := n mod DI400Y in
  let y := n400 * 400 + 1 in
  let n100 := n / DI100Y in
  let n := n mod DI100Y in
  let n4 := n / DI4Y in
  let n := n mod DI4Y in
  let n1 := n / 365 in
  let n := n mod 365 in
  let y := y + (n100 * 100 + n4 * 4 + n1) in
  if (n1 =? 4) || (n100 =? 4) then mkdate (y - 1) 12 31
  else
    let leapyear := (n1 =? 3) && (negb (n4 =? 24) || (n100 =? 3)) in
    let m := Z.shiftr (n + 50) 5 in
    let preceding :=
      index DAYS_BEFORE_MONTH m + (if (2 <? m) && leapyear then 1 else 0) in
    let '(m, preceding) :=
      if n <? preceding
      then (m - 1,
            preceding - (index DAYS_IN_MONTH (m - 1)
                         + (if (m - 1 =? 2) && leapyear then 1 else 0)))
      else (m, preceding) in
    mkdate y m (n - preceding + 1).

(* date.fromordinal *)
Definition fromordinal (n : Z) : date := ord2ymd n.

(* timedelta(weeks=w) holds 7*w days; a timedelta is its number of days. *)
Definition timedelta_weeks (w : Z) : Z := 7 * w.

(* date.__add__(timedelta) *)
Definition date_add (d : date) (days : Z) : result date :=
  let o := toordinal d + days in
  if (0 <? o) && (o <=? MAXORDINAL) then Ok (fromordinal o)
  else Raise OverflowError.

(* (d1 - d2).days *)
Definition sub_days (d1 d2 : date) : Z := toordinal d1 - toordinal d2.

(* date.__lt__ and date.__le__ compare (year, month, day) tuples. *)
Definition date_ltb (a b : date) : bool :=
  (year a <? year b)
  || ((year a =? year b)
      && ((month a <? month b)
          || ((month a =? month b) && (day a <? day b)))).

Definition date_leb (a b : date) : bool := negb (date_ltb b a).

(** *** [datetime.strptime(s, "%Y-%m-%d").date()]

    [_strptime] turns the format into the regular expression
    [(\d\d\d\d)-(1[0-2]|0[1-9]|[1-9])-(3[0-1]|[1-2]\d|0[1-9]|[1-9]| [1-9])],
    matches it at the start of the string, raises [ValueError] when it
    does not match or when text remains after the match, and builds the
    date, which raises [ValueError] for a day that does not exist.
    The model covers ASCII strings. *)

Definition is_digit (c : ascii) : bool :=
  (48 <=? Z.of_nat (nat_of_ascii c)) && (Z.of_nat (nat_of_ascii c) <=? 57).

Definition digit (c : ascii) : Z := Z.of_nat (nat_of_ascii c) - 48.

Definition in_range (lo hi : Z) (c : ascii) : bool :=
  is_digit c && (lo <=? digit c) && (digit c <=? hi).

(* One alternative of two characters, or of one. *)
Definition alt2 (p1 p2 : ascii -> bool) (val : ascii -> ascii -> Z)
           (s : string) : list (Z * string) :=
  match s with
  | String a (String b r) => if p1 a && p2 b then [(val a b, r)] else []
  | _ => []
  end.

Definition alt1 (p : ascii -> bool) (s : string) : list (Z * string) :=
  match s with
  | String a r => if p a then [(digit a, r)] else []
  | _ => []
  end.

Definition two (a b : ascii) : Z := 10 * digit a + digit b.

(* 1[0-2]|0[1-9]|[1-9], alternatives in the order the matcher tries them *)
Definition month_alts (s : string) : list (Z * string) :=
  alt2 (in_range 1 1) (in_range 0 2) two s
  ++ alt2 (in_range 0 0) (in_range 1 9) two s
  ++ alt1 (in_range 1 9) s.

(* 3[0-1]|[1-2]\d|0[1-9]|[1-9]| [1-9] *)
Definition day_alts (s : string) : list (Z * string) :=
  alt2 (in_range 3 3) (in_range 0 1) two s
  ++ alt2 (in_range 1 2) is_digit two s
  ++ alt2 (in_range 0 0) (in_range 1 9) two s
  ++ alt1 (in_range 1 9) s
  ++ alt2 (fun c => Ascii.eqb c " ") (in_range 1 9) (fun _ b => digit b) s.

(* The rest of the pattern after a month alternative: "-" and a day. *)
Definition after_month (mr : Z * string) : option (Z * Z * string) :=
  match snd mr with
  | String "-" r =>
      match day_alts r with
      | (d, r') :: _ => Some (fst mr, d, r')
      | [] => None
      end
  | _ => None
  end.

Fixpoint first_match (alts : list (Z * string)) : option (Z * Z * string) :=
  match alts with
  | [] => None
  | mr :: rest =>
      match after_month mr with
      | Some x => Some x
      | None => first_match rest
      end
  end.

Definition strptime_ymd (s : string) : result date :=
  match s with
  | String y1 (String y2 (String y3 (String y4 (String "-" r)))) =>
      if is_digit y1 && is_digit y2 && is_digit y3 && is_digit y4 then
        match first_match (month_alts r) with
        | Some (m, d, EmptyString) =>
            date_new (1000 * digit y1 + 100 * digit y2 + 10 * digit y3 + digit y4) m d
        | Some _ => Raise ValueError      (* unconverted data remains *)
        | None => Raise ValueError        (* does not match format *)
        end
      else Raise ValueError
  | _ => Raise ValueError
  end.

End PyDate.

Import PyDate.

(** ** Program calendar *)

Definition get_program_info : result (date * date) :=
  start_date <- date_new 2025 6 2 ;;
  end_date <- date_add start_date (timedelta_weeks 30) ;;
  Ok (start_date, end_date).

(* The argument of [get_week_number]: a [date] or a [str]. *)
Inductive target : Type :=
| TDate (d : date)
| TStr (s : string).

Definition get_week_number (target_date : target) : result Z :=
  info <- get_program_info ;;
  let start_date := fst info in
  target_date <- match target_date with
                 | TStr s => strptime_ymd s
                 | TDate d => Ok d
                 end ;;
  let days_diff := sub_days target_date start_date in
  let week_num := days_diff / 7 + 1 in
  Ok (Z.max 1 (Z.min 30 week_num)).

Definition is_strength_available (target_date : target) : result bool :=
  week_num <- get_week_number target_date ;;
  Ok (3 <=? week_num).

Definition start_date : date := mkdate 2025 6 2.
Definition end_date : date := mkdate 2025 12 29.


(** ** Numbers *)

Inductive num : Type :=
| Int (z : Z)
| Float (q : Q).

Definition numQ (n : num) : Q :=
  match n with
  | Int z => inject_Z z
  | Float q => q
  end.

(* Python's numeric [==] *)
Definition num_eq (a b : num) : Prop := (numQ a == numQ b)%Q.

Definition num_add (a b : num) : num :=
  match a, b with
  | Int x, Int y => Int (x + y)
  | _, _ => Float (numQ a + numQ b)
  end.

Definition num_sub (a b : num) : num :=
  match a, b with
  | Int x, Int y => Int (x - y)
  | _, _ => Float (numQ a - numQ b)
  end.

(* a / b: true division, always a float *)
Definition num_truediv (a b : num) : result num :=
  if Qeq_bool (numQ b) 0 then Raise ZeroDivisionError
  else Ok (Float (numQ a / numQ b)).

(* a > b *)
Definition num_gtb (a b : num) : bool := negb (Qle_bool (numQ a) (numQ b)).

(* bool(a) *)
Definition num_truthy (a : num) : bool := negb (Qeq_bool (numQ a) 0).

(* sum(xs): starts from the int 0 and adds from the left *)
Definition py_sum (xs : list num) : num := fold_left num_add xs (Int 0).

(* len(xs) *)
Definition len {A : Type} (xs : list A) : num := Int (Z.of_nat (List.length xs)).

(** ** Dictionaries *)

Section Dict.
Context {K V : Type}.
Variable K_eqb : K -> K -> bool.

Definition dict : Type := list (K * V).

(* d.get(k) *)
Fixpoint dict_get (k : K) (d : dict) : option V :=
  match d with
  | [] => None
  | (k', v) :: r => if K_eqb k k' then Some v else dict_get k r
  end.

(* d[k] *)
Definition getitem (k : K) (d : dict) : result V :=
  match dict_get k d with
  | Some v => Ok v
  | None => Raise KeyError
  end.

(* d[k] = v: an existing key keeps its place, a new key goes last *)
Fixpoint dict_set (k : K) (v : V) (d : dict) : dict :=
  match d with
  | [] => [(k, v)]
  | (k', v') :: r =>
      if K_eqb k k' then (k', v) :: r else (k', v') :: dict_set k v r
  end.

(* k in d *)
Definition dict_mem (k : K) (d : dict) : bool :=
  match dict_get k d with
  | Some _ => true
  | None => false
  end.

Definition keys (d : dict) : list K := map fst d.
Definition values (d : dict) : list V := map snd d.
End Dict.

Arguments dict K V : clear implicits.

(** ** Daily records

    A stored record is a dict with fixed keys, written by the entry form and
    read back with [data.get(key, default)].  A field is [None] when its key
    is missing or holds [None]: [get] yields a falsy value in both cases.
    The ['week'] key is an int whenever it is present. *)

Module Entry.
Record t : Type := mk {
  date : option string;
  week : option Z;
  treadmill_time : option num;
  steps : option num;
  lunch_walk_time : option num;
  strength_training : option bool;
  weight : option num;
  blood_sugar : option num;
  mood_energy : option string
}.
End Entry.

(* data.get(key, 0) or 0 *)
Definition get_or_0 (field : option num) : num :=
  match field with
  | Some n => if num_truthy n then n else Int 0
  | None => Int 0
  end.

(* the truth value of data.get('strength_training', False) *)
Definition get_flag (field : option bool) : bool :=
  match field with
  | Some b => b
  | None => false
  end.

(* One pass of the loop that fills [weights] and [blood_sugars]: a value is
   appended when it is not None and > 0. *)
Definition collect (acc : list num * list num) (data : Entry.t)
  : list num * list num :=
  let '(weights, blood_sugars) := acc in
  let weights :=
    match Entry.weight data with
    | Some weight => if num_gtb weight (Int 0) then weights ++ [weight] else weights
    | None => weights
    end in
  let blood_sugars :=
    match Entry.blood_sugar data with
    | Some blood_sugar =>
        if num_gtb blood_sugar (Int 0) then blood_sugars ++ [blood_sugar]
        else blood_sugars
    | None => blood_sugars
    end in
  (weights, blood_sugars).

Definition is_empty {A : Type} (l : list A) : bool :=
  match l with
  | [] => true
  | _ => false
  end.

(** ** Aggregator *)

Definition get_summary_stats (data_dict : dict string Entry.t)
  : result (dict string num) :=
  if is_empty data_dict then Ok []
  else
    let total_days := len data_dict in
    let total_treadmill :=
      py_sum (map (fun data => get_or_0 (Entry.treadmill_time data)) (values data_dict)) in
    let total_steps :=
      py_sum (map (fun data => get_or_0 (Entry.steps data)) (values data_dict)) in
    let total_lunch_walks :=
      py_sum (map (fun data => get_or_0 (Entry.lunch_walk_time data)) (values data_dict)) in
    let strength_sessions :=
      py_sum (map (fun _ => Int 1)
                  (filter (fun data => get_flag (Entry.strength_training data))
                          (values data_dict))) in
    steps_minutes <- num_truediv total_steps (Int 100) ;;
    let total_exercise_time :=
      num_add (num_add total_treadmill steps_minutes) total_lunch_walks in
    let '(weights, blood_sugars) := fold_left collect (values data_dict) ([], []) in
    let per_day (total : num) : result num :=
      if num_gtb total_days (Int 0) then num_truediv total total_days
      else Ok (Int 0) in
    avg_treadmill <- per_day total_treadmill ;;
    avg_steps <- per_day total_steps ;;
    avg_lunch_walks <- per_day total_lunch_walks ;;
    avg_exercise_time <- per_day total_exercise_time ;;
    avg_weight <- (if is_empty weights then Ok (Int 0)
                   else num_truediv (py_sum weights) (len weights)) ;;
    let latest_weight :=
      if is_empty weights then Int 0 else last weights (Int 0) in
    avg_blood_sugar <- (if is_empty blood_sugars then Ok (Int 0)
                        else num_truediv (py_sum blood_sugars) (len blood_sugars)) ;;
    let weight_change :=
      if num_gtb (len weights) (Int 1)
      then num_sub (last weights (Int 0)) (hd (Int 0) weights)
      else Int 0 in
    Ok [ ("total_days", total_days);
         ("total_treadmill", total_treadmill);
         ("avg_treadmill", avg_treadmill);
         ("total_steps", total_steps);
         ("avg_steps", avg_steps);
         ("total_lunch_walks", total_lunch_walks);
         ("avg_lunch_walks", avg_lunch_walks);
         ("total_exercise_time", total_exercise_time);
         ("avg_exercise_time", avg_exercise_time);
         ("strength_sessions", strength_sessions);
         ("avg_weight", avg_weight);
         ("latest_weight", latest_weight);
         ("avg_blood_sugar", avg_blood_sugar);
         ("weight_change", weight_change) ]%string.

(* stats[key] *)
Definition stat (key : string) (stats : dict string num) : result num :=
  getitem String.eqb key stats.

(** ** Daily entry form *)

(* date.strftime("%Y-%m-%d") for a four-digit year *)
Definition digit_char (n : Z) : ascii := ascii_of_nat (Z.to_nat (48 + n mod 10)).

Definition pad2 (n : Z) : string :=
  String (digit_char (n / 10)) (String (digit_char n) EmptyString).

Definition pad4 (n : Z) : string :=
  String (digit_char (n / 1000)) (String (digit_char (n / 100)) (pad2 n)).

Definition strftime_ymd (d : date) : string :=
  (pad4 (year d) ++ "-" ++ pad2 (month d) ++ "-" ++ pad2 (day d))%string.

(* What the widgets of the form return when it is submitted.  The weight
   and blood-sugar inputs return [None] while they show no number. *)
Module Form.
Record t : Type := mk {
  treadmill_time : Z;
  steps : Z;
  lunch_walk_time : Z;
  strength_training : bool;
  weight : option num;
  blood_sugar : option num;
  mood_energy : string
}.
End Form.

(* v if v and v > 0 else None *)
Definition positive_or_none (v : option num) : option num :=
  match v with
  | Some x => if num_truthy x && num_gtb x (Int 0) then Some x else None
  | None => None
  end.

(* The run of show_daily_entry in which the form is submitted: the new
   contents of st.session_state.tracker_data. *)
Definition show_daily_entry (tracker_data : dict string Entry.t)
           (selected_date : date) (widgets : Form.t)
  : result (dict string Entry.t) :=
  let date_str := strftime_ymd selected_date in
  week_num <- get_week_number (TDate selected_date) ;;
  available <- is_strength_available (TDate selected_date) ;;
  let strength_training :=
    if available then Form.strength_training widgets else false in
  Ok (dict_set String.eqb date_str
        {| Entry.date := Some date_str;
           Entry.week := Some week_num;
           Entry.treadmill_time := Some (Int (Form.treadmill_time widgets));
           Entry.steps := Some (Int (Form.steps widgets));
           Entry.lunch_walk_time := Some (Int (Form.lunch_walk_time widgets));
           Entry.strength_training := Some strength_training;
           Entry.weight := positive_or_none (Form.weight widgets);
           Entry.blood_sugar := positive_or_none (Form.blood_sugar widgets);
           Entry.mood_energy := Some (Form.mood_energy widgets) |}
        tracker_data).

(** ** Weekly view: the records of one program week, in date order *)

Definition week_data_of (tracker_data : dict string Entry.t) (selected_week : Z)
  : result (dict string Entry.t) :=
  info <- get_program_info ;;
  week_start <- date_add (fst info) (timedelta_weeks (selected_week - 1)) ;;
  fold_left
    (fun acc i =>
       week_data <- acc ;;
       day_date <- date_add week_start i ;;
       let date_str := strftime_ymd day_date in
       match dict_get String.eqb date_str tracker_data with
       | Some data => Ok (dict_set String.eqb date_str data week_data)
       | None => Ok week_data
       end)
    [0; 1; 2; 3; 4; 5; 6] (Ok []).

(** ** Monthly view *)

(* One pass of the loop that fills month_data. *)
Definition add_to_month (y m : Z) (acc : result (dict string Entry.t))
           (item : string * Entry.t) : result (dict string Entry.t) :=
  month_data <- acc ;;
  date_obj <- strptime_ymd (fst item) ;;
  if (year date_obj =? y) && (month date_obj =? m)
  then Ok (dict_set String.eqb (fst item) (snd item) month_data)
  else Ok month_data.

Definition month_data_of (tracker_data : dict string Entry.t) (y m : Z)
  : result (dict string Entry.t) :=
  fold_left (add_to_month y m) tracker_data (Ok []).

(* One pass of the loop that fills weekly_data.  The default of
   data.get('week', ...) is evaluated before the lookup. *)
Definition add_to_week (acc : result (dict Z (list Entry.t)))
           (item : string * Entry.t) : result (dict Z (list Entry.t)) :=
  weekly_data <- acc ;;
  default <- get_week_number (TStr (fst item)) ;;
  let week :=
    match Entry.week (snd item) with
    | Some w => w
    | None => default
    end in
  let weekly_data :=
    if negb (dict_mem Z.eqb week weekly_data)
    then dict_set Z.eqb week [] weekly_data
    else weekly_data in
  week_entries <- getitem Z.eqb week weekly_data ;;
  Ok (dict_set Z.eqb week (week_entries ++ [snd item]) weekly_data).

Definition weekly_data_of (month_data : dict string Entry.t)
  : result (dict Z (list Entry.t)) :=
  fold_left add_to_week month_data (Ok []).

(* sorted(d.items()) for int keys: dict keys are distinct, so the order of
   the keys decides. *)
Fixpoint insert_item {V : Type} (kv : Z * V) (l : list (Z * V)) : list (Z * V) :=
  match l with
  | [] => [kv]
  | x :: r => if fst kv <=? fst x then kv :: x :: r else x :: insert_item kv r
  end.

Definition sorted_items {V : Type} (d : dict Z V) : list (Z * V) :=
  fold_right insert_item [] d.

(* f"day_{i}" *)
Definition day_key (i : nat) : string :=
  ("day_" ++ NilEmpty.string_of_uint (Nat.to_uint i))%string.

(* {f"day_{i}": entry for i, entry in enumerate(week_entries)} *)
Definition day_dict (week_entries : list Entry.t) : dict string Entry.t :=
  fold_left (fun d ie => dict_set String.eqb (day_key (fst ie)) (snd ie) d)
            (combine (seq 0 (List.length week_entries)) week_entries) [].

(* The statistics behind the rows of the weekly trend table; each row reads
   its cells from week_stats. *)
Definition weekly_summary_of (month_data : dict string Entry.t)
  : result (list (Z * dict string num)) :=
  weekly_data <- weekly_data_of month_data ;;
  fold_left
    (fun acc item =>
       weekly_summary <- acc ;;
       week_stats <- get_summary_stats (day_dict (snd item)) ;;
       _ <- stat "total_days" week_stats ;;
       _ <- stat "avg_treadmill" week_stats ;;
       _ <- stat "avg_steps" week_stats ;;
       _ <- stat "avg_lunch_walks" week_stats ;;
       _ <- stat "avg_exercise_time" week_stats ;;
       _ <- stat "strength_sessions" week_stats ;;
       Ok (weekly_summary ++ [(fst item, week_stats)]))
    (sorted_items weekly_data) (Ok []).

(* Sum of one statistic over the rows. *)
Fixpoint sum_stat (key : string) (rows : list (Z * dict string num)) : result num :=
  match rows with
  | [] => Ok (Int 0)
  | row :: rest =>
      v <- stat key (snd row) ;;
      s <- sum_stat key rest ;;
      Ok (num_add v s)
  end.

(** ** The aggregator in floating point

    CPython's [float] is an IEEE 754 binary64 number, and every operation
    rounds its exact result to the nearest double, ties to even.  This module
    follows the aggregator with that arithmetic, on the same records: a stored
    [Float q] is read as the double nearest to [q], which is [q] itself when
    [q] is a double. *)

Module Binary64.

Definition prec : Z := 53.
Definition emax : Z := 1024.
Definition float : Type := spec_float.

(* An integer as the exact operand of a division. *)
Definition unrounded (z : Z) : float :=
  match z with
  | Z0 => S754_zero false
  | Zpos p => S754_finite false p 0
  | Zneg p => S754_finite true p 0
  end.

(* The double nearest to an integer, and to a quotient of two integers. *)
Definition round_int (z : Z) : float := binary_normalize prec emax z 0 false.
Definition round_quotient (a b : Z) : float :=
  SFdiv prec emax (unrounded a) (unrounded b).

(* Magnitudes from here on round to an infinity, which CPython reports as
   OverflowError when it converts an int or divides two ints: the largest
   double is 2^1024 - 2^971, and 2^1024 - 2^970 lies halfway to 2^1024. *)
Definition overflow_bound : Z := 2 ^ 1024 - 2 ^ 970.

(* float(i) *)
Definition of_int (i : Z) : result float :=
  if Z.abs i <? overflow_bound then Ok (round_int i) else Raise OverflowError.

Inductive pynum : Type :=
| PInt (z : Z)
| PFloat (f : float).

(* A number of the store as a Python value. *)
Definition of_num (n : num) : pynum :=
  match n with
  | Int z => PInt z
  | Float q => PFloat (round_quotient (Qnum q) (Zpos (Qden q)))
  end.

Definition is_zero (f : float) : bool :=
  match f with
  | S754_zero _ => true
  | _ => false
  end.

(* Python compares an int with a float by value, without rounding the int. *)
Definition compare_int_float (x : Z) (g : float) : option comparison :=
  match g with
  | S754_zero _ => Some (x ?= 0)
  | S754_infinity s => Some (if s then Gt else Lt)
  | S754_nan => None
  | S754_finite s m e =>
      let v := cond_Zopp s (Zpos m) in
      Some (if 0 <=? e then x ?= Z.shiftl v e else Z.shiftl x (- e) ?= v)
  end.

Definition compare (a b : pynum) : option comparison :=
  match a, b with
  | PInt x, PInt y => Some (x ?= y)
  | PInt x, PFloat g => compare_int_float x g
  | PFloat f, PInt y => option_map CompOpp (compare_int_float y f)
  | PFloat f, PFloat g => SFcompare f g
  end.

(* a == b *)
Definition eqb (a b : pynum) : bool :=
  match compare a b with
  | Some Eq => true
  | _ => false
  end.

(* a > b *)
Definition gtb (a b : pynum) : bool :=
  match compare a b with
  | Some Gt => true
  | _ => false
  end.

(* bool(a) *)
Definition truthy (a : pynum) : bool :=
  match a with
  | PInt z => negb (z =? 0)
  | PFloat f => negb (is_zero f)
  end.

(* a + b *)
Definition add (a b : pynum) : result pynum :=
  match a, b with
  | PInt x, PInt y => Ok (PInt (x + y))
  | PInt x, PFloat g => f <- of_int x ;; Ok (PFloat (SFadd prec emax f g))
  | PFloat f, PInt y => g <- of_int y ;; Ok (PFloat (SFadd prec emax f g))
  | PFloat f, PFloat g => Ok (PFloat (SFadd prec emax f g))
  end.

(* a - b *)
Definition sub (a b : pynum) : result pynum :=
  match a, b with
  | PInt x, PInt y => Ok (PInt (x - y))
  | PInt x, PFloat g => f <- of_int x ;; Ok (PFloat (SFsub prec emax f g))
  | PFloat f, PInt y => g <- of_int y ;; Ok (PFloat (SFsub prec emax f g))
  | PFloat f, PFloat g => Ok (PFloat (SFsub prec emax f g))
  end.

(* a / b: true division; the quotient of two ints is rounded once, any other
   pair is converted to floats first *)
Definition truediv (a b : pynum) : result pynum :=
  match a, b with
  | PInt x, PInt y =>
      if y =? 0 then Raise ZeroDivisionError
      else if Z.abs x <? overflow_bound * Z.abs y
           then Ok (PFloat (round_quotient x y))
           else Raise OverflowError
  | PInt x, PFloat g =>
      f <- of_int x ;;
      if is_zero g then Raise ZeroDivisionError
      else Ok (PFloat (SFdiv prec emax f g))
  | PFloat f, PInt y =>
      g <- of_int y ;;
      if y =? 0 then Raise ZeroDivisionError
      else Ok (PFloat (SFdiv prec emax f g))
  | PFloat f, PFloat g =>
      if is_zero g then Raise ZeroDivisionError
      else Ok (PFloat (SFdiv prec emax f g))
  end.

(* sum(xs): starts from the int 0 and adds from the left.  Sums of ints are
   exact; a sum of floats rounds at each addition (CPython 3.12 and later
   compensate these rounding errors, no statement below rests on a sum of
   floats). *)
Definition py_sum (xs : list pynum) : result pynum :=
  fold_left (fun acc x => s <- acc ;; add s x) xs (Ok (PInt 0)).

(* len(xs) *)
Definition len {A : Type} (xs : list A) : pynum := PInt (Z.of_nat (List.length xs)).

(* data.get(key, 0) or 0 *)
Definition get_or_0 (field : option num) : pynum :=
  match field with
  | Some n => if truthy (of_num n) then of_num n else PInt 0
  | None => PInt 0
  end.

(* One pass of the loop that fills [weights] and [blood_sugars]. *)
Definition collect (acc : list pynum * list pynum) (data : Entry.t)
  : list pynum * list pynum :=
  let '(weights, blood_sugars) := acc in
  let weights :=
    match Entry.weight data with
    | Some weight =>
        if gtb (of_num weight) (PInt 0) then weights ++ [of_num weight]
        else weights
    | None => weights
    end in
  let blood_sugars :=
    match Entry.blood_sugar data with
    | Some blood_sugar =>
        if gtb (of_num blood_sugar) (PInt 0)
        then blood_sugars ++ [of_num blood_sugar]
        else blood_sugars
    | None => blood_sugars
    end in
  (weights, blood_sugars).

Definition get_summary_stats (data_dict : dict string Entry.t)
  : result (dict string pynum) :=
  if is_empty data_dict then Ok []
  else
    let total_days := len data_dict in
    total_treadmill <-
      py_sum (map (fun data => get_or_0 (Entry.treadmill_time data))
                  (values data_dict)) ;;
    total_steps <-
      py_sum (map (fun data => get_or_0 (Entry.steps data)) (values data_dict)) ;;
    total_lunch_walks <-
      py_sum (map (fun data => get_or_0 (Entry.lunch_walk_time data))
                  (values data_dict)) ;;
    strength_sessions <-
      py_sum (map (fun _ => PInt 1)
                  (filter (fun data => get_flag (Entry.strength_training data))
                          (values data_dict))) ;;
    steps_minutes <- truediv total_steps (PInt 100) ;;
    with_steps <- add total_treadmill steps_minutes ;;
    total_exercise_time <- add with_steps total_lunch_walks ;;
    let '(weights, blood_sugars) := fold_left collect (values data_dict) ([], []) in
    let per_day (total : pynum) : result pynum :=
      if gtb total_days (PInt 0) then truediv total total_days
      else Ok (PInt 0) in
    avg_treadmill <- per_day total_treadmill ;;
    avg_steps <- per_day total_steps ;;
    avg_lunch_walks <- per_day total_lunch_walks ;;
    avg_exercise_time <- per_day total_exercise_time ;;
    avg_weight <- (if is_empty weights then Ok (PInt 0)
                   else s <- py_sum weights ;; truediv s (len weights)) ;;
    let latest_weight :=
      if is_empty weights then PInt 0 else last weights (PInt 0) in
    avg_blood_sugar <- (if is_empty blood_sugars then Ok (PInt 0)
                        else s <- py_sum blood_sugars ;;
                             truediv s (len blood_sugars)) ;;
    weight_change <- (if gtb (len weights) (PInt 1)
                      then sub (last weights (PInt 0)) (hd (PInt 0) weights)
                      else Ok (PInt 0)) ;;
    Ok [ ("total_days", total_days);
         ("total_treadmill", total_treadmill);
         ("avg_treadmill", avg_treadmill);
         ("total_steps", total_steps);
         ("avg_steps", avg_steps);
         ("total_lunch_walks", total_lunch_walks);
         ("avg_lunch_walks", avg_lunch_walks);
         ("total_exercise_time", total_exercise_time);
         ("avg_exercise_time", avg_exercise_time);
         ("strength_sessions", strength_sessions);
         ("avg_weight", avg_weight);
         ("latest_weight", latest_weight);
         ("avg_blood_sugar", avg_blood_sugar);
         ("weight_change", weight_change) ]%string.

(* stats[key] *)
Definition stat (key : string) (stats : dict string pynum) : result pynum :=
  getitem String.eqb key stats.

(* The statistics behind the rows of the weekly trend table. *)
Definition weekly_summary_of (month_data : dict string Entry.t)
  : result (list (Z * dict string pynum)) :=
  weekly_data <- weekly_data_of month_data ;;
  fold_left
    (fun acc item =>
       weekly_summary <- acc ;;
       week_stats <- get_summary_stats (day_dict (snd item)) ;;
       _ <- stat "total_days" week_stats ;;
       _ <- stat "avg_treadmill" week_stats ;;
       _ <- stat "avg_steps" week_stats ;;
       _ <- stat "avg_lunch_walks" week_stats ;;
       _ <- stat "avg_exercise_time" week_stats ;;
       _ <- stat "strength_sessions" week_stats ;;
       Ok (weekly_summary ++ [(fst item, week_stats)]))
    (sorted_items weekly_data) (Ok []).

(* Sum of one statistic over the rows, first row first. *)
Definition sum_stat (key : string) (rows : list (Z * dict string pynum))
  : result pynum :=
  fold_left (fun acc row => s <- acc ;; v <- stat key (snd row) ;; add s v)
            rows (Ok (PInt 0)).

End Binary64.

(** ** Sample data *)

Definition blank : Entry.t :=
  {| Entry.date := None; Entry.week := None;
     Entry.treadmill_time := Some (Int 0); Entry.steps := Some (Int 0);
     Entry.lunch_walk_time := Some (Int 0);
     Entry.strength_training := Some false;
     Entry.weight := None; Entry.blood_sugar := None;
     Entry.mood_energy := None |}.

Definition with_steps (n : Z) (e : Entry.t) : Entry.t :=
  {| Entry.date := Entry.date e; Entry.week := Entry.week e;
     Entry.treadmill_time := Entry.treadmill_time e; Entry.steps := Some (Int n);
     Entry.lunch_walk_time := Entry.lunch_walk_time e;
     Entry.strength_training := Entry.strength_training e;
     Entry.weight := Entry.weight e; Entry.blood_sugar := Entry.blood_sugar e;
     Entry.mood_energy := Entry.mood_energy e |}.

Definition with_weight (w : option num) (e : Entry.t) : Entry.t :=
  {| Entry.date := Entry.date e; Entry.week := Entry.week e;
     Entry.treadmill_time := Entry.treadmill_time e; Entry.steps := Entry.steps e;
     Entry.lunch_walk_time := Entry.lunch_walk_time e;
     Entry.strength_training := Entry.strength_training e;
     Entry.weight := w; Entry.blood_sugar := Entry.blood_sugar e;
     Entry.mood_energy := Entry.mood_energy e |}.

Definition with_blood_sugar (b : option num) (e : Entry.t) : Entry.t :=
  {| Entry.date := Entry.date e; Entry.week := Entry.week e;
     Entry.treadmill_time := Entry.treadmill_time e; Entry.steps := Entry.steps e;
     Entry.lunch_walk_time := Entry.lunch_walk_time e;
     Entry.strength_training := Entry.strength_training e;
     Entry.weight := Entry.weight e; Entry.blood_sugar := b;
     Entry.mood_energy := Entry.mood_energy e |}.

Definition form_with_weight (w : Q) : Form.t :=
  {| Form.treadmill_time := 30; Form.steps := 4000; Form.lunch_walk_time := 15;
     Form.strength_training := true; Form.weight := Some (Float w);
     Form.blood_sugar := Some (Float 0); Form.mood_energy := "fine" |}.

(** ** Notions used in the statements *)

Local Open Scope Q_scope.

(* Sum of rationals, the mathematical reading of [sum]. *)
Definition Qsum (xs : list Q) : Q := fold_right Qplus 0 xs.

(* The value of a numeric field that counts towards a total:
   a missing, null or zero field counts as 0. *)
Definition counted (field : option num) : Q :=
  match field with
  | Some n => numQ n
  | None => 0
  end.

(* The present values of an optional field, in iteration order: recorded and
   strictly greater than zero. *)
Definition present_values (field : Entry.t -> option num) (records : list Entry.t)
  : list num :=
  flat_map (fun data =>
              match field data with
              | Some v => if Qlt_le_dec 0 (numQ v) then [v] else []
              | None => []
              end) records.

(* The mean as [get_summary_stats] computes it: 0 for no value. *)
Definition mean (xs : list num) : num :=
  match xs with
  | [] => Int 0
  | _ => Float (numQ (py_sum xs) / numQ (len xs))
  end.

(* Last value minus first, 0 when there are fewer than two values. *)
Definition change (xs : list num) : num :=
  match xs with
  | _ :: _ :: _ => num_sub (last xs (Int 0)) (hd (Int 0) xs)
  | _ => Int 0
  end.

Definition latest (xs : list num) : num :=
  match xs with
  | [] => Int 0
  | _ => last xs (Int 0)
  end.

Definition total (field : Entry.t -> option num) (records : list Entry.t) : num :=
  py_sum (map (fun data => get_or_0 (field data)) records).

Definition sessions (records : list Entry.t) : num :=
  py_sum (map (fun _ => Int 1)
              (filter (fun data => get_flag (Entry.strength_training data)) records)).

Definition exercise_time (records : list Entry.t) : num :=
  num_add (num_add (total Entry.treadmill_time records)
                   (Float (numQ (total Entry.steps records) / 100)))
          (total Entry.lunch_walk_time records).

Definition per_day (t : num) (records : list Entry.t) : num :=
  Float (numQ t / numQ (len records)).

(* The fourteen statistics of a non-empty list of records. *)
Definition summary (records : list Entry.t) : dict string num :=
  let weights := present_values Entry.weight records in
  let blood_sugars := present_values Entry.blood_sugar records in
  [ ("total_days", len records);
    ("total_treadmill", total Entry.treadmill_time records);
    ("avg_treadmill", per_day (total Entry.treadmill_time records) records);
    ("total_steps", total Entry.steps records);
    ("avg_steps", per_day (total Entry.steps records) records);
    ("total_lunch_walks", total Entry.lunch_walk_time records);
    ("avg_lunch_walks", per_day (total Entry.lunch_walk_time records) records);
    ("total_exercise_time", exercise_time records);
    ("avg_exercise_time", per_day (exercise_time records) records);
    ("strength_sessions", sessions records);
    ("avg_weight", mean weights);
    ("latest_weight", latest weights);
    ("avg_blood_sugar", mean blood_sugars);
    ("weight_change", change weights) ]%string.

Definition steps_example : dict string Entry.t :=
  [ ("A", with_steps 1000 blank); ("B", with_steps 0 blank) ]%string.

Definition weights_example : dict string Entry.t :=
  [ ("2025-06-02", with_weight (Some (Float 70)) blank);
    ("2025-06-04", with_blood_sugar (Some (Float 0)) blank);
    ("2025-06-06", with_weight (Some (Float 68.5)) blank) ]%string.

(* The stores that the entry form builds from the empty store. *)
Inductive written : dict string Entry.t -> Prop :=
| written_empty : written []
| written_save (tracker_data tracker_data' : dict string Entry.t)
               (selected_date : date) (widgets : Form.t) :
    written tracker_data ->
    show_daily_entry tracker_data selected_date widgets = Ok tracker_data' ->
    written tracker_data'.

(* An optional number as it is stored: absent or strictly positive. *)
Definition absent_or_positive (field : option num) : Prop :=
  field = None \/ exists v, field = Some v /\ 0 < numQ v.

(* The record that a save writes. *)
Definition saved_record (selected_date : date) (widgets : Form.t) (week_num : Z)
  : Entry.t :=
  {| Entry.date := Some (strftime_ymd selected_date);
     Entry.week := Some week_num;
     Entry.treadmill_time := Some (Int (Form.treadmill_time widgets));
     Entry.steps := Some (Int (Form.steps widgets));
     Entry.lunch_walk_time := Some (Int (Form.lunch_walk_time widgets));
     Entry.strength_training :=
       Some (if 3 <=? week_num then Form.strength_training widgets else false)%Z;
     Entry.weight := positive_or_none (Form.weight widgets);
     Entry.blood_sugar := positive_or_none (Form.blood_sugar widgets);
     Entry.mood_energy := Some (Form.mood_energy widgets) |}.

Definition june_10 : date := mkdate 2025 6 10.
Definition june_16 : date := mkdate 2025 6 16.
Definition june_17 : date := mkdate 2025 6 17.

(* Two saves, the later day first. *)
Definition out_of_order_store : dict string Entry.t :=
  [ ("2025-06-17", saved_record june_17 (form_with_weight 68.5) 3);
    ("2025-06-16", saved_record june_16 (form_with_weight 70) 3) ]%string.

(* Whether a record counts towards strength_sessions. *)
Definition counts_as_session (data : Entry.t) : bool :=
  get_flag (Entry.strength_training data).

(* The sum of a measure over records. *)
Definition measure (m : Entry.t -> Q) (records : list Entry.t) : Q :=
  Qsum (map m records).

(* What a record adds to each total. *)
Definition one (_ : Entry.t) : Q := 1.
Definition session (data : Entry.t) : Q := if counts_as_session data then 1 else 0.
Definition exercise_minutes (data : Entry.t) : Q :=
  counted (Entry.treadmill_time data) + counted (Entry.steps data) / 100
  + counted (Entry.lunch_walk_time data).

Definition nonempty (es : list Entry.t) : Prop := es <> [].

Definition is_date_string (key : string) : Prop :=
  exists d, strptime_ymd key = Ok d.

(* The rows of the trend table, one per week. *)
Definition week_rows (items : list (Z * list Entry.t)) : list (Z * dict string num) :=
  map (fun item => (fst item, summary (snd item))) items.

(* The statistics that the claim sums over the week rows. *)
Definition total_keys : list string :=
  [ "total_days"; "total_treadmill"; "total_steps"; "total_lunch_walks";
    "total_exercise_time"; "strength_sessions" ]%string.

(* Three saves in June 2025: two days of week 3 and one of week 2. *)
Definition june_store : dict string Entry.t :=
  [ ("2025-06-17", saved_record june_17 (form_with_weight 68.5) 3);
    ("2025-06-16", saved_record june_16 (form_with_weight 70) 3);
    ("2025-06-10", saved_record june_10 (form_with_weight 69) 2) ]%string.

(* The week rows of a month record set add up to its month totals. *)
Definition partition_consistent (month_data : dict string Entry.t) : Prop :=
  exists st rows,
    get_summary_stats month_data = Ok st
    /\ weekly_summary_of month_data = Ok rows
    /\ StronglySorted (fun a b => (fst a <= fst b)%Z) rows
    /\ (forall key,
           In key total_keys ->
           exists v s,
             stat key st = Ok v /\ sum_stat key rows = Ok s /\ num_eq s v).

Local Open Scope Z_scope.

(** ** Sorted views and the month list *)

(* sorted(d.items()) for str keys, as the all-time view sorts the store for
   its chart: the keys of a dict are distinct, so the order of the keys
   decides; strings compare character by character, by character code. *)
Fixpoint insert_by_key {V : Type} (kv : string * V) (l : list (string * V))
  : list (string * V) :=
  match l with
  | [] => [kv]
  | x :: r =>
      if String.leb (fst kv) (fst x) then kv :: x :: r
      else x :: insert_by_key kv r
  end.

Definition sorted_by_key {V : Type} (d : dict string V) : list (string * V) :=
  fold_right insert_by_key [] d.

(* sorted(d.items(), reverse=True) *)
Fixpoint insert_by_key_desc {V : Type} (kv : string * V) (l : list (string * V))
  : list (string * V) :=
  match l with
  | [] => [kv]
  | x :: r =>
      if String.leb (fst x) (fst kv) then kv :: x :: r
      else x :: insert_by_key_desc kv r
  end.

Definition sorted_by_key_desc {V : Type} (d : dict string V) : list (string * V) :=
  fold_right insert_by_key_desc [] d.

(* dict(items) *)
Definition dict_of_items {V : Type} (items : list (string * V)) : dict string V :=
  fold_left (fun d kv => dict_set String.eqb (fst kv) (snd kv) d) items [].

(* recent_data = dict(sorted(tracker_data.items(), reverse=True)[:7]) *)
Definition recent_data (tracker_data : dict string Entry.t) : dict string Entry.t :=
  dict_of_items (firstn 7 (sorted_by_key_desc tracker_data)).

(* [datetime.strptime(d, "%Y-%m-%d").date() for d in keys] *)
Fixpoint parse_keys (ks : list string) : result (list date) :=
  match ks with
  | [] => Ok []
  | k :: rest =>
      d <- strptime_ymd k ;;
      ds <- parse_keys rest ;;
      Ok (d :: ds)
  end.

(* (y1, m1) <= (y2, m2) on tuples *)
Definition pair_leb (a b : Z * Z) : bool :=
  (fst a <? fst b) || ((fst a =? fst b) && (snd a <=? snd b)).

(* sorted(...) on (year, month) tuples *)
Fixpoint insert_pair (p : Z * Z) (l : list (Z * Z)) : list (Z * Z) :=
  match l with
  | [] => [p]
  | x :: r => if pair_leb p x then p :: x :: r else x :: insert_pair p r
  end.

Definition pair_eq_dec (a b : Z * Z) : {a = b} + {a <> b}.
Proof. decide equality; apply Z.eq_dec. Defined.

(* months = sorted(list(set((d.year, d.month) for d in dates))): the
   distinct pairs in ascending order *)
Definition months_of (tracker_data : dict string Entry.t) : result (list (Z * Z)) :=
  dates <- parse_keys (keys tracker_data) ;;
  Ok (fold_right insert_pair []
        (nodup pair_eq_dec (map (fun d => (year d, month d)) dates))).

(** ** Further notions used in the statements *)

(* The month and the day that ord2ymd computes from the 0-based day of the
   year. *)
Definition month_day (n : Z) (leapyear : bool) : Z * Z :=
  let m := Z.shiftr (n + 50) 5 in
  let preceding :=
    index DAYS_BEFORE_MONTH m + (if (2 <? m) && leapyear then 1 else 0) in
  let '(m, preceding) :=
    if n <? preceding
    then (m - 1,
          preceding - (index DAYS_IN_MONTH (m - 1)
                       + (if (m - 1 =? 2) && leapyear then 1 else 0)))
    else (m, preceding) in
  (m, n - preceding + 1).

(* month_day gives a day that exists and lies n days after 1 January. *)
Definition month_day_ok (leapyear : bool) (n : nat) : bool :=
  let '(m, d) := month_day (Z.of_nat n) leapyear in
  (1 <=? m) && (m <=? 12) && (1 <=? d)
  && (d <=? (if (m =? 2) && leapyear then 29 else index DAYS_IN_MONTH m))
  && (index DAYS_BEFORE_MONTH m + (if (2 <? m) && leapyear then 1 else 0) + d
      =? Z.of_nat n + 1).

(* The month and day part of a key, as strftime writes it. *)
Definition month_day_text (m d : Z) : string :=
  (pad2 m ++ "-" ++ pad2 d)%string.

(* The month and day part of a key is read back as written. *)
Definition parses_back (m : nat) (d : nat) : bool :=
  match first_match (month_alts (month_day_text (Z.of_nat m) (Z.of_nat d))) with
  | Some (m', d', EmptyString) => (m' =? Z.of_nat m) && (d' =? Z.of_nat d)
  | _ => false
  end.

(* The day of the program with the given offset from the start. *)
Definition program_day (offset : Z) : date :=
  fromordinal (toordinal start_date + offset).

(* The stored item of a key, if any. *)
Definition lookup_item (tracker_data : dict string Entry.t) (key : string)
  : list (string * Entry.t) :=
  match dict_get String.eqb key tracker_data with
  | Some data => [(key, data)]
  | None => []
  end.

(* The keys of the seven days of a program week. *)
Definition week_keys (selected_week : Z) : list string :=
  map (fun i => strftime_ymd (program_day (7 * (selected_week - 1) + i)))
      [0; 1; 2; 3; 4; 5; 6].

(* a < b on dates *)
Definition date_lt (a b : date) : Prop := date_ltb a b = true.

(* Whether a key is a date string of the given year and month. *)
Definition in_month (y m : Z) (key : string) : bool :=
  match strptime_ymd key with
  | Ok d => (year d =? y) && (month d =? m)
  | Raise _ => false
  end.

(* Whether strptime accepts a key. *)
Definition parses (key : string) : bool :=
  match strptime_ymd key with
  | Ok _ => true
  | Raise _ => false
  end.

(* The week under which the monthly view files a record. *)
Definition week_of (item : string * Entry.t) : Z :=
  match Entry.week (snd item) with
  | Some w => w
  | None =>
      match get_week_number (TStr (fst item)) with
      | Ok w => w
      | Raise _ => 0
      end
  end.

(* The records filed under a week, in the order of the month's records. *)
Definition records_of_week (w : Z) (items : dict string Entry.t) : list Entry.t :=
  values (filter (fun item => week_of item =? w) items).

(* A week has a group only when it has a record. *)
Definition nonempty_list (es : list Entry.t) : option (list Entry.t) :=
  match es with
  | [] => None
  | _ => Some es
  end.

(* key(a) <= key(b) on items *)
Definition key_le {V : Type} (a b : string * V) : Prop :=
  String.leb (fst a) (fst b) = true.

(* Lexicographic combination of two comparisons. *)
Definition then_compare (c later : comparison) : comparison :=
  match c with
  | Eq => later
  | _ => c
  end.

(* (y1, m1) < (y2, m2) on tuples *)
Definition pair_lt (a b : Z * Z) : Prop :=
  fst a < fst b \/ (fst a = fst b /\ snd a < snd b).

(* The two records of the out-of-order store, in date order. *)
Definition by_date_store : dict string Entry.t :=
  [ ("2025-06-16", saved_record june_16 (form_with_weight 70) 3);
    ("2025-06-17", saved_record june_17 (form_with_weight 68.5) 3) ]%string.

(** ** Notions used in the statements about floating-point aggregation *)

(* Sum of integers. *)
Definition Zsum (zs : list Z) : Z := fold_right Z.add 0 zs.

(* What an int field adds to its total. *)
Definition counted_int (field : option num) : Z :=
  match field with
  | Some (Int z) => z
  | _ => 0
  end.

Definition int_total (field : Entry.t -> option num) (records : list Entry.t) : Z :=
  Zsum (map (fun data => counted_int (field data)) records).

Definition session_count (records : list Entry.t) : Z :=
  Z.of_nat (List.length (filter counts_as_session records)).

(* An int field within the range of its widget. *)
Definition int_within (lo hi : Z) (field : option num) : Prop :=
  exists z, field = Some (Int z) /\ lo <= z <= hi.

(* A float input: a float, or None for no reading. *)
Definition float_or_absent (field : option num) : Prop :=
  match field with
  | Some (Int _) => False
  | _ => True
  end.

(* A record as the entry form writes it: the minute and step inputs are int
   widgets with the ranges 0..300, 0..50000 and 0..120, the weight and
   blood-sugar inputs are float widgets. *)
Definition form_record (data : Entry.t) : Prop :=
  int_within 0 300 (Entry.treadmill_time data)
  /\ int_within 0 50000 (Entry.steps data)
  /\ int_within 0 120 (Entry.lunch_walk_time data)
  /\ float_or_absent (Entry.weight data)
  /\ float_or_absent (Entry.blood_sugar data).

(* total_treadmill + (total_steps / 100) + total_lunch_walks on int totals *)
Definition composite_exercise_time (total_treadmill total_steps total_lunch_walks : Z)
  : result Binary64.pynum :=
  steps_minutes <- Binary64.truediv (Binary64.PInt total_steps) (Binary64.PInt 100) ;;
  with_steps <- Binary64.add (Binary64.PInt total_treadmill) steps_minutes ;;
  Binary64.add with_steps (Binary64.PInt total_lunch_walks).

Definition is_float (x : Binary64.pynum) : Prop := exists f, x = Binary64.PFloat f.

(* The fourteen statistics. *)
Definition statistic_keys : list string :=
  [ "total_days"; "total_treadmill"; "avg_treadmill"; "total_steps"; "avg_steps";
    "total_lunch_walks"; "avg_lunch_walks"; "total_exercise_time";
    "avg_exercise_time"; "strength_sessions"; "avg_weight"; "latest_weight";
    "avg_blood_sugar"; "weight_change" ]%string.

(* The statistics of the exercise fields of form-written records: the
   integer totals, and the floats that the aggregator computes from them. *)
Record exercise_statistics (records : list Entry.t) (stats : dict string Binary64.pynum)
  : Prop := {
  has_statistics :
    forall key, In key statistic_keys -> exists v, Binary64.stat key stats = Ok v;
  has_total_days :
    Binary64.stat "total_days" stats
    = Ok (Binary64.PInt (Z.of_nat (List.length records)));
  has_total_treadmill :
    Binary64.stat "total_treadmill" stats
    = Ok (Binary64.PInt (int_total Entry.treadmill_time records));
  has_total_steps :
    Binary64.stat "total_steps" stats
    = Ok (Binary64.PInt (int_total Entry.steps records));
  has_total_lunch_walks :
    Binary64.stat "total_lunch_walks" stats
    = Ok (Binary64.PInt (int_total Entry.lunch_walk_time records));
  has_strength_sessions :
    Binary64.stat "strength_sessions" stats
    = Ok (Binary64.PInt (session_count records));
  has_total_exercise_time :
    Binary64.stat "total_exercise_time" stats
    = composite_exercise_time (int_total Entry.treadmill_time records)
                              (int_total Entry.steps records)
                              (int_total Entry.lunch_walk_time records);
  has_avg_treadmill :
    Binary64.stat "avg_treadmill" stats
    = Binary64.truediv (Binary64.PInt (int_total Entry.treadmill_time records))
                       (Binary64.PInt (Z.of_nat (List.length records)));
  has_avg_steps :
    Binary64.stat "avg_steps" stats
    = Binary64.truediv (Binary64.PInt (int_total Entry.steps records))
                       (Binary64.PInt (Z.of_nat (List.length records)));
  has_avg_lunch_walks :
    Binary64.stat "avg_lunch_walks" stats
    = Binary64.truediv (Binary64.PInt (int_total Entry.lunch_walk_time records))
                       (Binary64.PInt (Z.of_nat (List.length records)));
  has_avg_exercise_time :
    Binary64.stat "avg_exercise_time" stats
    = (total_exercise_time <-
         composite_exercise_time (int_total Entry.treadmill_time records)
                                 (int_total Entry.steps records)
                                 (int_total Entry.lunch_walk_time records) ;;
       Binary64.truediv total_exercise_time
                        (Binary64.PInt (Z.of_nat (List.length records))))
}.

(* The integer statistics that the claim sums over the week rows. *)
Definition integer_total_keys : list string :=
  [ "total_days"; "total_treadmill"; "total_steps"; "total_lunch_walks";
    "strength_sessions" ]%string.

(* total_exercise_time is the composite of the integer totals of the same
   statistics. *)
Definition exercise_time_from_totals (stats : dict string Binary64.pynum) : Prop :=
  exists tt ts tl tex,
    Binary64.stat "total_treadmill" stats = Ok (Binary64.PInt tt)
    /\ Binary64.stat "total_steps" stats = Ok (Binary64.PInt ts)
    /\ Binary64.stat "total_lunch_walks" stats = Ok (Binary64.PInt tl)
    /\ composite_exercise_time tt ts tl = Ok tex
    /\ Binary64.stat "total_exercise_time" stats = Ok tex.

(* The sum of an integer measure over records. *)
Definition int_measure (m : Entry.t -> Z) (records : list Entry.t) : Z :=
  Zsum (map m records).

(* A row of the trend table for a week group. *)
Definition row_of (item : Z * list Entry.t) (row : Z * dict string Binary64.pynum)
  : Prop :=
  fst row = fst item
  /\ Binary64.get_summary_stats (day_dict (snd item)) = Ok (snd row)
  /\ exercise_statistics (snd item) (snd row).

(* The week rows of a month record set: one row per stored week, holding the
   statistics of the records of that week, whose integer totals add up to
   those of the month. *)
Definition rows_add_up (month_data : dict string Entry.t) : Prop :=
  exists st rows,
    Binary64.get_summary_stats month_data = Ok st
    /\ Binary64.weekly_summary_of month_data = Ok rows
    /\ StronglySorted (fun a b => fst a < fst b) rows
    /\ (forall w ws,
           In (w, ws) rows <->
           records_of_week w month_data <> []
           /\ Binary64.get_summary_stats (day_dict (records_of_week w month_data))
              = Ok ws)
    /\ (forall key,
           In key integer_total_keys ->
           exists v,
             Binary64.stat key st = Ok (Binary64.PInt v)
             /\ Binary64.sum_stat key rows = Ok (Binary64.PInt v))
    /\ exercise_time_from_totals st
    /\ Forall (fun row => exercise_time_from_totals (snd row)) rows.

(* What the widgets of the form can return. *)
Definition form_input (widgets : Form.t) : Prop :=
  0 <= Form.treadmill_time widgets <= 300
  /\ 0 <= Form.steps widgets <= 50000
  /\ 0 <= Form.lunch_walk_time widgets <= 120
  /\ float_or_absent (Form.weight widgets)
  /\ float_or_absent (Form.blood_sugar widgets).

(* A day with the given number of steps and nothing else; the float inputs
   show their default 0.0. *)
Definition steps_form (n : Z) : Form.t :=
  {| Form.treadmill_time := 0; Form.steps := n; Form.lunch_walk_time := 0;
     Form.strength_training := false; Form.weight := Some (Float 0);
     Form.blood_sugar := Some (Float 0); Form.mood_energy := "" |}.

(* Two saves: 10 steps on a day of week 2, 20 steps on a day of week 3. *)
Definition two_week_steps : result (dict string Entry.t) :=
  tracker_data <- show_daily_entry [] june_10 (steps_form 10) ;;
  show_daily_entry tracker_data june_16 (steps_form 20).

(* The statistics of the exercise fields. *)
Definition exercise_keys : list string :=
  [ "total_days"; "total_treadmill"; "avg_treadmill"; "total_steps"; "avg_steps";
    "total_lunch_walks"; "avg_lunch_walks"; "total_exercise_time";
    "avg_exercise_time"; "strength_sessions" ]%string.

(** * Properties *)

(** ** The result monad *)

Lemma bind_Ok {A B : Type} (c : result A) (k : A -> result B) (b : B) :
  bind c k = Ok b -> exists a, c = Ok a /\ k a = Ok b.
Proof.
  destruct c as [a | e]; simpl; intros H.
  - exists a. split; [reflexivity | exact H].
  - discriminate H.
Qed.

Lemma Ok_not_raises {A : Type} (a : A) : ~ raises (Ok a).
Proof. intros [e He]. discriminate He. Qed.

(** ** Calendar arithmetic *)

Module PyDateFacts.

Ltac month_cases m :=
  let H := fresh "Hm" in
  assert (H : m = 1 \/ m = 2 \/ m = 3 \/ m = 4 \/ m = 5 \/ m = 6 \/ m = 7
              \/ m = 8 \/ m = 9 \/ m = 10 \/ m = 11 \/ m = 12) by lia;
  repeat (destruct H as [H | H]; [subst m | ]); [ .. | subst m].

Ltac eval_tables :=
  repeat match goal with
         | |- context [index ?t ?m] =>
             let v := eval vm_compute in (index t m) in
             change (index t m) with v
         | H : context [index ?t ?m] |- _ =>
             let v := eval vm_compute in (index t m) in
             change (index t m) with v in H
         end.

Lemma is_leap_mod (y : Z) :
  is_leap y = true <-> y mod 4 = 0 /\ (y mod 100 <> 0 \/ y mod 400 = 0).
Proof.
  unfold is_leap.
  rewrite andb_true_iff, orb_true_iff, negb_true_iff, !Z.eqb_eq, Z.eqb_neq.
  reflexivity.
Qed.

Lemma days_before_year_succ (y : Z) :
  days_before_year (y + 1)
  = days_before_year y + 365 + (if is_leap y then 1 else 0).
Proof.
  unfold days_before_year.
  replace (y + 1 - 1) with y by ring.
  destruct (is_leap y) eqn:L.
  - apply is_leap_mod in L.
    pose proof (Z.div_mod y 4). pose proof (Z.div_mod (y - 1) 4).
    pose proof (Z.mod_pos_bound y 4). pose proof (Z.mod_pos_bound (y - 1) 4).
    pose proof (Z.div_mod y 100). pose proof (Z.div_mod (y - 1) 100).
    pose proof (Z.mod_pos_bound y 100). pose proof (Z.mod_pos_bound (y - 1) 100).
    pose proof (Z.div_mod y 400). pose proof (Z.div_mod (y - 1) 400).
    pose proof (Z.mod_pos_bound y 400). pose proof (Z.mod_pos_bound (y - 1) 400).
    lia.
  - assert (N : ~ (y mod 4 = 0 /\ (y mod 100 <> 0 \/ y mod 400 = 0))).
    { rewrite <- is_leap_mod. congruence. }
    pose proof (Z.div_mod y 4). pose proof (Z.div_mod (y - 1) 4).
    pose proof (Z.mod_pos_bound y 4). pose proof (Z.mod_pos_bound (y - 1) 4).
    pose proof (Z.div_mod y 100). pose proof (Z.div_mod (y - 1) 100).
    pose proof (Z.mod_pos_bound y 100). pose proof (Z.mod_pos_bound (y - 1) 100).
    pose proof (Z.div_mod y 400). pose proof (Z.div_mod (y - 1) 400).
    pose proof (Z.mod_pos_bound y 400). pose proof (Z.mod_pos_bound (y - 1) 400).
    lia.
Qed.

Lemma days_before_year_mono (y1 y2 : Z) :
  y1 <= y2 -> days_before_year y1 <= days_before_year y2.
Proof.
  intros H. unfold days_before_year.
  pose proof (Z.div_mod (y1 - 1) 4). pose proof (Z.div_mod (y2 - 1) 4).
  pose proof (Z.mod_pos_bound (y1 - 1) 4). pose proof (Z.mod_pos_bound (y2 - 1) 4).
  pose proof (Z.div_mod (y1 - 1) 100). pose proof (Z.div_mod (y2 - 1) 100).
  pose proof (Z.mod_pos_bound (y1 - 1) 100). pose proof (Z.mod_pos_bound (y2 - 1) 100).
  pose proof (Z.div_mod (y1 - 1) 400). pose proof (Z.div_mod (y2 - 1) 400).
  pose proof (Z.mod_pos_bound (y1 - 1) 400). pose proof (Z.mod_pos_bound (y2 - 1) 400).
  lia.
Qed.

(* The day of the year of a valid date lies within its year. *)
Lemma day_of_year_bounds (y m d : Z) :
  1 <= m <= 12 -> 1 <= d <= days_in_month y m ->
  1 <= days_before_month y m + d <= 365 + (if is_leap y then 1 else 0).
Proof.
  intros Hm Hd. unfold days_before_month, days_in_month in *.
  destruct (is_leap y); month_cases m; eval_tables;
    cbn [andb Z.eqb Z.ltb Z.compare Pos.compare Pos.compare_cont Pos.eqb] in *;
    lia.
Qed.

(* Within a year, a later month starts after the earlier month has ended. *)
Lemma days_before_month_mono (y m1 m2 : Z) :
  1 <= m1 -> m1 < m2 -> m2 <= 12 ->
  days_before_month y m1 + days_in_month y m1 <= days_before_month y m2.
Proof.
  intros H1 H12 H2. unfold days_before_month, days_in_month.
  destruct (is_leap y); month_cases m1; month_cases m2;
    try lia; eval_tables;
    cbn [andb Z.eqb Z.ltb Z.compare Pos.compare Pos.compare_cont Pos.eqb];
    lia.
Qed.

Lemma valid_date_spec (d : date) :
  valid_date d = true <->
  1 <= year d <= 9999 /\ 1 <= month d <= 12
  /\ 1 <= day d <= days_in_month (year d) (month d).
Proof.
  unfold valid_date, MINYEAR, MAXYEAR.
  rewrite !andb_true_iff, !Z.leb_le. tauto.
Qed.

Lemma date_ltb_spec (a b : date) :
  date_ltb a b = true <->
  year a < year b
  \/ (year a = year b
      /\ (month a < month b \/ (month a = month b /\ day a < day b))).
Proof.
  unfold date_ltb.
  rewrite !orb_true_iff, !andb_true_iff, !orb_true_iff, !andb_true_iff,
    !Z.ltb_lt, !Z.eqb_eq.
  reflexivity.
Qed.

(** Comparing two dates as tuples agrees with comparing their ordinals. *)
Lemma toordinal_lt (a b : date) :
  valid_date a = true -> valid_date b = true ->
  date_ltb a b = true -> toordinal a < toordinal b.
Proof.
  intros Va Vb L.
  apply valid_date_spec in Va. apply valid_date_spec in Vb.
  apply date_ltb_spec in L.
  destruct a as [ya ma da], b as [yb mb db]; simpl in *.
  unfold toordinal, ymd2ord; simpl.
  destruct L as [Ly | [Ey [Lm | [Em Ld]]]].
  - pose proof (day_of_year_bounds ya ma da ltac:(lia) ltac:(lia)) as Ba.
    pose proof (day_of_year_bounds yb mb db ltac:(lia) ltac:(lia)) as Bb.
    pose proof (days_before_year_succ ya) as S.
    pose proof (days_before_year_mono (ya + 1) yb ltac:(lia)) as M.
    lia.
  - subst yb.
    pose proof (days_before_month_mono ya ma mb ltac:(lia) Lm ltac:(lia)).
    lia.
  - subst yb mb. lia.
Qed.

Lemma date_eq_or_lt (a b : date) :
  date_ltb b a = false -> a = b \/ date_ltb a b = true.
Proof.
  intros N.
  destruct (date_ltb a b) eqn:L; [right; reflexivity | left].
  assert (Na : ~ (date_ltb b a = true)) by congruence.
  assert (Nb : ~ (date_ltb a b = true)) by congruence.
  rewrite date_ltb_spec in Na, Nb.
  destruct a as [ya ma da], b as [yb mb db]; simpl in *.
  assert (ya = yb) by lia. assert (ma = mb) by lia. assert (da = db) by lia.
  congruence.
Qed.

Lemma toordinal_le (a b : date) :
  valid_date a = true -> valid_date b = true ->
  date_leb a b = true -> toordinal a <= toordinal b.
Proof.
  intros Va Vb L. unfold date_leb in L. apply negb_true_iff in L.
  destruct (date_eq_or_lt a b L) as [-> | Lt]; [lia | ].
  pose proof (toordinal_lt a b Va Vb Lt). lia.
Qed.

Lemma date_new_valid (y m d : Z) (x : date) :
  date_new y m d = Ok x -> valid_date x = true /\ x = mkdate y m d.
Proof.
  unfold date_new. destruct (valid_date (mkdate y m d)) eqn:V; intros H.
  - injection H as <-. split; [exact V | reflexivity].
  - discriminate H.
Qed.

(** A string is either turned into a date that exists or refused with
    [ValueError]. *)
Lemma strptime_ymd_cases (s : string) :
  (exists d, strptime_ymd s = Ok d /\ valid_date d = true)
  \/ strptime_ymd s = Raise ValueError.
Proof.
  unfold strptime_ymd.
  repeat match goal with
         | |- context [match ?x with _ => _ end] =>
             destruct x; try (right; reflexivity)
         end.
  unfold date_new.
  match goal with
  | |- context [valid_date ?x] => destruct (valid_date x) eqn:V
  end.
  - left. eexists. split; [reflexivity | exact V].
  - right. reflexivity.
Qed.

End PyDateFacts.

Import PyDateFacts.

(** ** Program calendar *)

Lemma get_program_info_eq : get_program_info = Ok (start_date, end_date).
Proof. vm_compute. reflexivity. Qed.

Example strptime_iso : strptime_ymd "2025-06-16" = Ok (mkdate 2025 6 16).
Proof. vm_compute. reflexivity. Qed.

Example strptime_unpadded : strptime_ymd "2025-6-2" = Ok (mkdate 2025 6 2).
Proof. vm_compute. reflexivity. Qed.

Example strptime_trailing : strptime_ymd "2025-06-311" = Raise ValueError.
Proof. vm_compute. reflexivity. Qed.

Example strptime_month13 : strptime_ymd "2025-13-01" = Raise ValueError.
Proof. vm_compute. reflexivity. Qed.

Example week_of_start : get_week_number (TDate start_date) = Ok 1.
Proof. vm_compute. reflexivity. Qed.

Example week_of_last_day : get_week_number (TDate (mkdate 2025 12 28)) = Ok 30.
Proof. vm_compute. reflexivity. Qed.

Example week_of_string : get_week_number (TStr "2025-06-16") = Ok 3.
Proof. vm_compute. reflexivity. Qed.

Lemma end_date_is_start_plus_30_weeks :
  date_add start_date (timedelta_weeks 30) = Ok end_date
  /\ toordinal end_date = toordinal start_date + 210.
Proof. split; vm_compute; reflexivity. Qed.

Lemma get_week_number_date (d : date) :
  get_week_number (TDate d)
  = Ok (Z.max 1 (Z.min 30 (sub_days d start_date / 7 + 1))).
Proof. unfold get_week_number. rewrite get_program_info_eq. reflexivity. Qed.

Lemma get_week_number_str (s : string) :
  get_week_number (TStr s)
  = (d <- strptime_ymd s ;; get_week_number (TDate d)).
Proof.
  unfold get_week_number. rewrite get_program_info_eq. simpl.
  destruct (strptime_ymd s); reflexivity.
Qed.

Lemma week_in_range (n : Z) : 1 <= Z.max 1 (Z.min 30 n) <= 30.
Proof. lia. Qed.

(** C4: for every calendar date the week number is
    floor(days since the program start / 7) + 1 clamped to [1, 30]; a date
    before the start is in week 1, a date at or after the start plus 210 days
    is in week 30, and inside the window the week is the unclamped floor. *)
Theorem get_week_number_floor_clamped (d : date) :
  valid_date d = true ->
  exists w,
    get_week_number (TDate d) = Ok w
    /\ w = Z.max 1 (Z.min 30 (sub_days d start_date / 7 + 1))
    /\ 1 <= w <= 30
    /\ (date_ltb d start_date = true -> w = 1)
    /\ (forall e, date_add start_date 210 = Ok e -> date_leb e d = true -> w = 30)
    /\ (date_leb start_date d = true -> date_ltb d end_date = true ->
        7 * (w - 1) <= sub_days d start_date < 7 * w).
Proof.
  intros V.
  assert (Vs : valid_date start_date = true) by reflexivity.
  assert (Ve : valid_date end_date = true) by reflexivity.
  destruct end_date_is_start_plus_30_weeks as [Eadd Eord].
  exists (Z.max 1 (Z.min 30 (sub_days d start_date / 7 + 1))).
  split; [apply get_week_number_date | ].
  split; [reflexivity | ].
  split; [apply week_in_range | ].
  unfold sub_days.
  split; [ | split].
  - intros L. pose proof (toordinal_lt _ _ V Vs L) as Lo.
    assert ((toordinal d - toordinal start_date) / 7 < 0)
      by (apply Z.div_lt_upper_bound; lia).
    lia.
  - intros e He L.
    change (timedelta_weeks 30) with 210 in Eadd.
    rewrite Eadd in He. injection He as <-.
    pose proof (toordinal_le _ _ Ve V L) as Lo.
    assert (30 <= (toordinal d - toordinal start_date) / 7)
      by (apply Z.div_le_lower_bound; lia).
    lia.
  - intros L1 L2.
    pose proof (toordinal_le _ _ Vs V L1) as Lo1.
    pose proof (toordinal_lt _ _ V Ve L2) as Lo2.
    pose proof (Z.div_mod (toordinal d - toordinal start_date) 7 ltac:(lia)).
    pose proof (Z.mod_pos_bound (toordinal d - toordinal start_date) 7 ltac:(lia)).
    assert (0 <= (toordinal d - toordinal start_date) / 7)
      by (apply Z.div_pos; lia).
    assert ((toordinal d - toordinal start_date) / 7 < 30)
      by (apply Z.div_lt_upper_bound; lia).
    lia.
Qed.

Lemma get_week_number_floor_clamped_witness :
  valid_date (mkdate 2025 6 16) = true
  /\ exists w,
      get_week_number (TDate (mkdate 2025 6 16)) = Ok w
      /\ w = Z.max 1 (Z.min 30 (sub_days (mkdate 2025 6 16) start_date / 7 + 1))
      /\ 1 <= w <= 30
      /\ (date_ltb (mkdate 2025 6 16) start_date = true -> w = 1)
      /\ (forall e, date_add start_date 210 = Ok e ->
                    date_leb e (mkdate 2025 6 16) = true -> w = 30)
      /\ (date_leb start_date (mkdate 2025 6 16) = true ->
          date_ltb (mkdate 2025 6 16) end_date = true ->
          7 * (w - 1) <= sub_days (mkdate 2025 6 16) start_date < 7 * w).
Proof.
  split; [reflexivity | ].
  apply (get_week_number_floor_clamped (mkdate 2025 6 16)). reflexivity.
Defined.

(** C6, as the claim states it, fails: a string that is not a date, or that
    names a day that does not exist, makes [get_week_number] raise
    [ValueError]. *)
Lemma get_week_number_raises_on_malformed :
  get_week_number (TStr "next monday") = Raise ValueError
  /\ get_week_number (TStr "2025-02-30") = Raise ValueError
  /\ ~ (forall t, exists w, get_week_number t = Ok w /\ 1 <= w <= 30).
Proof.
  split; [vm_compute; reflexivity | ].
  split; [vm_compute; reflexivity | ].
  intros H. destruct (H (TStr "next monday")) as [w [Hw _]].
  vm_compute in Hw. discriminate Hw.
Qed.

(** C6, amended: [get_week_number] never raises for a date object, inside
    or outside the program window, nor for a string that [strptime] accepts,
    and the week is then in [1, 30]; a string that [strptime] refuses makes
    it raise [ValueError]. *)
Theorem get_week_number_total_on_dates :
  (forall d, exists w, get_week_number (TDate d) = Ok w /\ 1 <= w <= 30)
  /\ (forall s,
         (exists d w, strptime_ymd s = Ok d /\ valid_date d = true
                      /\ get_week_number (TStr s) = Ok w /\ 1 <= w <= 30)
         \/ (strptime_ymd s = Raise ValueError
             /\ get_week_number (TStr s) = Raise ValueError)).
Proof.
  split.
  - intros d. eexists. split; [apply get_week_number_date | apply week_in_range].
  - intros s. rewrite get_week_number_str.
    destruct (strptime_ymd_cases s) as [[d [Hd V]] | Hr].
    + left. exists d, (Z.max 1 (Z.min 30 (sub_days d start_date / 7 + 1))).
      rewrite Hd. cbn [bind].
      split; [reflexivity | ]. split; [exact V | ].
      split; [apply get_week_number_date | apply week_in_range].
    + right. rewrite Hr. split; reflexivity.
Qed.

(** C7: for every date, [is_strength_available] answers true exactly when
    the week number is at least 3, which is from the fifteenth day of the
    program on; for any argument it raises exactly when [get_week_number]
    does. *)
Theorem is_strength_available_iff_week_ge_3 :
  (forall d : date,
      exists w b,
        get_week_number (TDate d) = Ok w
        /\ is_strength_available (TDate d) = Ok b
        /\ (b = true <-> w >= 3)
        /\ (b = true <-> 14 <= sub_days d start_date))
  /\ (forall t : target,
         match get_week_number t with
         | Ok w => exists b, is_strength_available t = Ok b /\ (b = true <-> w >= 3)
         | Raise e => is_strength_available t = Raise e
         end).
Proof.
  split.
  - intros d. unfold is_strength_available. rewrite get_week_number_date.
    cbn [bind]. do 2 eexists.
    split; [reflexivity | ]. split; [reflexivity | ].
    rewrite Z.leb_le.
    pose proof (Z.div_mod (sub_days d start_date) 7 ltac:(lia)).
    pose proof (Z.mod_pos_bound (sub_days d start_date) 7 ltac:(lia)).
    split; lia.
  - intros t. unfold is_strength_available.
    destruct (get_week_number t) as [w | e]; cbn [bind].
    + eexists. split; [reflexivity | ]. rewrite Z.leb_le. lia.
    + reflexivity.
Qed.

(** ** Numbers *)

Local Open Scope Q_scope.

Lemma numQ_add (a b : num) : numQ (num_add a b) == numQ a + numQ b.
Proof.
  destruct a as [x | p], b as [y | q]; cbn [num_add numQ]; try reflexivity.
  rewrite inject_Z_plus. reflexivity.
Qed.

Lemma numQ_sub (a b : num) : numQ (num_sub a b) == numQ a - numQ b.
Proof.
  destruct a as [x | p], b as [y | q]; cbn [num_sub numQ]; try reflexivity.
  unfold Z.sub, Qminus. rewrite inject_Z_plus, inject_Z_opp. reflexivity.
Qed.

Lemma Qsum_app (xs ys : list Q) : Qsum (xs ++ ys) == Qsum xs + Qsum ys.
Proof.
  induction xs as [ | x xs IH]; simpl.
  - ring.
  - rewrite IH. ring.
Qed.

Lemma numQ_fold_add (xs : list num) (a : num) :
  numQ (fold_left num_add xs a) == numQ a + Qsum (map numQ xs).
Proof.
  revert a. induction xs as [ | x xs IH]; intros a; simpl.
  - ring.
  - rewrite IH, numQ_add. ring.
Qed.

Lemma numQ_py_sum (xs : list num) : numQ (py_sum xs) == Qsum (map numQ xs).
Proof.
  unfold py_sum. rewrite numQ_fold_add. simpl. ring.
Qed.

Lemma num_truediv_Ok (a b : num) :
  ~ numQ b == 0 -> num_truediv a b = Ok (Float (numQ a / numQ b)).
Proof.
  intros H. unfold num_truediv.
  destruct (Qeq_bool (numQ b) 0) eqn:E; [ | reflexivity].
  apply Qeq_bool_iff in E. contradiction.
Qed.

Lemma num_gtb_spec (a b : num) : num_gtb a b = true <-> numQ b < numQ a.
Proof.
  unfold num_gtb. rewrite negb_true_iff.
  split; intros H.
  - apply Qnot_le_lt. intros L. apply Qle_bool_iff in L. congruence.
  - destruct (Qle_bool (numQ a) (numQ b)) eqn:E; [ | reflexivity].
    apply Qle_bool_iff in E. exfalso. apply (Qlt_not_le _ _ H E).
Qed.

Lemma num_truthy_false (a : num) : num_truthy a = false -> numQ a == 0.
Proof.
  unfold num_truthy. rewrite negb_false_iff. apply Qeq_bool_iff.
Qed.

Lemma len_pos {A : Type} (x : A) (xs : list A) : 0 < numQ (len (x :: xs)).
Proof.
  unfold len. cbn [numQ]. change 0 with (inject_Z 0).
  rewrite <- Zlt_Qlt. cbn [List.length]. lia.
Qed.

Lemma len_nonzero {A : Type} (x : A) (xs : list A) : ~ numQ (len (x :: xs)) == 0.
Proof.
  intros H. pose proof (len_pos x xs) as P. rewrite H in P.
  exact (Qlt_irrefl 0 P).
Qed.

(** ** The aggregator on a non-empty mapping *)

Lemma numQ_get_or_0 (field : option num) : numQ (get_or_0 field) == counted field.
Proof.
  destruct field as [n | ]; simpl; [ | reflexivity].
  destruct (num_truthy n) eqn:T; [reflexivity | ].
  symmetry. apply num_truthy_false. exact T.
Qed.

Lemma collect_present (records : list Entry.t) (ws bs : list num) :
  fold_left collect records (ws, bs)
  = (ws ++ present_values Entry.weight records,
     bs ++ present_values Entry.blood_sugar records).
Proof.
  revert ws bs. induction records as [ | r records IH]; intros ws bs.
  - simpl. rewrite !app_nil_r. reflexivity.
  - cbn [fold_left present_values flat_map]. unfold collect at 2.
    assert (G : forall v : num,
               (if num_gtb v (Int 0) then true else false)
               = (if Qlt_le_dec 0 (numQ v) then true else false)).
    { intros v. destruct (Qlt_le_dec 0 (numQ v)) as [P | N].
      - apply (num_gtb_spec v (Int 0)) in P. rewrite P. reflexivity.
      - destruct (num_gtb v (Int 0)) eqn:E; [ | reflexivity].
        apply num_gtb_spec in E. exfalso. apply (Qlt_not_le _ _ E N). }
    rewrite IH. fold (present_values Entry.weight records).
    fold (present_values Entry.blood_sugar records).
    f_equal.
    + destruct (Entry.weight r) as [w | ]; [ | reflexivity].
      specialize (G w).
      destruct (num_gtb w (Int 0)), (Qlt_le_dec 0 (numQ w));
        try discriminate G; rewrite <- ?app_assoc; reflexivity.
    + destruct (Entry.blood_sugar r) as [b | ]; [ | reflexivity].
      specialize (G b).
      destruct (num_gtb b (Int 0)), (Qlt_le_dec 0 (numQ b));
        try discriminate G; rewrite <- ?app_assoc; reflexivity.
Qed.

(** On a non-empty mapping the aggregator returns all fourteen statistics. *)
Lemma get_summary_stats_nonempty (data_dict : dict string Entry.t) :
  data_dict <> [] ->
  get_summary_stats data_dict = Ok (summary (values data_dict)).
Proof.
  intros NE. unfold summary.
  set (records := values data_dict).
  set (weights := present_values Entry.weight records).
  set (blood_sugars := present_values Entry.blood_sugar records).
  destruct data_dict as [ | kv rest]; [contradiction | ].
  unfold get_summary_stats. cbn [is_empty].
  assert (L : len (kv :: rest) = len records).
  { unfold len, records, values. rewrite length_map. reflexivity. }
  rewrite L.
  fold records.
  fold (total Entry.treadmill_time records) (total Entry.steps records)
       (total Entry.lunch_walk_time records) (sessions records).
  rewrite (num_truediv_Ok _ (Int 100)) by (intros H; discriminate H).
  cbn [bind].
  rewrite (collect_present records [] []). cbn [app].
  fold weights blood_sugars.
  assert (P : num_gtb (len records) (Int 0) = true).
  { apply num_gtb_spec. unfold records, values. cbn [map]. apply len_pos. }
  assert (N : ~ numQ (len records) == 0).
  { unfold records, values. cbn [map]. apply len_nonzero. }
  rewrite P. rewrite !(num_truediv_Ok _ (len records)) by exact N.
  cbn [bind].
  assert (Mw : forall xs : list num,
             (if is_empty xs then Ok (Int 0)
              else num_truediv (py_sum xs) (len xs)) = Ok (mean xs)).
  { intros [ | x xs]; [reflexivity | ].
    cbn [is_empty mean]. apply num_truediv_Ok. apply len_nonzero. }
  rewrite !Mw. cbn [bind].
  assert (Lw : (if is_empty weights then Int 0 else last weights (Int 0))
               = latest weights) by (destruct weights; reflexivity).
  rewrite Lw.
  assert (Cw : (if num_gtb (len weights) (Int 1)
                then num_sub (last weights (Int 0)) (hd (Int 0) weights)
                else Int 0) = change weights).
  { destruct weights as [ | a [ | b ws]]; try reflexivity.
    assert (G : num_gtb (len (a :: b :: ws)) (Int 1) = true).
    { apply num_gtb_spec. unfold len. cbn [numQ].
      rewrite <- Zlt_Qlt. cbn [List.length]. lia. }
    rewrite G. reflexivity. }
  rewrite Cw. reflexivity.
Qed.

Lemma summary_fields (records : list Entry.t) :
  let st := summary records in
  let weights := present_values Entry.weight records in
  let blood_sugars := present_values Entry.blood_sugar records in
  stat "total_days" st = Ok (len records)
  /\ stat "total_treadmill" st = Ok (total Entry.treadmill_time records)
  /\ stat "total_steps" st = Ok (total Entry.steps records)
  /\ stat "total_lunch_walks" st = Ok (total Entry.lunch_walk_time records)
  /\ stat "total_exercise_time" st = Ok (exercise_time records)
  /\ stat "avg_exercise_time" st = Ok (per_day (exercise_time records) records)
  /\ stat "strength_sessions" st = Ok (sessions records)
  /\ stat "avg_weight" st = Ok (mean weights)
  /\ stat "latest_weight" st = Ok (latest weights)
  /\ stat "avg_blood_sugar" st = Ok (mean blood_sugars)
  /\ stat "weight_change" st = Ok (change weights).
Proof. cbv zeta. repeat split; reflexivity. Qed.

Lemma summary_averages (records : list Entry.t) :
  let st := summary records in
  stat "avg_treadmill" st = Ok (per_day (total Entry.treadmill_time records) records)
  /\ stat "avg_steps" st = Ok (per_day (total Entry.steps records) records)
  /\ stat "avg_lunch_walks" st
     = Ok (per_day (total Entry.lunch_walk_time records) records).
Proof. cbv zeta. repeat split; reflexivity. Qed.

Lemma numQ_total (field : Entry.t -> option num) (records : list Entry.t) :
  numQ (total field records) == Qsum (map (fun data => counted (field data)) records).
Proof.
  unfold total. rewrite numQ_py_sum, map_map.
  induction records as [ | r records IH]; simpl.
  - reflexivity.
  - rewrite IH, numQ_get_or_0. reflexivity.
Qed.

Lemma numQ_exercise_time (records : list Entry.t) :
  numQ (exercise_time records)
  == numQ (total Entry.treadmill_time records)
     + numQ (total Entry.steps records) / 100
     + numQ (total Entry.lunch_walk_time records).
Proof.
  unfold exercise_time. rewrite !numQ_add. cbn [numQ]. reflexivity.
Qed.

Lemma mean_spec (xs : list num) :
  (xs = [] -> mean xs = Int 0)
  /\ (xs <> [] ->
      numQ (mean xs) == Qsum (map numQ xs) / inject_Z (Z.of_nat (List.length xs))).
Proof.
  split.
  - intros ->. reflexivity.
  - intros NE. destruct xs as [ | x xs]; [contradiction | ].
    unfold mean. cbn [numQ]. rewrite numQ_py_sum. reflexivity.
Qed.

Lemma change_spec (xs : list num) :
  ((1 < List.length xs)%nat ->
   numQ (change xs) == numQ (last xs (Int 0)) - numQ (hd (Int 0) xs))
  /\ ((List.length xs <= 1)%nat -> change xs = Int 0).
Proof.
  split; intros H.
  - destruct xs as [ | a [ | b xs]]; cbn [List.length] in H; try lia.
    unfold change. apply numQ_sub.
  - destruct xs as [ | a [ | b xs]]; cbn [List.length] in H; try lia; reflexivity.
Qed.

Lemma latest_spec (xs : list num) :
  (xs = [] -> latest xs = Int 0) /\ (xs <> [] -> latest xs = last xs (Int 0)).
Proof.
  split.
  - intros ->. reflexivity.
  - intros NE. destruct xs; [contradiction | reflexivity].
Qed.

Lemma present_values_app (field : Entry.t -> option num) (l1 l2 : list Entry.t) :
  present_values field (l1 ++ l2)
  = present_values field l1 ++ present_values field l2.
Proof. unfold present_values. apply flat_map_app. Qed.

Lemma present_values_In (field : Entry.t -> option num) (records : list Entry.t)
      (v : num) :
  In v (present_values field records)
  <-> exists data, In data records /\ field data = Some v /\ 0 < numQ v.
Proof.
  unfold present_values. rewrite in_flat_map.
  split; intros [data [Hin H]]; exists data; split; try exact Hin.
  - destruct (field data) as [x | ]; [ | contradiction].
    destruct (Qlt_le_dec 0 (numQ x)) as [P | N]; [ | contradiction].
    destruct H as [-> | []]. split; [reflexivity | exact P].
  - destruct H as [-> P].
    destruct (Qlt_le_dec 0 (numQ v)) as [_ | N]; [left; reflexivity | ].
    exfalso. apply (Qlt_not_le _ _ P N).
Qed.

(* A field that is missing and a field that holds a number not above zero
   are dropped alike. *)
Lemma present_values_skip (field : Entry.t -> option num) (data : Entry.t)
      (records : list Entry.t) :
  (field data = None \/ exists z, field data = Some z /\ numQ z <= 0) ->
  present_values field (data :: records) = present_values field records.
Proof.
  intros H. unfold present_values. cbn [flat_map].
  destruct H as [-> | [z [-> Hz]]]; [reflexivity | ].
  destruct (Qlt_le_dec 0 (numQ z)) as [P | _]; [ | reflexivity].
  exfalso. apply (Qlt_not_le _ _ P Hz).
Qed.

(* Two record lists that agree on every field the aggregator sums and on
   their present values have the same statistics. *)
Lemma summary_ext (r1 r2 : list Entry.t) :
  map Entry.treadmill_time r1 = map Entry.treadmill_time r2 ->
  map Entry.steps r1 = map Entry.steps r2 ->
  map Entry.lunch_walk_time r1 = map Entry.lunch_walk_time r2 ->
  map Entry.strength_training r1 = map Entry.strength_training r2 ->
  present_values Entry.weight r1 = present_values Entry.weight r2 ->
  present_values Entry.blood_sugar r1 = present_values Entry.blood_sugar r2 ->
  summary r1 = summary r2.
Proof.
  intros T S L G W B.
  assert (Len : len r1 = len r2).
  { unfold len. rewrite <- (length_map Entry.steps r1), S, length_map. reflexivity. }
  assert (Tot : forall f, map f r1 = map f r2 -> total f r1 = total f r2).
  { intros f E. unfold total.
    rewrite <- (map_map f get_or_0 r1), <- (map_map f get_or_0 r2), E.
    reflexivity. }
  assert (Ses : sessions r1 = sessions r2).
  { unfold sessions. f_equal.
    assert (N : forall l : list Entry.t,
               List.length (filter (fun d => get_flag (Entry.strength_training d)) l)
               = List.length (filter get_flag (map Entry.strength_training l))).
    { induction l as [ | x l IH]; [reflexivity | ].
      cbn [filter map]. destruct (get_flag (Entry.strength_training x));
        cbn [List.length]; rewrite IH; reflexivity. }
    assert (M : forall (l1 l2 : list Entry.t),
               List.length l1 = List.length l2 ->
               map (fun _ : Entry.t => Int 1) l1 = map (fun _ : Entry.t => Int 1) l2).
    { induction l1 as [ | a l1 IH]; intros [ | b l2] E; try discriminate E.
      - reflexivity.
      - cbn [map]. f_equal. apply IH. injection E as E. exact E. }
    apply M. rewrite !N, G. reflexivity. }
  unfold summary, exercise_time, per_day, exercise_time.
  rewrite Len, (Tot _ T), (Tot _ S), (Tot _ L), Ses, W, B.
  reflexivity.
Qed.

Lemma summary_weight_absent_or_zero (l1 l2 : list Entry.t) (data : Entry.t)
      (z : num) :
  numQ z <= 0 ->
  summary (l1 ++ with_weight (Some z) data :: l2)
  = summary (l1 ++ with_weight None data :: l2).
Proof.
  intros Hz.
  apply summary_ext; rewrite ?map_app, ?present_values_app; try reflexivity.
  f_equal.
  rewrite (present_values_skip Entry.weight (with_weight (Some z) data))
    by (right; exists z; split; [reflexivity | exact Hz]).
  rewrite (present_values_skip Entry.weight (with_weight None data))
    by (left; reflexivity).
  reflexivity.
Qed.

Lemma summary_blood_sugar_absent_or_zero (l1 l2 : list Entry.t) (data : Entry.t)
      (z : num) :
  numQ z <= 0 ->
  summary (l1 ++ with_blood_sugar (Some z) data :: l2)
  = summary (l1 ++ with_blood_sugar None data :: l2).
Proof.
  intros Hz.
  apply summary_ext; rewrite ?map_app, ?present_values_app; try reflexivity.
  f_equal.
  rewrite (present_values_skip Entry.blood_sugar (with_blood_sugar (Some z) data))
    by (right; exists z; split; [reflexivity | exact Hz]).
  rewrite (present_values_skip Entry.blood_sugar (with_blood_sugar None data))
    by (left; reflexivity).
  reflexivity.
Qed.

Lemma values_app {K V : Type} (d1 d2 : dict K V) :
  values (d1 ++ d2) = values d1 ++ values d2.
Proof. apply map_app. Qed.

(** ** Claims about the aggregator *)

(** C1, as the claim states it, fails: on the empty mapping the aggregator
    returns the empty dict, which has no [total_days] nor any other field. *)
Lemma get_summary_stats_empty_not_zeroed :
  get_summary_stats [] = Ok []
  /\ (st <- get_summary_stats [] ;; stat "total_days" st)
     = Raise KeyError
  /\ ~ (exists st, get_summary_stats [] = Ok st
                   /\ stat "total_days" st = Ok (Int 0)).
Proof.
  split; [reflexivity | ]. split; [reflexivity | ].
  intros [st [H1 H2]]. injection H1 as <-. discriminate H2.
Qed.

(** C1, amended: on the empty mapping the aggregator never raises and
    returns the empty dict; it holds no statistic at all, so reading any
    field of it raises [KeyError], and only the empty mapping gives it. *)
Theorem get_summary_stats_empty :
  ~ raises (get_summary_stats [])
  /\ get_summary_stats [] = Ok []
  /\ (forall key st, get_summary_stats [] = Ok st ->
                     stat key st = Raise KeyError)
  /\ (forall data_dict : dict string Entry.t,
         get_summary_stats data_dict = Ok [] <-> data_dict = []).
Proof.
  split; [apply Ok_not_raises | ]. split; [reflexivity | ]. split.
  - intros key st H. injection H as <-. reflexivity.
  - intros data_dict. split.
    + intros H. destruct data_dict as [ | kv rest]; [reflexivity | ].
      rewrite get_summary_stats_nonempty in H by discriminate.
      discriminate H.
    + intros ->. reflexivity.
Qed.

Lemma get_summary_stats_empty_witness :
  get_summary_stats [] = Ok []
  /\ stat "total_days" [] = Raise KeyError
  /\ (get_summary_stats [] = Ok [] <-> @nil (string * Entry.t) = []).
Proof.
  destruct get_summary_stats_empty as (_ & H2 & H3 & H4).
  split; [exact H2 | ].
  split; [exact (H3 "total_days"%string [] H2) | exact (H4 [])].
Defined.

(** C3: on every non-empty mapping the composite exercise time is
    total_treadmill + total_steps / 100 + total_lunch_walks, where each
    total is the sum of its field over the records, and its average divides
    it by the number of records; steps 1000 and 0 give total_steps 1000,
    total_exercise_time 10.0 and total_days 2. *)
Theorem exercise_time_is_composite :
  (forall data_dict : dict string Entry.t,
      data_dict <> [] ->
      exists st tt ts tl tex avg,
        get_summary_stats data_dict = Ok st
        /\ stat "total_days" st = Ok (Int (Z.of_nat (List.length data_dict)))
        /\ stat "total_treadmill" st = Ok tt
        /\ stat "total_steps" st = Ok ts
        /\ stat "total_lunch_walks" st = Ok tl
        /\ stat "total_exercise_time" st = Ok tex
        /\ stat "avg_exercise_time" st = Ok avg
        /\ numQ tt
           == Qsum (map (fun kv => counted (Entry.treadmill_time (snd kv))) data_dict)
        /\ numQ ts == Qsum (map (fun kv => counted (Entry.steps (snd kv))) data_dict)
        /\ numQ tl
           == Qsum (map (fun kv => counted (Entry.lunch_walk_time (snd kv))) data_dict)
        /\ numQ tex == numQ tt + numQ ts / 100 + numQ tl
        /\ numQ avg == numQ tex / inject_Z (Z.of_nat (List.length data_dict)))
  /\ (exists st tex,
         get_summary_stats steps_example = Ok st
         /\ stat "total_steps" st = Ok (Int 1000)
         /\ stat "total_exercise_time" st = Ok (Float tex)
         /\ tex == 10
         /\ stat "total_days" st = Ok (Int 2)).
Proof.
  split.
  - intros data_dict NE.
    rewrite (get_summary_stats_nonempty data_dict NE).
    set (records := values data_dict).
    destruct (summary_fields records)
      as (Hd & Htt & Hts & Htl & Htex & Havg & _).
    exists (summary records), (total Entry.treadmill_time records),
      (total Entry.steps records), (total Entry.lunch_walk_time records),
      (exercise_time records), (per_day (exercise_time records) records).
    assert (L : len records = Int (Z.of_nat (List.length data_dict))).
    { unfold len, records, values. rewrite length_map. reflexivity. }
    rewrite <- L.
    repeat (split; [first [reflexivity | assumption] | ]).
    split; [ | split; [ | split; [ | split]]].
    + rewrite numQ_total. unfold records, values. rewrite map_map. reflexivity.
    + rewrite numQ_total. unfold records, values. rewrite map_map. reflexivity.
    + rewrite numQ_total. unfold records, values. rewrite map_map. reflexivity.
    + apply numQ_exercise_time.
    + unfold per_day. cbn [numQ]. rewrite L. reflexivity.
  - eexists. eexists. split; [vm_compute; reflexivity | ].
    repeat split; reflexivity.
Qed.

Lemma exercise_time_is_composite_witness :
  steps_example <> []
  /\ exists st tt ts tl tex avg,
      get_summary_stats steps_example = Ok st
      /\ stat "total_days" st = Ok (Int (Z.of_nat (List.length steps_example)))
      /\ stat "total_treadmill" st = Ok tt
      /\ stat "total_steps" st = Ok ts
      /\ stat "total_lunch_walks" st = Ok tl
      /\ stat "total_exercise_time" st = Ok tex
      /\ stat "avg_exercise_time" st = Ok avg
      /\ numQ tt
         == Qsum (map (fun kv => counted (Entry.treadmill_time (snd kv))) steps_example)
      /\ numQ ts == Qsum (map (fun kv => counted (Entry.steps (snd kv))) steps_example)
      /\ numQ tl
         == Qsum (map (fun kv => counted (Entry.lunch_walk_time (snd kv))) steps_example)
      /\ numQ tex == numQ tt + numQ ts / 100 + numQ tl
      /\ numQ avg == numQ tex / inject_Z (Z.of_nat (List.length steps_example)).
Proof.
  split; [discriminate | ].
  apply (proj1 exercise_time_is_composite steps_example). discriminate.
Defined.

Example weights_example_stats :
  exists st avg chg,
    get_summary_stats weights_example = Ok st
    /\ stat "avg_weight" st = Ok (Float avg) /\ avg == 69.25
    /\ stat "latest_weight" st = Ok (Float 68.5)
    /\ stat "weight_change" st = Ok (Float chg) /\ chg == -1.5
    /\ stat "avg_blood_sugar" st = Ok (Int 0)
    /\ stat "total_days" st = Ok (Int 3).
Proof.
  do 3 eexists. split; [vm_compute; reflexivity | ].
  repeat split; reflexivity.
Qed.

(** C5: the weight and blood-sugar statistics are taken over the present
    values only, the recorded values strictly greater than zero, and are
    divided by the number of present values; a field that is absent and a
    field that holds zero give the same statistics; weight_change is last
    minus first of the present weights when there are at least two, else 0. *)
Theorem weight_and_blood_sugar_over_present_values :
  (forall data_dict : dict string Entry.t,
      data_dict <> [] ->
      let weights := present_values Entry.weight (values data_dict) in
      let blood_sugars := present_values Entry.blood_sugar (values data_dict) in
      exists st avg_w latest_w chg avg_b,
        get_summary_stats data_dict = Ok st
        /\ stat "avg_weight" st = Ok avg_w
        /\ stat "latest_weight" st = Ok latest_w
        /\ stat "weight_change" st = Ok chg
        /\ stat "avg_blood_sugar" st = Ok avg_b
        /\ (forall v, In v weights <->
                      exists kv, In kv data_dict
                                 /\ Entry.weight (snd kv) = Some v /\ 0 < numQ v)
        /\ (forall v, In v blood_sugars <->
                      exists kv, In kv data_dict
                                 /\ Entry.blood_sugar (snd kv) = Some v /\ 0 < numQ v)
        /\ (weights = [] -> avg_w = Int 0 /\ latest_w = Int 0)
        /\ (weights <> [] ->
            numQ avg_w
            == Qsum (map numQ weights) / inject_Z (Z.of_nat (List.length weights))
            /\ latest_w = last weights (Int 0))
        /\ ((1 < List.length weights)%nat ->
            numQ chg == numQ (last weights (Int 0)) - numQ (hd (Int 0) weights))
        /\ ((List.length weights <= 1)%nat -> chg = Int 0)
        /\ (blood_sugars = [] -> avg_b = Int 0)
        /\ (blood_sugars <> [] ->
            numQ avg_b
            == Qsum (map numQ blood_sugars)
               / inject_Z (Z.of_nat (List.length blood_sugars))))
  /\ (forall (d1 d2 : dict string Entry.t) (key : string) (data : Entry.t) (z : num),
         numQ z <= 0 ->
         get_summary_stats (d1 ++ (key, with_weight (Some z) data) :: d2)
         = get_summary_stats (d1 ++ (key, with_weight None data) :: d2)
         /\ get_summary_stats (d1 ++ (key, with_blood_sugar (Some z) data) :: d2)
            = get_summary_stats (d1 ++ (key, with_blood_sugar None data) :: d2)).
Proof.
  split.
  - intros data_dict NE weights blood_sugars.
    rewrite (get_summary_stats_nonempty data_dict NE).
    set (records := values data_dict) in *.
    destruct (summary_fields records)
      as (_ & _ & _ & _ & _ & _ & _ & Haw & Hlw & Hab & Hch).
    fold weights in Haw, Hlw, Hch. fold blood_sugars in Hab.
    exists (summary records), (mean weights), (latest weights),
      (change weights), (mean blood_sugars).
    assert (In_values : forall (field : Entry.t -> option num) v,
               In v (present_values field records) <->
               exists kv, In kv data_dict /\ field (snd kv) = Some v /\ 0 < numQ v).
    { intros field v. rewrite present_values_In. unfold records, values.
      split.
      - intros [data [Hin H]]. apply in_map_iff in Hin.
        destruct Hin as [kv [<- Hkv]]. exists kv. split; assumption.
      - intros [kv [Hkv H]]. exists (snd kv). split; [ | exact H].
        apply in_map. exact Hkv. }
    repeat (split; [first [reflexivity | assumption] | ]).
    split; [apply In_values | ]. split; [apply In_values | ].
    split; [intros E; split;
            [apply (proj1 (mean_spec weights) E)
            | apply (proj1 (latest_spec weights) E)] | ].
    split; [intros N; split;
            [apply (proj2 (mean_spec weights) N)
            | apply (proj2 (latest_spec weights) N)] | ].
    split; [apply (proj1 (change_spec weights)) | ].
    split; [apply (proj2 (change_spec weights)) | ].
    split; [apply (proj1 (mean_spec blood_sugars))
           | apply (proj2 (mean_spec blood_sugars))].
  - intros d1 d2 key data z Hz.
    assert (NE : forall (x : string * Entry.t), d1 ++ x :: d2 <> []).
    { intros x E. apply app_eq_nil in E. destruct E as [_ E]. discriminate E. }
    rewrite !get_summary_stats_nonempty by apply NE.
    rewrite !values_app. cbn [values map snd].
    split; f_equal.
    + apply summary_weight_absent_or_zero. exact Hz.
    + apply summary_blood_sugar_absent_or_zero. exact Hz.
Qed.

Lemma weight_and_blood_sugar_over_present_values_witness :
  weights_example <> []
  /\ (numQ (Float 0) <= 0
      /\ get_summary_stats
           ([] ++ ("2025-06-04"%string, with_weight (Some (Float 0)) blank)
               :: weights_example)
         = get_summary_stats
             ([] ++ ("2025-06-04"%string, with_weight None blank)
                 :: weights_example))
  /\ exists st avg_w latest_w chg avg_b,
      get_summary_stats weights_example = Ok st
      /\ stat "avg_weight" st = Ok avg_w
      /\ stat "latest_weight" st = Ok latest_w
      /\ stat "weight_change" st = Ok chg
      /\ stat "avg_blood_sugar" st = Ok avg_b.
Proof.
  pose proof (proj1 weight_and_blood_sugar_over_present_values
                weights_example ltac:(discriminate)) as H.
  pose proof (proj2 weight_and_blood_sugar_over_present_values
                [] weights_example "2025-06-04"%string blank (Float 0)
                ltac:(discriminate)) as G.
  cbv zeta in H.
  destruct H as (st & avg_w & latest_w & chg & avg_b & H1 & H2 & H3 & H4 & H5 & _).
  split; [discriminate | ].
  split; [split; [discriminate | exact (proj1 G)] | ].
  exists st, avg_w, latest_w, chg, avg_b.
  repeat split; assumption.
Defined.

(** ** Dictionaries *)

Section DictFacts.
Context {K V : Type}.
Variable K_eqb : K -> K -> bool.
Hypothesis K_eqb_eq : forall a b, K_eqb a b = true <-> a = b.

Lemma K_eqb_refl (k : K) : K_eqb k k = true.
Proof. apply K_eqb_eq. reflexivity. Qed.

Lemma K_eqb_neq (a b : K) : a <> b -> K_eqb a b = false.
Proof.
  intros N. destruct (K_eqb a b) eqn:E; [ | reflexivity].
  apply K_eqb_eq in E. contradiction.
Qed.

Lemma dict_get_set_same (k : K) (v : V) (d : dict K V) :
  dict_get K_eqb k (dict_set K_eqb k v d) = Some v.
Proof.
  induction d as [ | [k' v'] d IH]; cbn [dict_set dict_get].
  - rewrite K_eqb_refl. reflexivity.
  - destruct (K_eqb k k') eqn:E; cbn [dict_get]; rewrite E.
    + reflexivity.
    + exact IH.
Qed.

Lemma dict_get_set_other (k k0 : K) (v : V) (d : dict K V) :
  k0 <> k ->
  dict_get K_eqb k0 (dict_set K_eqb k v d) = dict_get K_eqb k0 d.
Proof.
  intros N. induction d as [ | [k' v'] d IH]; cbn [dict_set dict_get].
  - rewrite (K_eqb_neq k0 k N). reflexivity.
  - destruct (K_eqb k k') eqn:E; cbn [dict_get].
    + apply K_eqb_eq in E. subst k'. rewrite (K_eqb_neq k0 k N). reflexivity.
    + rewrite IH. reflexivity.
Qed.

Lemma dict_set_In (k k0 : K) (v v0 : V) (d : dict K V) :
  In (k0, v0) (dict_set K_eqb k v d) -> v0 = v \/ In (k0, v0) d.
Proof.
  induction d as [ | [k' v'] d IH]; cbn [dict_set].
  - intros [H | []]. left. congruence.
  - destruct (K_eqb k k') eqn:E.
    + intros [H | H].
      * left. congruence.
      * right. right. exact H.
    + intros [H | H].
      * right. left. exact H.
      * destruct (IH H) as [-> | Hin]; [left; reflexivity | right; right; exact Hin].
Qed.

(* Setting a key that is not in the dict appends the item. *)
Lemma dict_set_fresh (k : K) (v : V) (d : dict K V) :
  ~ In k (keys d) -> dict_set K_eqb k v d = d ++ [(k, v)].
Proof.
  induction d as [ | [k' v'] d IH]; cbn [dict_set keys map fst app]; intros N.
  - reflexivity.
  - rewrite K_eqb_neq by (intros ->; apply N; left; reflexivity).
    f_equal. apply IH. intros Hin. apply N. right. exact Hin.
Qed.

Lemma dict_get_In (k : K) (v : V) (d : dict K V) :
  dict_get K_eqb k d = Some v -> In (k, v) d.
Proof.
  induction d as [ | [k' v'] d IH]; cbn [dict_get]; intros H.
  - discriminate H.
  - destruct (K_eqb k k') eqn:E.
    + apply K_eqb_eq in E. left. congruence.
    + right. apply IH. exact H.
Qed.
End DictFacts.

(** ** Records written by the entry form *)

Lemma positive_or_none_spec (v : option num) :
  absent_or_positive (positive_or_none v)
  /\ (forall z, v = Some z -> numQ z <= 0 -> positive_or_none v = None)
  /\ (forall z, v = Some z -> 0 < numQ z -> positive_or_none v = Some z)
  /\ (v = None -> positive_or_none v = None).
Proof.
  unfold absent_or_positive, positive_or_none.
  destruct v as [x | ].
  - destruct (num_truthy x) eqn:T; cbn [andb].
    + destruct (num_gtb x (Int 0)) eqn:G.
      * apply num_gtb_spec in G. cbn [numQ] in G.
        split; [right; exists x; split; [reflexivity | exact G] | ].
        split; [ | split; [ | discriminate]]; intros z Hz Hs; injection Hz as <-.
        -- exfalso. apply (Qlt_not_le _ _ G Hs).
        -- reflexivity.
      * split; [left; reflexivity | ].
        split; [ | split; [ | discriminate]]; intros z Hz Hs; injection Hz as <-.
        -- reflexivity.
        -- apply (num_gtb_spec x (Int 0)) in Hs. congruence.
    + split; [left; reflexivity | ].
      split; [ | split; [ | discriminate]]; intros z Hz Hs; injection Hz as <-.
      * reflexivity.
      * apply num_truthy_false in T. rewrite T in Hs.
        exfalso. exact (Qlt_irrefl 0 Hs).
  - split; [left; reflexivity | ].
    split; [ | split; [ | reflexivity]]; intros z Hz; discriminate Hz.
Qed.

Lemma show_daily_entry_eq (tracker_data : dict string Entry.t)
      (selected_date : date) (widgets : Form.t) :
  exists week_num,
    get_week_number (TDate selected_date) = Ok week_num
    /\ (1 <= week_num <= 30)%Z
    /\ show_daily_entry tracker_data selected_date widgets
       = Ok (dict_set String.eqb (strftime_ymd selected_date)
               (saved_record selected_date widgets week_num) tracker_data).
Proof.
  eexists. split; [apply get_week_number_date | ].
  split; [apply week_in_range | ].
  unfold show_daily_entry, is_strength_available.
  rewrite get_week_number_date. reflexivity.
Qed.

Lemma out_of_order_store_written :
  (td <- show_daily_entry [] june_17 (form_with_weight 68.5) ;;
   show_daily_entry td june_16 (form_with_weight 70))
  = Ok out_of_order_store
  /\ written out_of_order_store.
Proof.
  split; [vm_compute; reflexivity | ].
  apply (written_save
           [("2025-06-17"%string, saved_record june_17 (form_with_weight 68.5) 3)]
           _ june_16 (form_with_weight 70)).
  - apply (written_save [] _ june_17 (form_with_weight 68.5)).
    + apply written_empty.
    + vm_compute. reflexivity.
  - vm_compute. reflexivity.
Qed.

(** C9: a save stores weight and blood_sugar as absent or as a strictly
    positive number: an entered value that is not above zero, or no value,
    is stored as absent and a positive value is stored as entered; so every
    record of a store built by the form has these fields absent or
    positive. *)
Theorem saved_optionals_absent_or_positive :
  (forall (tracker_data : dict string Entry.t) (selected_date : date)
          (widgets : Form.t),
      exists tracker_data' data,
        show_daily_entry tracker_data selected_date widgets = Ok tracker_data'
        /\ dict_get String.eqb (strftime_ymd selected_date) tracker_data' = Some data
        /\ absent_or_positive (Entry.weight data)
        /\ absent_or_positive (Entry.blood_sugar data)
        /\ (forall z, Form.weight widgets = Some z -> numQ z <= 0 ->
                      Entry.weight data = None)
        /\ (forall z, Form.weight widgets = Some z -> 0 < numQ z ->
                      Entry.weight data = Some z)
        /\ (forall z, Form.blood_sugar widgets = Some z -> numQ z <= 0 ->
                      Entry.blood_sugar data = None)
        /\ (forall z, Form.blood_sugar widgets = Some z -> 0 < numQ z ->
                      Entry.blood_sugar data = Some z)
        /\ (forall key, key <> strftime_ymd selected_date ->
                        dict_get String.eqb key tracker_data'
                        = dict_get String.eqb key tracker_data))
  /\ (forall tracker_data : dict string Entry.t,
         written tracker_data ->
         forall key data,
           In (key, data) tracker_data ->
           absent_or_positive (Entry.weight data)
           /\ absent_or_positive (Entry.blood_sugar data)).
Proof.
  assert (Save : forall (tracker_data : dict string Entry.t) (selected_date : date)
                        (widgets : Form.t),
             exists week_num,
               show_daily_entry tracker_data selected_date widgets
               = Ok (dict_set String.eqb (strftime_ymd selected_date)
                       (saved_record selected_date widgets week_num) tracker_data)).
  { intros td d f. destruct (show_daily_entry_eq td d f) as [w [_ [_ H]]].
    exists w. exact H. }
  split.
  - intros td d f. destruct (Save td d f) as [w Hw].
    exists (dict_set String.eqb (strftime_ymd d) (saved_record d f w) td),
      (saved_record d f w).
    split; [exact Hw | ].
    split; [apply dict_get_set_same; apply String.eqb_eq | ].
    cbn [saved_record Entry.weight Entry.blood_sugar].
    destruct (positive_or_none_spec (Form.weight f)) as (W1 & W2 & W3 & _).
    destruct (positive_or_none_spec (Form.blood_sugar f)) as (B1 & B2 & B3 & _).
    repeat (split; [assumption | ]).
    intros key N. apply dict_get_set_other; [apply String.eqb_eq | exact N].
  - intros td W. induction W as [ | td td' d f W IH Hs].
    + intros key data [].
    + intros key data Hin.
      destruct (Save td d f) as [w Hw]. rewrite Hw in Hs. injection Hs as <-.
      apply dict_set_In in Hin. destruct Hin as [-> | Hin].
      * cbn [saved_record Entry.weight Entry.blood_sugar].
        split; apply positive_or_none_spec.
      * apply (IH key data Hin).
Qed.

Lemma saved_optionals_absent_or_positive_witness :
  written out_of_order_store
  /\ In ("2025-06-16"%string, saved_record june_16 (form_with_weight 70) 3)
        out_of_order_store
  /\ absent_or_positive
       (Entry.weight (saved_record june_16 (form_with_weight 70) 3))
  /\ absent_or_positive
       (Entry.blood_sugar (saved_record june_16 (form_with_weight 70) 3)).
Proof.
  split; [exact (proj2 out_of_order_store_written) | ].
  split; [right; left; reflexivity | ].
  apply (proj2 saved_optionals_absent_or_positive out_of_order_store
               (proj2 out_of_order_store_written) "2025-06-16"%string).
  right. left. reflexivity.
Defined.

Lemma sessions_skip (l1 l2 : list Entry.t) (data : Entry.t) :
  counts_as_session data = false ->
  sessions (l1 ++ data :: l2) = sessions (l1 ++ l2).
Proof.
  intros H. unfold sessions. rewrite !filter_app. cbn [filter].
  unfold counts_as_session in H. rewrite H. reflexivity.
Qed.

(** C10: a save for a date whose week number is below 3 stores
    strength_training = False whatever the form holds, so the record adds
    nothing to strength_sessions; in a store built by the form every record
    whose stored week is below 3 has the flag False. *)
Theorem early_week_saves_without_strength :
  (forall (tracker_data : dict string Entry.t) (selected_date : date)
          (widgets : Form.t) (week_num : Z),
      get_week_number (TDate selected_date) = Ok week_num ->
      (week_num < 3)%Z ->
      exists tracker_data' data,
        show_daily_entry tracker_data selected_date widgets = Ok tracker_data'
        /\ dict_get String.eqb (strftime_ymd selected_date) tracker_data' = Some data
        /\ Entry.week data = Some week_num
        /\ Entry.strength_training data = Some false
        /\ (forall l1 l2, sessions (l1 ++ data :: l2) = sessions (l1 ++ l2))
        /\ (st <- get_summary_stats [(strftime_ymd selected_date, data)] ;;
            stat "strength_sessions" st) = Ok (Int 0))
  /\ (forall tracker_data : dict string Entry.t,
         written tracker_data ->
         forall key data,
           In (key, data) tracker_data ->
           exists week_num,
             Entry.week data = Some week_num
             /\ ((week_num < 3)%Z -> Entry.strength_training data = Some false)).
Proof.
  split.
  - intros td d f w Hw Lt.
    destruct (show_daily_entry_eq td d f) as [w' [Hw' [_ Hs]]].
    rewrite Hw in Hw'. injection Hw' as <-.
    exists (dict_set String.eqb (strftime_ymd d) (saved_record d f w) td),
      (saved_record d f w).
    assert (F : Entry.strength_training (saved_record d f w) = Some false).
    { cbn [saved_record Entry.strength_training].
      destruct (Z.leb_spec 3 w); [lia | reflexivity]. }
    split; [exact Hs | ].
    split; [apply dict_get_set_same; apply String.eqb_eq | ].
    split; [reflexivity | ]. split; [exact F | ]. split.
    + intros l1 l2. apply sessions_skip. unfold counts_as_session.
      rewrite F. reflexivity.
    + rewrite get_summary_stats_nonempty by discriminate. cbn [bind].
      destruct (summary_fields (values [(strftime_ymd d, saved_record d f w)]))
        as (_ & _ & _ & _ & _ & _ & Hss & _).
      rewrite Hss. cbn [values map snd]. unfold sessions. cbn [filter].
      rewrite F. reflexivity.
  - intros td W. induction W as [ | td td' d f W IH Hs].
    + intros key data [].
    + intros key data Hin.
      destruct (show_daily_entry_eq td d f) as [w [_ [_ Hw]]].
      rewrite Hw in Hs. injection Hs as <-.
      apply dict_set_In in Hin. destruct Hin as [-> | Hin].
      * exists w. split; [reflexivity | ]. intros Lt.
        cbn [saved_record Entry.strength_training].
        destruct (Z.leb_spec 3 w); [lia | reflexivity].
      * apply (IH key data Hin).
Qed.

Lemma early_week_saves_without_strength_witness :
  get_week_number (TDate june_10) = Ok 2%Z
  /\ (2 < 3)%Z
  /\ exists tracker_data' data,
      show_daily_entry out_of_order_store june_10 (form_with_weight 69)
      = Ok tracker_data'
      /\ dict_get String.eqb (strftime_ymd june_10) tracker_data' = Some data
      /\ Entry.week data = Some 2%Z
      /\ Entry.strength_training data = Some false
      /\ (forall l1 l2, sessions (l1 ++ data :: l2) = sessions (l1 ++ l2))
      /\ (st <- get_summary_stats [(strftime_ymd june_10, data)] ;;
          stat "strength_sessions" st) = Ok (Int 0).
Proof.
  split; [vm_compute; reflexivity | ].
  split; [reflexivity | ].
  apply (proj1 early_week_saves_without_strength
               out_of_order_store june_10 (form_with_weight 69) 2%Z).
  - vm_compute. reflexivity.
  - reflexivity.
Defined.

(** C2 fails on the code: the weights are collected in the iteration order of
    the mapping, which is its insertion order.  After saving 17 June (68.5)
    and then 16 June (70), the all-time statistics report latest_weight 70
    and weight_change +1.5, while the same two records in date order, and
    the weekly view of the same store, give 68.5 and -1.5. *)
Theorem latest_weight_follows_insertion_order :
  let by_date := [ ("2025-06-16", saved_record june_16 (form_with_weight 70) 3);
                   ("2025-06-17", saved_record june_17 (form_with_weight 68.5) 3)
                 ]%string in
  (td <- show_daily_entry [] june_17 (form_with_weight 68.5) ;;
   show_daily_entry td june_16 (form_with_weight 70))
  = Ok out_of_order_store
  /\ Permutation by_date out_of_order_store
  /\ (st <- get_summary_stats out_of_order_store ;; stat "latest_weight" st)
     = Ok (Float 70)
  /\ (st <- get_summary_stats by_date ;; stat "latest_weight" st)
     = Ok (Float 68.5)
  /\ (exists c1 c2,
         (st <- get_summary_stats out_of_order_store ;; stat "weight_change" st)
         = Ok (Float c1)
         /\ (st <- get_summary_stats by_date ;; stat "weight_change" st)
            = Ok (Float c2)
         /\ c1 == 1.5 /\ c2 == -1.5)
  /\ week_data_of out_of_order_store 3 = Ok by_date.
Proof.
  cbv zeta. split; [exact (proj1 out_of_order_store_written) | ].
  split; [apply perm_swap | ].
  split; [vm_compute; reflexivity | ].
  split; [vm_compute; reflexivity | ].
  split; [ | vm_compute; reflexivity].
  do 2 eexists.
  split; [vm_compute; reflexivity | ].
  split; [vm_compute; reflexivity | ].
  split; reflexivity.
Qed.

(** ** Sums over partitions *)

Lemma measure_app (m : Entry.t -> Q) (l1 l2 : list Entry.t) :
  measure m (l1 ++ l2) == measure m l1 + measure m l2.
Proof. unfold measure. rewrite map_app. apply Qsum_app. Qed.

Lemma measure_concat (m : Entry.t -> Q) (groups : list (list Entry.t)) :
  measure m (List.concat groups) == Qsum (map (measure m) groups).
Proof.
  induction groups as [ | g groups IH]; cbn [List.concat map Qsum fold_right].
  - reflexivity.
  - rewrite measure_app, IH. reflexivity.
Qed.

Lemma Qsum_Permutation (xs ys : list Q) :
  Permutation xs ys -> Qsum xs == Qsum ys.
Proof.
  induction 1 as [ | x xs ys P IH | x y xs | xs ys zs P1 IH1 P2 IH2];
    cbn [Qsum fold_right].
  - reflexivity.
  - fold (Qsum xs) (Qsum ys). rewrite IH. reflexivity.
  - ring.
  - rewrite IH1. exact IH2.
Qed.

Lemma measure_Permutation (m : Entry.t -> Q) (l1 l2 : list Entry.t) :
  Permutation l1 l2 -> measure m l1 == measure m l2.
Proof.
  intros P. unfold measure. apply Qsum_Permutation. apply Permutation_map. exact P.
Qed.

Lemma numQ_len (records : list Entry.t) : numQ (len records) == measure one records.
Proof.
  unfold len, measure. cbn [numQ].
  induction records as [ | r records IH].
  - reflexivity.
  - cbn [List.length map Qsum fold_right]. fold (Qsum (map one records)).
    rewrite <- IH. unfold one. rewrite Nat2Z.inj_succ, <- Z.add_1_l.
    rewrite inject_Z_plus. reflexivity.
Qed.

Lemma numQ_total_measure (field : Entry.t -> option num) (records : list Entry.t) :
  numQ (total field records) == measure (fun data => counted (field data)) records.
Proof. apply numQ_total. Qed.

Lemma numQ_sessions (records : list Entry.t) :
  numQ (sessions records) == measure session records.
Proof.
  unfold sessions, measure. rewrite numQ_py_sum.
  induction records as [ | r records IH].
  - reflexivity.
  - cbn [filter map Qsum fold_right]. unfold session at 1, counts_as_session.
    destruct (get_flag (Entry.strength_training r)).
    + cbn [map Qsum fold_right numQ]. fold (Qsum (map session records)).
      rewrite <- IH. reflexivity.
    + fold (Qsum (map session records)). rewrite <- IH. unfold Qsum. ring.
Qed.

Lemma measure_plus (m1 m2 : Entry.t -> Q) (records : list Entry.t) :
  measure (fun d => m1 d + m2 d) records == measure m1 records + measure m2 records.
Proof.
  unfold measure. induction records as [ | r records IH];
    cbn [map Qsum fold_right].
  - ring.
  - fold (Qsum (map (fun d => m1 d + m2 d) records)) (Qsum (map m1 records))
         (Qsum (map m2 records)).
    rewrite IH. ring.
Qed.

Lemma measure_scale (m : Entry.t -> Q) (c : Q) (records : list Entry.t) :
  measure (fun d => m d / c) records == measure m records / c.
Proof.
  unfold measure. induction records as [ | r records IH];
    cbn [map Qsum fold_right].
  - unfold Qdiv. ring.
  - fold (Qsum (map (fun d => m d / c) records)) (Qsum (map m records)).
    rewrite IH. unfold Qdiv. ring.
Qed.

Lemma numQ_exercise_time_measure (records : list Entry.t) :
  numQ (exercise_time records) == measure exercise_minutes records.
Proof.
  rewrite numQ_exercise_time, !numQ_total_measure.
  unfold exercise_minutes.
  rewrite (measure_plus
             (fun d => counted (Entry.treadmill_time d) + counted (Entry.steps d) / 100)
             (fun d => counted (Entry.lunch_walk_time d))).
  rewrite (measure_plus (fun d => counted (Entry.treadmill_time d))
                        (fun d => counted (Entry.steps d) / 100)).
  rewrite (measure_scale (fun d => counted (Entry.steps d)) 100).
  reflexivity.
Qed.

(** ** The dict built from a week's entries *)

Lemma day_key_inj (i j : nat) : day_key i = day_key j -> i = j.
Proof.
  unfold day_key. cbn [String.append]. intros H.
  injection H as H.
  apply DecimalNat.Unsigned.to_uint_inj.
  assert (S : Some (Nat.to_uint i) = Some (Nat.to_uint j)).
  { rewrite <- !NilEmpty.usu. rewrite H. reflexivity. }
  injection S as S. exact S.
Qed.

Lemma day_dict_fold (entries : list Entry.t) (k : nat) (acc : dict string Entry.t) :
  (forall key, In key (keys acc) -> exists i, (i < k)%nat /\ key = day_key i) ->
  fold_left (fun d ie => dict_set String.eqb (day_key (fst ie)) (snd ie) d)
            (combine (seq k (List.length entries)) entries) acc
  = acc ++ combine (map day_key (seq k (List.length entries))) entries.
Proof.
  revert k acc. induction entries as [ | e entries IH]; intros k acc Hacc.
  - cbn. rewrite app_nil_r. reflexivity.
  - cbn [List.length seq combine fold_left map fst snd].
    rewrite (dict_set_fresh String.eqb String.eqb_eq).
    + rewrite IH.
      * rewrite <- app_assoc. reflexivity.
      * intros key Hin. unfold keys in Hin. rewrite map_app in Hin.
        apply in_app_or in Hin. destruct Hin as [Hin | [<- | []]].
        -- destruct (Hacc key Hin) as [i [Hi ->]]. exists i. split; [lia | reflexivity].
        -- exists k. split; [lia | reflexivity].
    + intros Hin. destruct (Hacc _ Hin) as [i [Hi E]].
      apply day_key_inj in E. lia.
Qed.

Lemma values_combine {K V : Type} (ks : list K) (vs : list V) :
  List.length ks = List.length vs -> values (combine ks vs) = vs.
Proof.
  revert vs. induction ks as [ | k ks IH]; intros [ | v vs] E; try discriminate E.
  - reflexivity.
  - cbn [combine values map snd]. f_equal. apply IH. injection E as E. exact E.
Qed.

Lemma values_day_dict (entries : list Entry.t) : values (day_dict entries) = entries.
Proof.
  unfold day_dict. rewrite day_dict_fold by (intros key []).
  cbn [app]. apply values_combine. rewrite length_map, length_seq. reflexivity.
Qed.

Lemma get_summary_stats_day_dict (entries : list Entry.t) :
  entries <> [] -> get_summary_stats (day_dict entries) = Ok (summary entries).
Proof.
  intros NE. rewrite get_summary_stats_nonempty.
  - rewrite values_day_dict. reflexivity.
  - intros E. apply NE. rewrite <- (values_day_dict entries), E. reflexivity.
Qed.

(** ** The week partition of the monthly view *)

Section DictGroups.
Context {K V : Type}.
Variable K_eqb : K -> K -> bool.
Hypothesis K_eqb_eq : forall a b, K_eqb a b = true <-> a = b.

Lemma dict_set_new (k : K) (v : V) (d : dict K V) :
  dict_get K_eqb k d = None -> dict_set K_eqb k v d = d ++ [(k, v)].
Proof.
  induction d as [ | [k' v'] d IH]; cbn [dict_get dict_set app]; intros H.
  - reflexivity.
  - destruct (K_eqb k k'); [discriminate H | ].
    rewrite (IH H). reflexivity.
Qed.

Lemma dict_get_last (k : K) (v : V) (d : dict K V) :
  dict_get K_eqb k d = None -> dict_get K_eqb k (d ++ [(k, v)]) = Some v.
Proof.
  induction d as [ | [k' v'] d IH]; cbn [dict_get app]; intros H.
  - rewrite (K_eqb_refl K_eqb K_eqb_eq). reflexivity.
  - destruct (K_eqb k k'); [discriminate H | ]. apply IH. exact H.
Qed.

Lemma dict_set_last (k : K) (v v0 : V) (d : dict K V) :
  dict_get K_eqb k d = None ->
  dict_set K_eqb k v (d ++ [(k, v0)]) = d ++ [(k, v)].
Proof.
  induction d as [ | [k' v'] d IH]; cbn [dict_get dict_set app]; intros H.
  - rewrite (K_eqb_refl K_eqb K_eqb_eq). reflexivity.
  - destruct (K_eqb k k'); [discriminate H | ].
    rewrite (IH H). reflexivity.
Qed.

Lemma dict_set_old (k : K) (v old : V) (d : dict K V) :
  dict_get K_eqb k d = Some old ->
  exists d1 d2,
    d = d1 ++ (k, old) :: d2 /\ dict_set K_eqb k v d = d1 ++ (k, v) :: d2.
Proof.
  induction d as [ | [k' v'] d IH]; cbn [dict_get dict_set]; intros H.
  - discriminate H.
  - destruct (K_eqb k k') eqn:E.
    + apply K_eqb_eq in E. subst k'. injection H as ->.
      exists [], d. split; reflexivity.
    + destruct (IH H) as (d1 & d2 & -> & ->).
      exists ((k', v') :: d1), d2. split; reflexivity.
Qed.
End DictGroups.

Lemma add_to_week_step (g : dict Z (list Entry.t)) (item : string * Entry.t)
      (default : Z) :
  get_week_number (TStr (fst item)) = Ok default ->
  Forall nonempty (values g) ->
  exists g',
    add_to_week (Ok g) item = Ok g'
    /\ Forall nonempty (values g')
    /\ Permutation (List.concat (values g')) (List.concat (values g) ++ [snd item]).
Proof.
  intros Hd NE. unfold add_to_week. cbn [bind]. rewrite Hd. cbn [bind].
  set (week := match Entry.week (snd item) with
               | Some w => w
               | None => default
               end).
  unfold dict_mem, getitem.
  destruct (dict_get Z.eqb week g) as [old | ] eqn:G; cbn [negb].
  - rewrite G. cbn [bind].
    destruct (dict_set_old Z.eqb Z.eqb_eq week (old ++ [snd item]) old g G)
      as (d1 & d2 & E1 & E2).
    eexists. split; [reflexivity | ]. rewrite E2.
    rewrite E1 in NE. unfold values in *.
    rewrite map_app in *. cbn [map snd] in *.
    apply Forall_app in NE. destruct NE as [N1 N2].
    apply Forall_cons_iff in N2. destruct N2 as [_ N2].
    split.
    + apply Forall_app. split; [exact N1 | ].
      apply Forall_cons; [ | exact N2].
      intros E. apply app_eq_nil in E. destruct E as [_ E]. discriminate E.
    + rewrite E1, map_app. cbn [map snd].
      rewrite !concat_app. cbn [List.concat].
      rewrite <- !app_assoc.
      apply Permutation_app_head. apply Permutation_app_head.
      apply Permutation_app_comm.
  - rewrite (dict_set_new Z.eqb week [] g G).
    rewrite (dict_get_last Z.eqb Z.eqb_eq week [] g G). cbn [bind app].
    rewrite (dict_set_last Z.eqb Z.eqb_eq week [snd item] [] g G).
    eexists. split; [reflexivity | ].
    unfold values. rewrite map_app. cbn [map snd]. split.
    + apply Forall_app. split; [exact NE | ].
      apply Forall_cons; [discriminate | apply Forall_nil].
    + rewrite concat_app. cbn [List.concat app]. apply Permutation_refl.
Qed.

Lemma get_week_number_date_string (key : string) :
  is_date_string key -> exists w, get_week_number (TStr key) = Ok w.
Proof.
  intros [d Hd]. rewrite get_week_number_str, Hd. cbn [bind].
  eexists. apply get_week_number_date.
Qed.

Lemma weekly_data_fold (month_data : dict string Entry.t)
      (g : dict Z (list Entry.t)) :
  Forall is_date_string (keys month_data) ->
  Forall nonempty (values g) ->
  exists g',
    fold_left add_to_week month_data (Ok g) = Ok g'
    /\ Forall nonempty (values g')
    /\ Permutation (List.concat (values g'))
                   (List.concat (values g) ++ values month_data).
Proof.
  revert g. induction month_data as [ | item month_data IH]; intros g HK NE.
  - exists g. cbn [fold_left values map]. rewrite app_nil_r.
    split; [reflexivity | ]. split; [exact NE | apply Permutation_refl].
  - cbn [keys map] in HK. apply Forall_cons_iff in HK. destruct HK as [Hk HK].
    destruct (get_week_number_date_string _ Hk) as [w Hw].
    destruct (add_to_week_step g item w Hw NE) as (g1 & E1 & N1 & P1).
    cbn [fold_left]. rewrite E1.
    destruct (IH g1 HK N1) as (g' & E' & N' & P').
    exists g'. split; [exact E' | ]. split; [exact N' | ].
    cbn [values map]. fold (values month_data).
    eapply Permutation_trans; [exact P' | ].
    change (snd item :: values month_data) with ([snd item] ++ values month_data).
    rewrite app_assoc. apply Permutation_app_tail. exact P1.
Qed.

Lemma insert_item_Permutation {V : Type} (kv : Z * V) (l : list (Z * V)) :
  Permutation (insert_item kv l) (kv :: l).
Proof.
  induction l as [ | x l IH]; cbn [insert_item].
  - apply Permutation_refl.
  - destruct (fst kv <=? fst x)%Z.
    + apply Permutation_refl.
    + eapply Permutation_trans; [apply perm_skip; exact IH | apply perm_swap].
Qed.

Lemma sorted_items_Permutation {V : Type} (d : dict Z V) :
  Permutation (sorted_items d) d.
Proof.
  unfold sorted_items. induction d as [ | x d IH]; cbn [fold_right].
  - apply Permutation_refl.
  - eapply Permutation_trans; [apply insert_item_Permutation | ].
    apply perm_skip. exact IH.
Qed.

(* sorted(...) puts the weeks in ascending order. *)
Lemma insert_item_sorted {V : Type} (kv : Z * V) (l : list (Z * V)) :
  Sorted.StronglySorted (fun a b => (fst a <= fst b)%Z) l ->
  Sorted.StronglySorted (fun a b => (fst a <= fst b)%Z) (insert_item kv l).
Proof.
  induction 1 as [ | x l S IH F]; cbn [insert_item].
  - constructor; constructor.
  - destruct (Z.leb_spec (fst kv) (fst x)).
    + constructor; [constructor; assumption | ].
      constructor; [assumption | ].
      eapply Forall_impl; [ | exact F]. cbn beta. intros a Ha. lia.
    + constructor; [exact IH | ].
      eapply Permutation_Forall;
        [apply Permutation_sym; apply insert_item_Permutation | ].
      constructor; [lia | exact F].
Qed.

Lemma sorted_items_sorted {V : Type} (d : dict Z V) :
  Sorted.StronglySorted (fun a b => (fst a <= fst b)%Z) (sorted_items d).
Proof.
  unfold sorted_items. induction d as [ | x d IH]; cbn [fold_right].
  - constructor.
  - apply insert_item_sorted. exact IH.
Qed.

Lemma weekly_summary_fold (items : list (Z * list Entry.t))
      (acc : list (Z * dict string num)) :
  Forall nonempty (values items) ->
  fold_left
    (fun acc item =>
       weekly_summary <- acc ;;
       week_stats <- get_summary_stats (day_dict (snd item)) ;;
       _ <- stat "total_days" week_stats ;;
       _ <- stat "avg_treadmill" week_stats ;;
       _ <- stat "avg_steps" week_stats ;;
       _ <- stat "avg_lunch_walks" week_stats ;;
       _ <- stat "avg_exercise_time" week_stats ;;
       _ <- stat "strength_sessions" week_stats ;;
       Ok (weekly_summary ++ [(fst item, week_stats)]))
    items (Ok acc)
  = Ok (acc ++ week_rows items).
Proof.
  revert acc. induction items as [ | item items IH]; intros acc NE.
  - cbn. rewrite app_nil_r. reflexivity.
  - cbn [values map] in NE. apply Forall_cons_iff in NE. destruct NE as [N NE].
    cbn [fold_left bind].
    rewrite (get_summary_stats_day_dict (snd item) N). cbn [bind].
    destruct (summary_fields (snd item)) as (F1 & _ & _ & _ & _ & F6 & F7 & _).
    destruct (summary_averages (snd item)) as (A1 & A2 & A3).
    rewrite F1, A1, A2, A3, F6, F7. cbn [bind].
    rewrite (IH _ NE). cbn [week_rows map]. rewrite <- app_assoc. reflexivity.
Qed.

Lemma sum_stat_week_rows (key : string) (f : list Entry.t -> num)
      (m : Entry.t -> Q) (items : list (Z * list Entry.t)) :
  (forall es, stat key (summary es) = Ok (f es)) ->
  (forall es, numQ (f es) == measure m es) ->
  exists s,
    sum_stat key (week_rows items) = Ok s
    /\ numQ s == measure m (List.concat (values items)).
Proof.
  intros Hf Hm. induction items as [ | item items IH].
  - exists (Int 0). split; reflexivity.
  - destruct IH as (s & Hs & Es).
    exists (num_add (f (snd item)) s).
    cbn [week_rows map sum_stat snd]. fold (week_rows items).
    rewrite Hf, Hs. cbn [bind]. split; [reflexivity | ].
    cbn [values map List.concat]. fold (values items).
    rewrite numQ_add, measure_app, Hm, Es. reflexivity.
Qed.

Lemma week_rows_sorted (items : list (Z * list Entry.t)) :
  StronglySorted (fun a b => (fst a <= fst b)%Z) items ->
  StronglySorted (fun a b => (fst a <= fst b)%Z) (week_rows items).
Proof.
  induction 1 as [ | x l S IH F]; cbn [week_rows map].
  - constructor.
  - constructor; [exact IH | ].
    apply Forall_map. eapply Forall_impl; [ | exact F].
    cbn [fst]. intros a Ha. exact Ha.
Qed.

(* With floats read as exact rationals, the six totals of the week rows add
   up to the totals of the month. *)
Lemma partition_sums (month_data : dict string Entry.t) :
  month_data <> [] ->
  Forall is_date_string (keys month_data) ->
  partition_consistent month_data.
Proof.
  intros NE HK. unfold partition_consistent.
  rewrite (get_summary_stats_nonempty month_data NE).
  set (records := values month_data).
  destruct (weekly_data_fold month_data [] HK (Forall_nil _)) as (g & Eg & Ng & Pg).
  cbn [values map List.concat app] in Pg. fold (values g) records in Pg.
  assert (Ns : Forall nonempty (values (sorted_items g))).
  { eapply Permutation_Forall; [ | exact Ng].
    apply Permutation_map. apply Permutation_sym. apply sorted_items_Permutation. }
  exists (summary records), (week_rows (sorted_items g)).
  split; [reflexivity | ]. split.
  { assert (Eg' : weekly_data_of month_data = Ok g) by exact Eg.
    unfold weekly_summary_of. rewrite Eg'. cbn [bind].
    rewrite (weekly_summary_fold (sorted_items g) [] Ns). reflexivity. }
  split; [apply week_rows_sorted; apply sorted_items_sorted | ].
  assert (Sum : forall (m : Entry.t -> Q),
             measure m (List.concat (values (sorted_items g))) == measure m records).
  { intros m. rewrite measure_concat.
    rewrite (Qsum_Permutation _ (map (measure m) (values g))).
    - rewrite <- measure_concat. apply measure_Permutation. exact Pg.
    - apply Permutation_map. apply Permutation_map.
      apply sorted_items_Permutation. }
  assert (Row : forall key (f : list Entry.t -> num) (m : Entry.t -> Q),
             (forall es, stat key (summary es) = Ok (f es)) ->
             (forall es, numQ (f es) == measure m es) ->
             exists v s,
               stat key (summary records) = Ok v
               /\ sum_stat key (week_rows (sorted_items g)) = Ok s
               /\ num_eq s v).
  { intros key f m Hf Hm.
    destruct (sum_stat_week_rows key f m (sorted_items g) Hf Hm) as (s & Hs & Es).
    exists (f records), s. split; [apply Hf | ]. split; [exact Hs | ].
    unfold num_eq. rewrite Es, Sum, Hm. reflexivity. }
  intros key Hin. unfold total_keys in Hin. cbn [In] in Hin.
  destruct Hin as [<- | [<- | [<- | [<- | [<- | [<- | []]]]]]].
  - apply (Row _ (fun es => len es) one);
      [intros es; apply (summary_fields es) | apply numQ_len].
  - apply (Row _ (total Entry.treadmill_time)
               (fun d => counted (Entry.treadmill_time d)));
      [intros es; apply (summary_fields es) | apply numQ_total_measure].
  - apply (Row _ (total Entry.steps) (fun d => counted (Entry.steps d)));
      [intros es; apply (summary_fields es) | apply numQ_total_measure].
  - apply (Row _ (total Entry.lunch_walk_time)
               (fun d => counted (Entry.lunch_walk_time d)));
      [intros es; apply (summary_fields es) | apply numQ_total_measure].
  - apply (Row _ exercise_time exercise_minutes);
      [intros es; apply (summary_fields es) | apply numQ_exercise_time_measure].
  - apply (Row _ sessions session);
      [intros es; apply (summary_fields es) | apply numQ_sessions].
Qed.

Example june_store_rows :
  exists rows s2 s3 total,
    weekly_summary_of june_store = Ok rows
    /\ map fst rows = [2; 3]%Z
    /\ map (fun row => stat "total_days" (snd row)) rows = [Ok (Int 1); Ok (Int 2)]
    /\ map (fun row => stat "total_exercise_time" (snd row)) rows
       = [Ok (Float s2); Ok (Float s3)]
    /\ s2 == 85 /\ s3 == 170
    /\ (st <- get_summary_stats june_store ;; stat "total_exercise_time" st)
       = Ok (Float total)
    /\ total == 255.
Proof.
  do 4 eexists. split; [vm_compute; reflexivity | ].
  split; [reflexivity | ]. split; [reflexivity | ]. split; [reflexivity | ].
  split; [reflexivity | ]. split; [reflexivity | ].
  split; [vm_compute; reflexivity | reflexivity].
Qed.

(** The month filter keeps date-string keys only, so the monthly view meets
    the conditions of the partition theorem whenever it shows a month. *)
Lemma dict_set_keys (k k0 : string) (v : Entry.t) (d : dict string Entry.t) :
  In k0 (keys (dict_set String.eqb k v d)) -> k0 = k \/ In k0 (keys d).
Proof.
  induction d as [ | [k' v'] d IH]; cbn [dict_set keys map fst].
  - intros [H | []]. left. congruence.
  - destruct (String.eqb k k') eqn:E; cbn [map fst].
    + intros H. right. exact H.
    + intros [H | H]; [right; left; exact H | ].
      destruct (IH H) as [-> | Hin]; [left; reflexivity | right; right; exact Hin].
Qed.

Lemma add_to_month_raise (y m : Z) (e : exn) (l : dict string Entry.t) :
  fold_left (add_to_month y m) l (Raise e) = Raise e.
Proof. induction l as [ | x l IH]; [reflexivity | exact IH]. Qed.

Lemma add_to_month_keys (y m : Z) (tracker_data acc md : dict string Entry.t) :
  Forall is_date_string (keys acc) ->
  fold_left (add_to_month y m) tracker_data (Ok acc) = Ok md ->
  Forall is_date_string (keys md).
Proof.
  revert acc. induction tracker_data as [ | item td IH]; intros acc Hacc.
  - cbn [fold_left]. intros H. injection H as <-. exact Hacc.
  - cbn [fold_left]. unfold add_to_month at 2. cbn [bind].
    destruct (strptime_ymd (fst item)) as [d | e] eqn:P; cbn [bind].
    + destruct ((year d =? y) && (month d =? m))%Z.
      * apply IH. apply Forall_forall. intros k Hk.
        apply dict_set_keys in Hk. destruct Hk as [-> | Hk].
        -- exists d. exact P.
        -- rewrite Forall_forall in Hacc. apply Hacc. exact Hk.
      * apply IH. exact Hacc.
    + rewrite add_to_month_raise. intros H. discriminate H.
Qed.

Lemma month_data_of_keys (tracker_data : dict string Entry.t) (y m : Z)
      (month_data : dict string Entry.t) :
  month_data_of tracker_data y m = Ok month_data ->
  Forall is_date_string (keys month_data).
Proof.
  unfold month_data_of. apply add_to_month_keys. apply Forall_nil.
Qed.

Lemma june_store_keys : Forall is_date_string (keys june_store).
Proof.
  repeat constructor; eexists; vm_compute; reflexivity.
Qed.

(** The totals, the counts and the day averages do not depend on the order
    of the mapping; only latest_weight and weight_change do. *)
Lemma totals_order_independent (d1 d2 : dict string Entry.t) :
  Permutation d1 d2 ->
  forall key, In key total_keys ->
  match (st <- get_summary_stats d1 ;; stat key st),
        (st <- get_summary_stats d2 ;; stat key st) with
  | Ok v1, Ok v2 => num_eq v1 v2
  | Raise e1, Raise e2 => e1 = e2
  | _, _ => False
  end.
Proof.
  intros P key Hin.
  destruct d1 as [ | kv1 d1].
  - apply Permutation_nil in P. subst d2.
    unfold total_keys in Hin. cbn [In] in Hin.
    destruct Hin as [<- | [<- | [<- | [<- | [<- | [<- | []]]]]]]; reflexivity.
  - assert (N2 : d2 <> []).
    { intros ->. apply Permutation_sym, Permutation_nil in P. discriminate P. }
    rewrite !get_summary_stats_nonempty by (discriminate || exact N2).
    cbn [bind].
    assert (PV : Permutation (values (kv1 :: d1)) (values d2))
      by (apply Permutation_map; exact P).
    set (r1 := values (kv1 :: d1)) in *. set (r2 := values d2) in *.
    assert (Row : forall (f : list Entry.t -> num) (m : Entry.t -> Q),
               (forall es, stat key (summary es) = Ok (f es)) ->
               (forall es, numQ (f es) == measure m es) ->
               match stat key (summary r1), stat key (summary r2) with
               | Ok v1, Ok v2 => num_eq v1 v2
               | Raise e1, Raise e2 => e1 = e2
               | _, _ => False
               end).
    { intros f m Hf Hm. rewrite !Hf. unfold num_eq. rewrite !Hm.
      apply measure_Permutation. exact PV. }
    unfold total_keys in Hin. cbn [In] in Hin.
    destruct Hin as [<- | [<- | [<- | [<- | [<- | [<- | []]]]]]].
    + apply (Row (fun es => len es) one);
        [intros es; apply (summary_fields es) | apply numQ_len].
    + apply (Row (total Entry.treadmill_time)
                 (fun d => counted (Entry.treadmill_time d)));
        [intros es; apply (summary_fields es) | apply numQ_total_measure].
    + apply (Row (total Entry.steps) (fun d => counted (Entry.steps d)));
        [intros es; apply (summary_fields es) | apply numQ_total_measure].
    + apply (Row (total Entry.lunch_walk_time)
                 (fun d => counted (Entry.lunch_walk_time d)));
        [intros es; apply (summary_fields es) | apply numQ_total_measure].
    + apply (Row exercise_time exercise_minutes);
        [intros es; apply (summary_fields es) | apply numQ_exercise_time_measure].
    + apply (Row sessions session);
        [intros es; apply (summary_fields es) | apply numQ_sessions].
Qed.

(** * Further properties *)

Local Open Scope Z_scope.

(** ** Calendar *)

Local Open Scope Z_scope.

Lemma month_day_year (leapyear : bool) (n : Z) :
  0 <= n < 365 + (if leapyear then 1 else 0) ->
  month_day_ok leapyear (Z.to_nat n) = true.
Proof.
  intros H.
  assert (A : forallb (month_day_ok leapyear)
                      (seq 0 (if leapyear then 366 else 365)) = true).
  { destruct leapyear; vm_compute; reflexivity. }
  rewrite forallb_forall in A. apply A. apply in_seq.
  destruct leapyear; lia.
Qed.

Lemma ord2ymd_month_day (n : Z) :
  1 <= n ->
  exists (y r : Z) (leapyear : bool),
    0 <= r < 365 + (if leapyear then 1 else 0)
    /\ leapyear = is_leap y
    /\ n = days_before_year y + r + 1
    /\ 1 <= y
    /\ ord2ymd n = mkdate y (fst (month_day r leapyear)) (snd (month_day r leapyear)).
Proof.
  intros Hn. unfold ord2ymd.
  change DI400Y with 146097. change DI100Y with 36524. change DI4Y with 1461.
  set (n0 := n - 1).
  pose proof (Z.div_mod n0 146097 (ltac:(lia) : 146097 <> 0)) as E400.
  pose proof (Z.mod_pos_bound n0 146097 (ltac:(lia) : 0 < 146097)) as B400.
  set (n400 := n0 / 146097) in *. set (r1 := n0 mod 146097) in *.
  pose proof (Z.div_mod r1 36524 (ltac:(lia) : 36524 <> 0)) as E100.
  pose proof (Z.mod_pos_bound r1 36524 (ltac:(lia) : 0 < 36524)) as B100.
  set (n100 := r1 / 36524) in *. set (r2 := r1 mod 36524) in *.
  pose proof (Z.div_mod r2 1461 (ltac:(lia) : 1461 <> 0)) as E4.
  pose proof (Z.mod_pos_bound r2 1461 (ltac:(lia) : 0 < 1461)) as B4.
  set (n4 := r2 / 1461) in *. set (r3 := r2 mod 1461) in *.
  pose proof (Z.div_mod r3 365 (ltac:(lia) : 365 <> 0)) as E1.
  pose proof (Z.mod_pos_bound r3 365 (ltac:(lia) : 0 < 365)) as B1.
  set (n1 := r3 / 365) in *. set (r4 := r3 mod 365) in *.
  assert (0 <= n400) by (apply Z.div_pos; lia).
  assert (0 <= n100 <= 4) by lia.
  assert (0 <= n4 <= 24) by lia.
  assert (0 <= n1 <= 4) by lia.
  set (y := n400 * 400 + 1 + (n100 * 100 + n4 * 4 + n1)).
  assert (DBY : forall a b c d, 0 <= a -> 0 <= b <= 3 -> 0 <= c <= 24 -> 0 <= d <= 3 ->
                days_before_year (a * 400 + 1 + (b * 100 + c * 4 + d))
                = 146097 * a + 36524 * b + 1461 * c + 365 * d).
  { intros a b c d Ha Hb Hc Hd. unfold days_before_year.
    replace (a * 400 + 1 + (b * 100 + c * 4 + d) - 1)
      with (a * 400 + b * 100 + c * 4 + d) by ring.
    set (t := a * 400 + b * 100 + c * 4 + d).
    pose proof (Z.div_mod t 4 (ltac:(lia) : 4 <> 0)). pose proof (Z.mod_pos_bound t 4 (ltac:(lia) : 0 < 4)).
    pose proof (Z.div_mod t 100 (ltac:(lia) : 100 <> 0)). pose proof (Z.mod_pos_bound t 100 (ltac:(lia) : 0 < 100)).
    pose proof (Z.div_mod t 400 (ltac:(lia) : 400 <> 0)). pose proof (Z.mod_pos_bound t 400 (ltac:(lia) : 0 < 400)).
    lia. }
  assert (LEAP : forall a b c d, 0 <= a -> 0 <= b <= 3 -> 0 <= c <= 24 -> 0 <= d <= 3 ->
                 is_leap (a * 400 + 1 + (b * 100 + c * 4 + d))
                 = (d =? 3) && (negb (c =? 24) || (b =? 3))).
  { intros a b c d Ha Hb Hc Hd.
    set (t := a * 400 + 1 + (b * 100 + c * 4 + d)).
    pose proof (Z.div_mod t 4 (ltac:(lia) : 4 <> 0)). pose proof (Z.mod_pos_bound t 4 (ltac:(lia) : 0 < 4)).
    pose proof (Z.div_mod t 100 (ltac:(lia) : 100 <> 0)). pose proof (Z.mod_pos_bound t 100 (ltac:(lia) : 0 < 100)).
    pose proof (Z.div_mod t 400 (ltac:(lia) : 400 <> 0)). pose proof (Z.mod_pos_bound t 400 (ltac:(lia) : 0 < 400)).
    destruct (is_leap t) eqn:L.
    - apply is_leap_mod in L. symmetry.
      rewrite andb_true_iff, orb_true_iff, negb_true_iff, Z.eqb_eq, Z.eqb_neq, Z.eqb_eq.
      lia.
    - assert (N : ~ (t mod 4 = 0 /\ (t mod 100 <> 0 \/ t mod 400 = 0))).
      { rewrite <- is_leap_mod. congruence. }
      symmetry. apply not_true_iff_false.
      rewrite andb_true_iff, orb_true_iff, negb_true_iff, Z.eqb_eq, Z.eqb_neq, Z.eqb_eq.
      lia. }
  destruct ((n1 =? 4) || (n100 =? 4)) eqn:C.
  - (* the last day of a leap year *)
    apply orb_true_iff in C. rewrite !Z.eqb_eq in C.
    exists (y - 1), 365, true.
    assert (Ey : y - 1 = (if n100 =? 4 then n400 else n400) * 400 + 1
                         + ((if n100 =? 4 then 3 else n100) * 100
                            + (if n100 =? 4 then 24 else n4) * 4 + 3)).
    { unfold y. destruct (Z.eqb_spec n100 4); lia. }
    split; [lia | ].
    split.
    { rewrite Ey, LEAP by (destruct (Z.eqb_spec n100 4); lia).
      destruct (Z.eqb_spec n100 4); cbn; [reflexivity | ].
      destruct (Z.eqb_spec n4 24); [lia | reflexivity]. }
    split.
    { rewrite Ey, DBY by (destruct (Z.eqb_spec n100 4); lia).
      destruct (Z.eqb_spec n100 4); lia. }
    split; [unfold y; lia | ].
    reflexivity.
  - apply orb_false_iff in C. rewrite !Z.eqb_neq in C.
    exists y, r4, ((n1 =? 3) && (negb (n4 =? 24) || (n100 =? 3))).
    split.
    { destruct ((n1 =? 3) && (negb (n4 =? 24) || (n100 =? 3))); lia. }
    split; [unfold y; rewrite LEAP by lia; reflexivity | ].
    split; [unfold y; rewrite DBY by lia; lia | ].
    split; [unfold y; lia | ].
    unfold month_day.
    destruct (r4 <? _); reflexivity.
Qed.

Lemma days_before_year_lt_ordinal (d : date) :
  valid_date d = true ->
  days_before_year (year d) < toordinal d <= days_before_year (year d + 1).
Proof.
  intros V. apply valid_date_spec in V. destruct V as (Vy & Vm & Vd).
  pose proof (day_of_year_bounds (year d) (month d) (day d) Vm Vd) as B.
  pose proof (days_before_year_succ (year d)) as S.
  unfold toordinal, ymd2ord. lia.
Qed.

Lemma toordinal_range (d : date) :
  valid_date d = true -> 1 <= toordinal d <= MAXORDINAL.
Proof.
  intros V. pose proof (days_before_year_lt_ordinal d V) as B.
  apply valid_date_spec in V. destruct V as (Vy & _).
  pose proof (days_before_year_mono 1 (year d) ltac:(lia)) as L.
  pose proof (days_before_year_mono (year d + 1) 10000 ltac:(lia)) as U.
  change (days_before_year 1) with 0 in L.
  change (days_before_year 10000) with 3652059 in U.
  unfold MAXORDINAL. lia.
Qed.

Lemma toordinal_inj (a b : date) :
  valid_date a = true -> valid_date b = true ->
  toordinal a = toordinal b -> a = b.
Proof.
  intros Va Vb E.
  destruct (date_ltb b a) eqn:L1.
  - pose proof (toordinal_lt b a Vb Va L1). lia.
  - destruct (date_eq_or_lt a b L1) as [-> | L2]; [reflexivity | ].
    pose proof (toordinal_lt a b Va Vb L2). lia.
Qed.

Lemma fromordinal_spec (n : Z) :
  1 <= n <= MAXORDINAL ->
  valid_date (fromordinal n) = true /\ toordinal (fromordinal n) = n.
Proof.
  intros [Lo Hi]. unfold fromordinal.
  destruct (ord2ymd_month_day n Lo) as (y & r & lp & Hr & Hl & Hn & Hy & E).
  rewrite E.
  pose proof (month_day_year lp r Hr) as OK.
  unfold month_day_ok in OK. rewrite Z2Nat.id in OK by lia.
  destruct (month_day r lp) as [m d]. cbn [fst snd].
  rewrite !andb_true_iff, !Z.leb_le, Z.eqb_eq in OK.
  destruct OK as ((((M1 & M2) & D1) & D2) & S).
  assert (Y : y <= 9999).
  { destruct (Z_le_gt_dec y 9999) as [L | G]; [exact L | exfalso].
    pose proof (days_before_year_mono 10000 y ltac:(lia)) as U.
    change (days_before_year 10000) with 3652059 in U.
    unfold MAXORDINAL in Hi. lia. }
  split.
  - apply valid_date_spec. cbn [year month day].
    unfold days_in_month. rewrite <- Hl. lia.
  - unfold toordinal, ymd2ord, days_before_month. cbn [year month day].
    rewrite <- Hl. lia.
Qed.

Lemma fromordinal_toordinal (d : date) :
  valid_date d = true -> fromordinal (toordinal d) = d.
Proof.
  intros V. pose proof (toordinal_range d V) as R.
  destruct (fromordinal_spec _ R) as [V' E].
  apply toordinal_inj; assumption.
Qed.

Lemma date_add_spec (d : date) (k : Z) :
  valid_date d = true ->
  (1 <= toordinal d + k <= MAXORDINAL ->
   exists d', date_add d k = Ok d' /\ valid_date d' = true
              /\ toordinal d' = toordinal d + k)
  /\ (~ 1 <= toordinal d + k <= MAXORDINAL -> date_add d k = Raise OverflowError).
Proof.
  intros V. unfold date_add. split; intros H.
  - destruct (Z.ltb_spec 0 (toordinal d + k)); [ | lia].
    destruct (Z.leb_spec (toordinal d + k) MAXORDINAL); [ | lia].
    cbn [andb]. eexists. split; [reflexivity | ]. apply fromordinal_spec. exact H.
  - destruct (Z.ltb_spec 0 (toordinal d + k));
      destruct (Z.leb_spec (toordinal d + k) MAXORDINAL); cbn [andb];
      try reflexivity. lia.
Qed.

Lemma digit_char_digit (n : Z) :
  is_digit (digit_char n) = true /\ digit (digit_char n) = n mod 10.
Proof.
  unfold digit_char.
  pose proof (Z.mod_pos_bound n 10 (ltac:(lia) : 0 < 10)) as B.
  remember (n mod 10) as k eqn:E. clear E.
  assert (C : k = 0 \/ k = 1 \/ k = 2 \/ k = 3 \/ k = 4 \/ k = 5 \/ k = 6
              \/ k = 7 \/ k = 8 \/ k = 9) by lia.
  repeat (destruct C as [-> | C]; [split; reflexivity | ]).
  subst k. split; reflexivity.
Qed.

Lemma month_day_text_parses (m d : Z) :
  1 <= m <= 12 -> 1 <= d <= 31 ->
  first_match (month_alts (month_day_text m d)) = Some (m, d, EmptyString).
Proof.
  intros Hm Hd.
  assert (A : forallb (fun m => forallb (parses_back m) (seq 1 31)) (seq 1 12) = true)
    by (vm_compute; reflexivity).
  rewrite forallb_forall in A.
  specialize (A (Z.to_nat m) ltac:(apply in_seq; lia)).
  rewrite forallb_forall in A.
  specialize (A (Z.to_nat d) ltac:(apply in_seq; lia)).
  unfold parses_back in A. rewrite !Z2Nat.id in A by lia.
  destruct (first_match (month_alts (month_day_text m d))) as [[[m' d'] r] | ];
    [ | discriminate A].
  destruct r; [ | discriminate A].
  apply andb_true_iff in A. rewrite !Z.eqb_eq in A. destruct A as [-> ->].
  reflexivity.
Qed.

Lemma strptime_strftime (d : date) :
  valid_date d = true -> 1000 <= year d ->
  strptime_ymd (strftime_ymd d) = Ok d.
Proof.
  intros V Y. pose proof V as V'. apply valid_date_spec in V'.
  destruct d as [y m dd]. cbn [year month day] in *.
  destruct V' as (Vy & Vm & Vd).
  assert (Vd' : 1 <= dd <= 31).
  { unfold days_in_month in Vd.
    destruct ((m =? 2) && is_leap y); [lia | ].
    month_cases m; eval_tables; lia. }
  unfold strftime_ymd, pad4, pad2. cbn [year month day String.append].
  change (String (digit_char (m / 10)) (String (digit_char m)
            (String "-" (String (digit_char (dd / 10))
                           (String (digit_char dd) "")))))%string
    with (month_day_text m dd).
  unfold strptime_ymd.
  destruct (digit_char_digit (y / 1000)) as [I1 D1].
  destruct (digit_char_digit (y / 100)) as [I2 D2].
  destruct (digit_char_digit (y / 10)) as [I3 D3].
  destruct (digit_char_digit y) as [I4 D4].
  rewrite I1, I2, I3, I4. cbn [andb].
  rewrite (month_day_text_parses m dd Vm Vd').
  rewrite D1, D2, D3, D4.
  replace (1000 * ((y / 1000) mod 10) + 100 * ((y / 100) mod 10)
           + 10 * ((y / 10) mod 10) + y mod 10) with y.
  - unfold date_new. rewrite V. reflexivity.
  - pose proof (Z.div_mod y 10 (ltac:(lia) : 10 <> 0)).
    pose proof (Z.mod_pos_bound y 10 (ltac:(lia) : 0 < 10)).
    pose proof (Z.div_mod (y / 10) 10 (ltac:(lia) : 10 <> 0)).
    pose proof (Z.mod_pos_bound (y / 10) 10 (ltac:(lia) : 0 < 10)).
    pose proof (Z.div_mod (y / 100) 10 (ltac:(lia) : 10 <> 0)).
    pose proof (Z.mod_pos_bound (y / 100) 10 (ltac:(lia) : 0 < 10)).
    pose proof (Z.div_mod (y / 1000) 10 (ltac:(lia) : 10 <> 0)).
    pose proof (Z.mod_pos_bound (y / 1000) 10 (ltac:(lia) : 0 < 10)).
    assert (y / 100 = y / 10 / 10) by (rewrite Z.div_div by lia; reflexivity).
    assert (y / 1000 = y / 100 / 10) by (rewrite Z.div_div by lia; reflexivity).
    assert (y / 1000 < 10) by (apply Z.div_lt_upper_bound; lia).
    assert (0 <= y / 1000) by (apply Z.div_pos; lia).
    lia.
Qed.

(** X1: a later date never has a smaller week number. *)
Theorem week_number_monotone (a b : date) :
  valid_date a = true -> valid_date b = true -> date_leb a b = true ->
  exists wa wb,
    get_week_number (TDate a) = Ok wa /\ get_week_number (TDate b) = Ok wb
    /\ wa <= wb.
Proof.
  intros Va Vb L. pose proof (toordinal_le a b Va Vb L) as Lo.
  do 2 eexists. rewrite !get_week_number_date.
  split; [reflexivity | ]. split; [reflexivity | ].
  unfold sub_days.
  assert ((toordinal a - toordinal start_date) / 7
          <= (toordinal b - toordinal start_date) / 7)
    by (apply Z.div_le_mono; lia).
  lia.
Qed.

(** X2: once strength training is available on a date, it is available on
    every later date. *)
Theorem strength_stays_available (a b : date) :
  valid_date a = true -> valid_date b = true -> date_leb a b = true ->
  is_strength_available (TDate a) = Ok true ->
  is_strength_available (TDate b) = Ok true.
Proof.
  intros Va Vb L H. pose proof (toordinal_le a b Va Vb L) as Lo.
  unfold is_strength_available in *. rewrite get_week_number_date in *.
  cbn [bind] in *. injection H as H. apply Z.leb_le in H.
  f_equal. apply Z.leb_le. unfold sub_days in *.
  assert ((toordinal a - toordinal start_date) / 7
          <= (toordinal b - toordinal start_date) / 7)
    by (apply Z.div_le_mono; lia).
  lia.
Qed.

(** X3: inside the program window, adding k weeks to a date adds k to its week
    number. *)
Theorem week_number_shift (d d' : date) (k : Z) :
  valid_date d = true -> date_leb start_date d = true -> 0 <= k ->
  date_add d (timedelta_weeks k) = Ok d' ->
  date_ltb d' end_date = true ->
  exists w,
    get_week_number (TDate d) = Ok w /\ get_week_number (TDate d') = Ok (w + k).
Proof.
  intros V L K A L'.
  assert (Vs : valid_date start_date = true) by reflexivity.
  assert (Ve : valid_date end_date = true) by reflexivity.
  pose proof (toordinal_le _ _ Vs V L) as Lo.
  destruct (date_add_spec d (timedelta_weeks k) V) as [OK BAD].
  assert (R : 1 <= toordinal d + timedelta_weeks k <= MAXORDINAL).
  { destruct (Z_le_gt_dec 1 (toordinal d + timedelta_weeks k));
      [destruct (Z_le_gt_dec (toordinal d + timedelta_weeks k) MAXORDINAL) | ];
      [lia | | ]; rewrite BAD in A by lia; discriminate A. }
  destruct (OK R) as (d2 & A2 & V2 & O2). rewrite A2 in A. injection A as ->.
  pose proof (toordinal_lt _ _ V2 Ve L') as Hi.
  destruct end_date_is_start_plus_30_weeks as [_ Eo].
  unfold timedelta_weeks in O2.
  rewrite !get_week_number_date. unfold sub_days.
  set (x := toordinal d - toordinal start_date) in *.
  replace (toordinal d' - toordinal start_date) with (x + k * 7) by lia.
  rewrite Z.div_add by lia.
  pose proof (Z.div_mod x 7 (ltac:(lia) : 7 <> 0)).
  pose proof (Z.mod_pos_bound x 7 (ltac:(lia) : 0 < 7)).
  exists (x / 7 + 1). split; f_equal; lia.
Qed.

(** X4: the key that the form writes for a date parses back to that date, so
    get_week_number gives the same week for the key as for the date. *)
Theorem week_number_of_saved_key (d : date) :
  valid_date d = true -> 1000 <= year d ->
  strptime_ymd (strftime_ymd d) = Ok d
  /\ get_week_number (TStr (strftime_ymd d)) = get_week_number (TDate d).
Proof.
  intros V Y. split; [apply strptime_strftime; assumption | ].
  rewrite get_week_number_str, (strptime_strftime d V Y).
  reflexivity.
Qed.

Lemma strftime_inj (a b : date) :
  valid_date a = true -> 1000 <= year a ->
  valid_date b = true -> 1000 <= year b ->
  strftime_ymd a = strftime_ymd b -> a = b.
Proof.
  intros Va Ya Vb Yb E.
  pose proof (strptime_strftime a Va Ya) as Pa.
  rewrite E, (strptime_strftime b Vb Yb) in Pa. congruence.
Qed.

Lemma toordinal_lt_inv (a b : date) :
  valid_date a = true -> valid_date b = true ->
  toordinal a < toordinal b -> date_ltb a b = true.
Proof.
  intros Va Vb L. destruct (date_ltb a b) eqn:E; [reflexivity | exfalso].
  assert (Le : date_leb b a = true) by (unfold date_leb; rewrite E; reflexivity).
  pose proof (toordinal_le b a Vb Va Le). lia.
Qed.

Lemma toordinal_le_inv (a b : date) :
  valid_date a = true -> valid_date b = true ->
  toordinal a <= toordinal b -> date_leb a b = true.
Proof.
  intros Va Vb L. unfold date_leb. destruct (date_ltb b a) eqn:E; [exfalso | reflexivity].
  pose proof (toordinal_lt b a Vb Va E). lia.
Qed.

Lemma program_day_spec (offset : Z) :
  0 <= offset <= 216 ->
  valid_date (program_day offset) = true
  /\ toordinal (program_day offset) = toordinal start_date + offset
  /\ 1000 <= year (program_day offset).
Proof.
  intros H. unfold program_day.
  assert (R : 1 <= toordinal start_date + offset <= MAXORDINAL).
  { change (toordinal start_date) with 739404. unfold MAXORDINAL. lia. }
  destruct (fromordinal_spec _ R) as [V O].
  split; [exact V | ]. split; [exact O | ].
  destruct (Z_le_gt_dec 1000 (year (fromordinal (toordinal start_date + offset))))
    as [L | G]; [exact L | exfalso].
  assert (Lt : date_ltb (fromordinal (toordinal start_date + offset)) start_date = true).
  { apply date_ltb_spec. left. change (year start_date) with 2025. lia. }
  pose proof (toordinal_lt _ _ V (eq_refl : valid_date start_date = true) Lt).
  lia.
Qed.

Lemma keys_flat_map_lookup (td : dict string Entry.t) (ks : list string) :
  forall k, In k (keys (flat_map (lookup_item td) ks)) -> In k ks.
Proof.
  intros k. unfold keys. rewrite in_map_iff. intros [[k' v] [E Hin]].
  cbn [fst] in E. subst k'. apply in_flat_map in Hin.
  destruct Hin as [k0 [Hk0 Hin]]. unfold lookup_item in Hin.
  destruct (dict_get String.eqb k0 td); [ | contradiction].
  destruct Hin as [H | []]. congruence.
Qed.

Lemma week_data_fold (td : dict string Entry.t) (week_start : date)
      (offsets : list Z) (acc : dict string Entry.t) :
  valid_date week_start = true ->
  (forall i, In i offsets -> 1 <= toordinal week_start + i <= MAXORDINAL) ->
  NoDup (map (fun i => strftime_ymd (fromordinal (toordinal week_start + i))) offsets) ->
  (forall i, In i offsets ->
             ~ In (strftime_ymd (fromordinal (toordinal week_start + i))) (keys acc)) ->
  fold_left
    (fun acc i =>
       week_data <- acc ;;
       day_date <- date_add week_start i ;;
       let date_str := strftime_ymd day_date in
       match dict_get String.eqb date_str td with
       | Some data => Ok (dict_set String.eqb date_str data week_data)
       | None => Ok week_data
       end)
    offsets (Ok acc)
  = Ok (acc ++ flat_map (lookup_item td)
                 (map (fun i => strftime_ymd (fromordinal (toordinal week_start + i)))
                      offsets)).
Proof.
  intros V. revert acc. induction offsets as [ | i offsets IH]; intros acc R ND F.
  - cbn. rewrite app_nil_r. reflexivity.
  - cbn [fold_left bind map flat_map].
    assert (A : date_add week_start i = Ok (fromordinal (toordinal week_start + i))).
    { unfold date_add.
      pose proof (R i (or_introl eq_refl)) as Ri.
      destruct (Z.ltb_spec 0 (toordinal week_start + i)); [ | lia].
      destruct (Z.leb_spec (toordinal week_start + i) MAXORDINAL); [ | lia].
      reflexivity. }
    rewrite A. cbn [bind].
    set (k := strftime_ymd (fromordinal (toordinal week_start + i))) in *.
    cbn [map] in ND. fold k in ND. apply NoDup_cons_iff in ND. destruct ND as [Nk ND].
    unfold lookup_item at 1.
    destruct (dict_get String.eqb k td) as [data | ] eqn:G.
    + rewrite (dict_set_fresh String.eqb String.eqb_eq)
        by (apply F; left; reflexivity).
      rewrite IH.
      * rewrite <- app_assoc. reflexivity.
      * intros j Hj. apply R. right. exact Hj.
      * exact ND.
      * intros j Hj Hin. unfold keys in Hin. rewrite map_app in Hin.
        apply in_app_or in Hin. destruct Hin as [Hin | [E | []]].
        -- apply (F j (or_intror Hj)). exact Hin.
        -- cbn [fst] in E. apply Nk. rewrite E. apply in_map_iff.
           exists j. split; [reflexivity | exact Hj].
    + rewrite IH.
      * reflexivity.
      * intros j Hj. apply R. right. exact Hj.
      * exact ND.
      * intros j Hj. apply F. right. exact Hj.
Qed.

Lemma week_keys_NoDup (w : Z) : 1 <= w <= 30 -> NoDup (week_keys w).
Proof.
  intros H. unfold week_keys.
  assert (Inj : forall i j, 0 <= i <= 6 -> 0 <= j <= 6 ->
                strftime_ymd (program_day (7 * (w - 1) + i))
                = strftime_ymd (program_day (7 * (w - 1) + j)) -> i = j).
  { intros i j Hi Hj E.
    destruct (program_day_spec (7 * (w - 1) + i) ltac:(lia)) as (Vi & Oi & Yi).
    destruct (program_day_spec (7 * (w - 1) + j) ltac:(lia)) as (Vj & Oj & Yj).
    apply strftime_inj in E; try assumption.
    rewrite E in Oi. lia. }
  cbn [map].
  repeat (apply NoDup_cons;
          [cbn [In]; intros C;
           repeat (destruct C as [C | C];
                   [apply Inj in C; lia | ]); exact C | ]).
  apply NoDup_nil.
Qed.

Lemma week_data_of_eq (td : dict string Entry.t) (w : Z) :
  1 <= w <= 30 ->
  week_data_of td w = Ok (flat_map (lookup_item td) (week_keys w)).
Proof.
  intros H. unfold week_data_of. rewrite get_program_info_eq. cbn [bind fst].
  assert (Vs : valid_date start_date = true) by reflexivity.
  destruct (program_day_spec (7 * (w - 1)) ltac:(lia)) as (Vw & Ow & _).
  assert (A : date_add start_date (timedelta_weeks (w - 1))
              = Ok (program_day (7 * (w - 1)))).
  { unfold date_add, timedelta_weeks, program_day.
    change (toordinal start_date) with 739404. unfold MAXORDINAL.
    destruct (Z.ltb_spec 0 (739404 + 7 * (w - 1))); [ | lia].
    destruct (Z.leb_spec (739404 + 7 * (w - 1)) 3652059); [ | lia].
    reflexivity. }
  rewrite A. cbn [bind].
  assert (K : week_keys w
              = map (fun i => strftime_ymd
                                (fromordinal (toordinal (program_day (7 * (w - 1))) + i)))
                    [0; 1; 2; 3; 4; 5; 6]).
  { unfold week_keys. apply map_ext. intros i. unfold program_day at 1.
    rewrite Ow, Z.add_assoc. reflexivity. }
  assert (R : forall i, In i [0; 1; 2; 3; 4; 5; 6] ->
               1 <= toordinal (program_day (7 * (w - 1))) + i <= MAXORDINAL).
  { intros i Hi. rewrite Ow. change (toordinal start_date) with 739404.
    unfold MAXORDINAL. cbn [In] in Hi. lia. }
  assert (ND : NoDup (map (fun i => strftime_ymd
                                      (fromordinal
                                         (toordinal (program_day (7 * (w - 1))) + i)))
                          [0; 1; 2; 3; 4; 5; 6])).
  { rewrite <- K. apply week_keys_NoDup. exact H. }
  pose proof (week_data_fold td (program_day (7 * (w - 1))) [0; 1; 2; 3; 4; 5; 6] []
                Vw R ND (fun i _ (C : In _ (keys [])) => C)) as F.
  cbn [app] in F. rewrite <- K in F. exact F.
Qed.

Lemma in_flat_map_lookup (td : dict string Entry.t) (ks : list string)
      (k : string) (data : Entry.t) :
  In (k, data) (flat_map (lookup_item td) ks)
  <-> In k ks /\ dict_get String.eqb k td = Some data.
Proof.
  rewrite in_flat_map. unfold lookup_item. split.
  - intros [k0 [Hk H]]. destruct (dict_get String.eqb k0 td) as [v | ] eqn:G;
      [ | contradiction].
    destruct H as [H | []]. injection H as <- <-. split; assumption.
  - intros [Hk G]. exists k. split; [exact Hk | ]. rewrite G. left. reflexivity.
Qed.

Lemma keys_flat_map_filter (td : dict string Entry.t) (ks : list string) :
  keys (flat_map (lookup_item td) ks)
  = filter (fun k => dict_mem String.eqb k td) ks.
Proof.
  induction ks as [ | k ks IH]; [reflexivity | ].
  cbn [flat_map filter]. unfold keys in *. rewrite map_app, IH.
  unfold lookup_item, dict_mem. destruct (dict_get String.eqb k td); reflexivity.
Qed.

Lemma filter_map_comm {A B : Type} (f : A -> B) (p : B -> bool) (l : list A) :
  filter p (map f l) = map f (filter (fun x => p (f x)) l).
Proof.
  induction l as [ | x l IH]; [reflexivity | ].
  cbn [map filter]. rewrite IH. destruct (p (f x)); reflexivity.
Qed.

Lemma StronglySorted_filter {A : Type} (R : A -> A -> Prop) (p : A -> bool)
      (l : list A) :
  StronglySorted R l -> StronglySorted R (filter p l).
Proof.
  induction 1 as [ | x l S IH F]; cbn [filter]; [constructor | ].
  destruct (p x); [ | exact IH].
  constructor; [exact IH | ].
  rewrite Forall_forall in *. intros y Hy. apply filter_In in Hy. apply F, Hy.
Qed.

Lemma program_days_sorted (offsets : list Z) :
  StronglySorted Z.lt offsets ->
  Forall (fun o => 0 <= o <= 216) offsets ->
  StronglySorted date_lt (map program_day offsets).
Proof.
  induction 1 as [ | o offsets S IH F]; intros B; cbn [map]; [constructor | ].
  apply Forall_cons_iff in B. destruct B as [Bo B].
  constructor; [apply IH; exact B | ].
  apply Forall_map. rewrite Forall_forall in *. intros o' Ho'.
  destruct (program_day_spec o Bo) as (V & O & _).
  destruct (program_day_spec o' (B o' Ho')) as (V' & O' & _).
  apply toordinal_lt_inv; try assumption.
  specialize (F o' Ho'). lia.
Qed.

Lemma week_data_membership (tracker_data : dict string Entry.t) (w : Z) :
  1 <= w <= 30 ->
  forall key data,
    In (key, data) (flat_map (lookup_item tracker_data) (week_keys w)) <->
    dict_get String.eqb key tracker_data = Some data
    /\ exists d, valid_date d = true
                 /\ date_leb start_date d = true
                 /\ date_ltb d end_date = true
                 /\ get_week_number (TDate d) = Ok w
                 /\ key = strftime_ymd d.
Proof.
  intros H.
  assert (Vs : valid_date start_date = true) by reflexivity.
  assert (Ve : valid_date end_date = true) by reflexivity.
  destruct end_date_is_start_plus_30_weeks as [_ Eo].
  intros key data. rewrite in_flat_map_lookup. split.
  - intros [Hk G]. split; [exact G | ].
    unfold week_keys in Hk. apply in_map_iff in Hk.
    destruct Hk as [i [<- Hi]].
    assert (Bi : 0 <= i <= 6) by (cbn [In] in Hi; lia).
    destruct (program_day_spec (7 * (w - 1) + i) ltac:(lia)) as (V & O & _).
    exists (program_day (7 * (w - 1) + i)).
    split; [exact V | ].
    split; [apply toordinal_le_inv; try assumption; lia | ].
    split; [apply toordinal_lt_inv; try assumption; lia | ].
    split; [ | reflexivity].
    rewrite get_week_number_date. unfold sub_days. rewrite O.
    replace (toordinal start_date + (7 * (w - 1) + i) - toordinal start_date)
      with (i + (w - 1) * 7) by ring.
    rewrite Z.div_add by lia. rewrite (Z.div_small i 7) by lia.
    f_equal. lia.
  - intros [G (d & V & L1 & L2 & Wk & ->)]. split; [ | exact G].
    pose proof (toordinal_le _ _ Vs V L1) as Lo.
    pose proof (toordinal_lt _ _ V Ve L2) as Hi.
    rewrite get_week_number_date in Wk. injection Wk as Wk.
    unfold sub_days in Wk.
    set (x := toordinal d - toordinal start_date) in *.
    pose proof (Z.div_mod x 7 (ltac:(lia) : 7 <> 0)) as E.
    pose proof (Z.mod_pos_bound x 7 (ltac:(lia) : 0 < 7)) as B.
    assert (x / 7 < 30) by (apply Z.div_lt_upper_bound; lia).
    assert (0 <= x / 7) by (apply Z.div_pos; lia).
    assert (D : d = program_day (7 * (w - 1) + x mod 7)).
    { unfold program_day.
      replace (toordinal start_date + (7 * (w - 1) + x mod 7))
        with (toordinal d) by (unfold x in *; lia).
      symmetry. apply fromordinal_toordinal. exact V. }
    rewrite D. unfold week_keys.
    apply (in_map (fun i => strftime_ymd (program_day (7 * (w - 1) + i)))).
    cbn [In]. lia.
Qed.

(** X5: the weekly view holds exactly the stored records dated in the selected
    program week, at most seven, and its keys are those of calendar dates in
    ascending order. *)
Theorem weekly_view_selects_the_week (tracker_data : dict string Entry.t)
        (selected_week : Z) :
  1 <= selected_week <= 30 ->
  exists week_data,
    week_data_of tracker_data selected_week = Ok week_data
    /\ (List.length week_data <= 7)%nat
    /\ (forall key data,
           In (key, data) week_data <->
           dict_get String.eqb key tracker_data = Some data
           /\ exists d, valid_date d = true
                        /\ date_leb start_date d = true
                        /\ date_ltb d end_date = true
                        /\ get_week_number (TDate d) = Ok selected_week
                        /\ key = strftime_ymd d)
    /\ (exists days, keys week_data = map strftime_ymd days
                     /\ Forall (fun d => valid_date d = true) days
                     /\ StronglySorted date_lt days).
Proof.
  intros H. set (w := selected_week) in *.
  exists (flat_map (lookup_item tracker_data) (week_keys w)).
  split; [apply week_data_of_eq; exact H | ].
  split; [ | split].
  - assert (L : forall ks, (List.length (flat_map (lookup_item tracker_data) ks)
                            <= List.length ks)%nat).
    { induction ks as [ | k ks IH]; [cbn; lia | ].
      cbn [flat_map]. rewrite length_app. unfold lookup_item at 1.
      destruct (dict_get String.eqb k tracker_data); cbn [List.length]; lia. }
    apply (L (week_keys w)).
  - apply week_data_membership. exact H.
  - exists (filter (fun d => dict_mem String.eqb (strftime_ymd d) tracker_data)
                   (map program_day
                        (map (fun i => 7 * (w - 1) + i) [0; 1; 2; 3; 4; 5; 6]))).
    split; [ | split].
    + rewrite keys_flat_map_filter. unfold week_keys.
      rewrite <- (filter_map_comm strftime_ymd
                    (fun k => dict_mem String.eqb k tracker_data)).
      rewrite !map_map. reflexivity.
    + apply Forall_forall. intros d Hd. apply filter_In in Hd.
      destruct Hd as [Hd _]. rewrite map_map in Hd. apply in_map_iff in Hd.
      destruct Hd as [i [<- Hi]]. apply program_day_spec.
      cbn [In] in Hi. lia.
    + apply StronglySorted_filter. apply program_days_sorted.
      * cbn [map]. repeat (constructor; [ | repeat constructor; lia]).
        constructor.
      * cbn [map]. repeat (constructor; [lia | ]). constructor.
Qed.

(** X6: a record dated before the program start or on or after the end date
    is filed under week 1 or week 30 by get_week_number, yet no weekly view
    shows it. *)
Theorem weekly_views_skip_dates_outside_the_window
        (tracker_data : dict string Entry.t) (d : date) (selected_week : Z) :
  valid_date d = true -> 1000 <= year d ->
  date_ltb d start_date = true \/ date_leb end_date d = true ->
  1 <= selected_week <= 30 ->
  exists w week_data,
    get_week_number (TDate d) = Ok w
    /\ (date_ltb d start_date = true -> w = 1)
    /\ (date_leb end_date d = true -> w = 30)
    /\ week_data_of tracker_data selected_week = Ok week_data
    /\ ~ In (strftime_ymd d) (keys week_data).
Proof.
  intros V Y Out Hw.
  assert (Vs : valid_date start_date = true) by reflexivity.
  assert (Ve : valid_date end_date = true) by reflexivity.
  destruct end_date_is_start_plus_30_weeks as [_ Eo].
  pose proof (week_data_of_eq tracker_data selected_week Hw) as Ewd.
  pose proof (week_data_membership tracker_data selected_week Hw) as Items.
  set (wd := flat_map (lookup_item tracker_data) (week_keys selected_week)) in *.
  exists (Z.max 1 (Z.min 30 (sub_days d start_date / 7 + 1))), wd.
  split; [apply get_week_number_date | ].
  unfold sub_days. split; [ | split; [ | split; [exact Ewd | ]]].
  - intros L. pose proof (toordinal_lt _ _ V Vs L).
    assert ((toordinal d - toordinal start_date) / 7 < 0)
      by (apply Z.div_lt_upper_bound; lia).
    lia.
  - intros L. pose proof (toordinal_le _ _ Ve V L).
    assert (30 <= (toordinal d - toordinal start_date) / 7)
      by (apply Z.div_le_lower_bound; lia).
    lia.
  - intros Hin. unfold keys in Hin. apply in_map_iff in Hin.
    destruct Hin as [[k data] [Ek Hin]]. cbn [fst] in Ek. subst k.
    apply Items in Hin. destruct Hin as [_ (d' & V' & L1 & L2 & _ & E)].
    assert (Y' : 1000 <= year d').
    { destruct (Z_le_gt_dec 1000 (year d')) as [L | G]; [exact L | exfalso].
      assert (Lt : date_ltb d' start_date = true).
      { apply date_ltb_spec. left. change (year start_date) with 2025. lia. }
      unfold date_leb in L1. rewrite Lt in L1. discriminate L1. }
    apply strftime_inj in E; try assumption. subst d'.
    destruct Out as [O | O].
    + unfold date_leb in L1. rewrite O in L1. discriminate L1.
    + unfold date_leb in O. rewrite L2 in O. discriminate O.
Qed.

(** ** Aggregator *)

Local Open Scope Q_scope.

Lemma py_sum_ones {A : Type} (l : list A) :
  py_sum (map (fun _ => Int 1) l) = Int (Z.of_nat (List.length l)).
Proof.
  unfold py_sum.
  assert (G : forall (acc : Z),
             fold_left num_add (map (fun _ : A => Int 1) l) (Int acc)
             = Int (acc + Z.of_nat (List.length l))%Z).
  { induction l as [ | x l IH]; intros acc.
    - cbn. f_equal. lia.
    - cbn [map fold_left List.length num_add]. rewrite IH. f_equal. lia. }
  rewrite G. reflexivity.
Qed.

Lemma filter_values {K V : Type} (p : V -> bool) (d : dict K V) :
  filter p (values d) = values (filter (fun kv => p (snd kv)) d).
Proof.
  unfold values. induction d as [ | kv l IH]; [reflexivity | ].
  cbn [map filter]. destruct (p (snd kv)); cbn [map]; rewrite IH; reflexivity.
Qed.

(** X8: strength_sessions is the number of records flagged as strength
    training, an int between 0 and total_days. *)
Theorem strength_sessions_at_most_days (data_dict : dict string Entry.t) :
  data_dict <> [] ->
  exists st s,
    get_summary_stats data_dict = Ok st
    /\ stat "strength_sessions" st = Ok (Int s)
    /\ stat "total_days" st = Ok (Int (Z.of_nat (List.length data_dict)))
    /\ s = Z.of_nat (List.length
                       (filter (fun kv => get_flag (Entry.strength_training (snd kv)))
                               data_dict))
    /\ (0 <= s <= Z.of_nat (List.length data_dict))%Z.
Proof.
  intros NE. rewrite (get_summary_stats_nonempty data_dict NE).
  set (records := values data_dict).
  destruct (summary_fields records) as (Hd & _ & _ & _ & _ & _ & Hs & _).
  pose proof (filter_values (fun d => get_flag (Entry.strength_training d)) data_dict)
    as F.
  fold records in F.
  exists (summary records).
  eexists. split; [reflexivity | ].
  split. { rewrite Hs. unfold sessions. rewrite py_sum_ones. reflexivity. }
  split. { rewrite Hd. unfold len, records, values. rewrite length_map. reflexivity. }
  rewrite F. unfold values. rewrite length_map. split; [reflexivity | ].
  split; [lia | ]. apply Nat2Z.inj_le. apply filter_length_le.
Qed.

(** X9: total_days, the four totals and strength_sessions do not depend on
    the iteration order of the mapping. *)
Theorem totals_do_not_depend_on_order (d1 d2 : dict string Entry.t) :
  Permutation d1 d2 -> d1 <> [] ->
  exists st1 st2,
    get_summary_stats d1 = Ok st1 /\ get_summary_stats d2 = Ok st2
    /\ forall key, In key total_keys ->
                   exists v1 v2, stat key st1 = Ok v1 /\ stat key st2 = Ok v2
                                 /\ num_eq v1 v2.
Proof.
  intros P N1.
  assert (N2 : d2 <> []).
  { intros ->. apply Permutation_sym, Permutation_nil in P. contradiction. }
  rewrite !get_summary_stats_nonempty by assumption.
  assert (PV : Permutation (values d1) (values d2))
    by (apply Permutation_map; exact P).
  set (r1 := values d1) in *. set (r2 := values d2) in *.
  exists (summary r1), (summary r2).
  split; [reflexivity | ]. split; [reflexivity | ].
  assert (Row : forall key (f : list Entry.t -> num) (m : Entry.t -> Q),
             (forall es, stat key (summary es) = Ok (f es)) ->
             (forall es, (numQ (f es) == measure m es)%Q) ->
             exists v1 v2, stat key (summary r1) = Ok v1
                           /\ stat key (summary r2) = Ok v2 /\ num_eq v1 v2).
  { intros key f m Hf Hm. exists (f r1), (f r2).
    split; [apply Hf | ]. split; [apply Hf | ].
    unfold num_eq. rewrite !Hm. apply measure_Permutation. exact PV. }
  intros key Hin. unfold total_keys in Hin. cbn [In] in Hin.
  destruct Hin as [<- | [<- | [<- | [<- | [<- | [<- | []]]]]]].
  - apply (Row _ (fun es => len es) one);
      [intros es; apply (summary_fields es) | apply numQ_len].
  - apply (Row _ (total Entry.treadmill_time)
               (fun d => counted (Entry.treadmill_time d)));
      [intros es; apply (summary_fields es) | apply numQ_total_measure].
  - apply (Row _ (total Entry.steps) (fun d => counted (Entry.steps d)));
      [intros es; apply (summary_fields es) | apply numQ_total_measure].
  - apply (Row _ (total Entry.lunch_walk_time)
               (fun d => counted (Entry.lunch_walk_time d)));
      [intros es; apply (summary_fields es) | apply numQ_total_measure].
  - apply (Row _ exercise_time exercise_minutes);
      [intros es; apply (summary_fields es) | apply numQ_exercise_time_measure].
  - apply (Row _ sessions session);
      [intros es; apply (summary_fields es) | apply numQ_sessions].
Qed.

(** X11: the statistics depend on the records only, not on the keys: two
    mappings with the same records in the same order have the same
    statistics, and re-keying the records as day_0, day_1, ... changes
    nothing. *)
Theorem stats_ignore_keys (d1 d2 : dict string Entry.t) :
  values d1 = values d2 ->
  get_summary_stats d1 = get_summary_stats d2
  /\ get_summary_stats (day_dict (values d1)) = get_summary_stats d1.
Proof.
  assert (G : forall a b : dict string Entry.t,
             values a = values b -> get_summary_stats a = get_summary_stats b).
  { intros a b E. destruct a as [ | x a], b as [ | y b]; try discriminate E.
    - reflexivity.
    - rewrite !get_summary_stats_nonempty by discriminate. rewrite E. reflexivity. }
  intros E. split; [apply G; exact E | ].
  apply G. apply values_day_dict.
Qed.

(** ** Saving entries *)

Local Open Scope Z_scope.

Section DictUpdates.
Context {K V : Type}.
Variable K_eqb : K -> K -> bool.
Hypothesis K_eqb_eq : forall a b, K_eqb a b = true <-> a = b.

Lemma dict_set_set (k : K) (v1 v2 : V) (d : dict K V) :
  dict_set K_eqb k v2 (dict_set K_eqb k v1 d) = dict_set K_eqb k v2 d.
Proof.
  induction d as [ | [k' v'] d IH]; cbn [dict_set].
  - rewrite (K_eqb_refl K_eqb K_eqb_eq). reflexivity.
  - destruct (K_eqb k k') eqn:E; cbn [dict_set]; rewrite E.
    + reflexivity.
    + rewrite IH. reflexivity.
Qed.

Lemma dict_get_None_keys (k : K) (d : dict K V) :
  dict_get K_eqb k d = None <-> ~ In k (keys d).
Proof.
  induction d as [ | [k' v'] d IH]; cbn [dict_get keys map fst In].
  - tauto.
  - destruct (K_eqb k k') eqn:E.
    + apply K_eqb_eq in E. subst k'. split; [discriminate | intros N; exfalso; tauto].
    + assert (k' <> k) by (intros ->; rewrite (K_eqb_refl K_eqb K_eqb_eq) in E;
                           discriminate E).
      fold (keys d). tauto.
Qed.

Lemma dict_set_present_keys (k : K) (v old : V) (d : dict K V) :
  dict_get K_eqb k d = Some old ->
  keys (dict_set K_eqb k v d) = keys d
  /\ List.length (dict_set K_eqb k v d) = List.length d.
Proof.
  intros G. destruct (dict_set_old K_eqb K_eqb_eq k v old d G) as (d1 & d2 & -> & ->).
  unfold keys. rewrite !map_app, !length_app. split; reflexivity.
Qed.

Lemma dict_set_NoDup (k : K) (v : V) (d : dict K V) :
  NoDup (keys d) -> NoDup (keys (dict_set K_eqb k v d)).
Proof.
  intros ND. destruct (dict_get K_eqb k d) as [old | ] eqn:G.
  - rewrite (proj1 (dict_set_present_keys k v old d G)). exact ND.
  - rewrite (dict_set_new K_eqb k v d G). unfold keys. rewrite map_app.
    cbn [map fst]. apply NoDup_app.
    + exact ND.
    + constructor; [intros [] | constructor].
    + intros a Ha [E | []]. subst a.
      apply (proj1 (dict_get_None_keys k d) G). exact Ha.
Qed.

Lemma dict_get_In_NoDup (k : K) (v : V) (d : dict K V) :
  NoDup (keys d) -> In (k, v) d -> dict_get K_eqb k d = Some v.
Proof.
  induction d as [ | [k' v'] d IH]; cbn [keys map fst dict_get]; intros ND Hin.
  - destruct Hin.
  - apply NoDup_cons_iff in ND. destruct ND as [Nk ND].
    destruct Hin as [E | Hin].
    + injection E as -> ->. rewrite (K_eqb_refl K_eqb K_eqb_eq). reflexivity.
    + destruct (K_eqb k k') eqn:E.
      * apply K_eqb_eq in E. subst k'. exfalso. apply Nk.
        apply (in_map fst) in Hin. exact Hin.
      * apply IH; assumption.
Qed.
End DictUpdates.

(** X12: saving the same date again replaces the record: only the last save
    counts, and the store grows by one record only for a new date. *)
Theorem last_save_wins (tracker_data : dict string Entry.t) (selected_date : date)
        (first second : Form.t) :
  exists td1,
    show_daily_entry tracker_data selected_date first = Ok td1
    /\ show_daily_entry td1 selected_date second
       = show_daily_entry tracker_data selected_date second
    /\ List.length td1
       = (if dict_mem String.eqb (strftime_ymd selected_date) tracker_data
          then List.length tracker_data
          else S (List.length tracker_data)).
Proof.
  destruct (show_daily_entry_eq tracker_data selected_date first) as (w & Hw & _ & E1).
  eexists. split; [exact E1 | ].
  destruct (show_daily_entry_eq tracker_data selected_date second) as (w2 & Hw2 & _ & E2).
  rewrite Hw in Hw2. injection Hw2 as <-.
  destruct (show_daily_entry_eq
              (dict_set String.eqb (strftime_ymd selected_date)
                        (saved_record selected_date first w) tracker_data)
              selected_date second) as (w3 & Hw3 & _ & E3).
  rewrite Hw in Hw3. injection Hw3 as <-.
  rewrite E2, E3. split.
  - f_equal. apply dict_set_set. apply String.eqb_eq.
  - unfold dict_mem.
    destruct (dict_get String.eqb (strftime_ymd selected_date) tracker_data)
      as [old | ] eqn:G.
    + apply (dict_set_present_keys String.eqb String.eqb_eq _ _ old _ G).
    + rewrite (dict_set_new String.eqb _ _ _ G), length_app. cbn. lia.
Qed.

(** X13: a store built by the form holds one record per date: its keys are
    pairwise distinct, every record carries its key as its date and a week
    in [1, 30]. *)
Theorem written_one_record_per_date (tracker_data : dict string Entry.t) :
  written tracker_data ->
  NoDup (keys tracker_data)
  /\ (forall key data, In (key, data) tracker_data ->
                       Entry.date data = Some key
                       /\ dict_get String.eqb key tracker_data = Some data
                       /\ exists w, Entry.week data = Some w /\ 1 <= w <= 30).
Proof.
  intros W.
  assert (I : NoDup (keys tracker_data)
              /\ forall key data, In (key, data) tracker_data ->
                                  Entry.date data = Some key
                                  /\ exists w, Entry.week data = Some w /\ 1 <= w <= 30).
  { induction W as [ | td td' d f W IH Hs].
    - split; [constructor | intros key data []].
    - destruct IH as [ND IH].
      destruct (show_daily_entry_eq td d f) as (w & _ & Rw & E).
      rewrite E in Hs. injection Hs as <-.
      split; [apply dict_set_NoDup; [apply String.eqb_eq | exact ND] | ].
      intros key data Hin.
      destruct (dict_get String.eqb (strftime_ymd d) td) as [old | ] eqn:G.
      + destruct (dict_set_old String.eqb String.eqb_eq (strftime_ymd d)
                               (saved_record d f w) old td G) as (d1 & d2 & E1 & E2).
        rewrite E2 in Hin. apply in_app_or in Hin.
        destruct Hin as [Hin | [Hin | Hin]].
        * apply IH. rewrite E1. apply in_or_app. left. exact Hin.
        * injection Hin as <- <-. split; [reflexivity | ].
          exists w. split; [reflexivity | exact Rw].
        * apply IH. rewrite E1. apply in_or_app. right. right. exact Hin.
      + rewrite (dict_set_new String.eqb _ _ _ G) in Hin. apply in_app_or in Hin.
        destruct Hin as [Hin | [Hin | []]].
        * apply IH. exact Hin.
        * injection Hin as <- <-. split; [reflexivity | ].
          exists w. split; [reflexivity | exact Rw]. }
  destruct I as [ND I]. split; [exact ND | ].
  intros key data Hin. destruct (I key data Hin) as [D Wk].
  split; [exact D | ]. split; [ | exact Wk].
  apply dict_get_In_NoDup; [apply String.eqb_eq | exact ND | exact Hin].
Qed.

(** X14: the week stored with a record is the week that get_week_number gives
    for the record's key, so the monthly view files the record under the
    week of its date. *)
Theorem stored_week_matches_key (tracker_data : dict string Entry.t)
        (selected_date : date) (widgets : Form.t) :
  valid_date selected_date = true -> 1000 <= year selected_date ->
  exists td' data w,
    show_daily_entry tracker_data selected_date widgets = Ok td'
    /\ dict_get String.eqb (strftime_ymd selected_date) td' = Some data
    /\ get_week_number (TDate selected_date) = Ok w
    /\ Entry.week data = Some w
    /\ get_week_number (TStr (strftime_ymd selected_date)) = Ok w
    /\ week_of (strftime_ymd selected_date, data) = w.
Proof.
  intros V Y.
  destruct (show_daily_entry_eq tracker_data selected_date widgets)
    as (w & Hw & _ & E).
  do 3 eexists. split; [exact E | ].
  split; [apply dict_get_set_same; apply String.eqb_eq | ].
  split; [exact Hw | ]. split; [reflexivity | ].
  split; [ | reflexivity].
  rewrite get_week_number_str, (strptime_strftime _ V Y). exact Hw.
Qed.

(** X15: saves for two different dates can be made in either order: every
    lookup in the resulting stores agrees. *)
Theorem saves_for_different_dates_commute (tracker_data : dict string Entry.t)
        (d1 d2 : date) (f1 f2 : Form.t) :
  valid_date d1 = true -> 1000 <= year d1 ->
  valid_date d2 = true -> 1000 <= year d2 ->
  d1 <> d2 ->
  exists td12 td21,
    (td <- show_daily_entry tracker_data d1 f1 ;; show_daily_entry td d2 f2) = Ok td12
    /\ (td <- show_daily_entry tracker_data d2 f2 ;; show_daily_entry td d1 f1) = Ok td21
    /\ forall key, dict_get String.eqb key td12 = dict_get String.eqb key td21.
Proof.
  intros V1 Y1 V2 Y2 N.
  assert (NK : strftime_ymd d1 <> strftime_ymd d2).
  { intros E. apply N. apply strftime_inj; assumption. }
  destruct (show_daily_entry_eq tracker_data d1 f1) as (w1 & Hw1 & _ & E1).
  destruct (show_daily_entry_eq tracker_data d2 f2) as (w2 & Hw2 & _ & E2).
  rewrite E1, E2. cbn [bind].
  destruct (show_daily_entry_eq
              (dict_set String.eqb (strftime_ymd d1) (saved_record d1 f1 w1) tracker_data)
              d2 f2) as (w2' & Hw2' & _ & E12).
  destruct (show_daily_entry_eq
              (dict_set String.eqb (strftime_ymd d2) (saved_record d2 f2 w2) tracker_data)
              d1 f1) as (w1' & Hw1' & _ & E21).
  rewrite Hw2 in Hw2'. injection Hw2' as <-.
  rewrite Hw1 in Hw1'. injection Hw1' as <-.
  do 2 eexists. split; [exact E12 | ]. split; [exact E21 | ].
  intros key.
  destruct (String.eqb_spec key (strftime_ymd d1)) as [-> | K1].
  - rewrite (dict_get_set_other String.eqb String.eqb_eq) by exact NK.
    rewrite !(dict_get_set_same String.eqb String.eqb_eq). reflexivity.
  - destruct (String.eqb_spec key (strftime_ymd d2)) as [-> | K2].
    + rewrite (dict_get_set_same String.eqb String.eqb_eq).
      rewrite (dict_get_set_other String.eqb String.eqb_eq) by exact K1.
      rewrite (dict_get_set_same String.eqb String.eqb_eq). reflexivity.
    + rewrite !(dict_get_set_other String.eqb String.eqb_eq) by assumption.
      reflexivity.
Qed.

(** ** Monthly view *)

Local Open Scope Z_scope.

Lemma parses_is_date_string (key : string) :
  parses key = true <-> is_date_string key.
Proof.
  unfold parses, is_date_string. destruct (strptime_ymd key) as [d | e].
  - split; [intros _; exists d; reflexivity | reflexivity].
  - split; [discriminate | intros [d H]; discriminate H].
Qed.

Lemma add_to_month_fold (y m : Z) (td acc : dict string Entry.t) :
  NoDup (keys acc ++ keys td) ->
  fold_left (add_to_month y m) td (Ok acc)
  = if forallb parses (keys td)
    then Ok (acc ++ filter (fun kv => in_month y m (fst kv)) td)
    else Raise ValueError.
Proof.
  revert acc. induction td as [ | [k v] td IH]; intros acc ND.
  - cbn. rewrite app_nil_r. reflexivity.
  - cbn [fold_left keys map fst forallb filter]. fold (keys td).
    unfold add_to_month at 2. cbn [bind fst snd].
    unfold parses at 1, in_month at 1.
    destruct (strptime_ymd_cases k) as [[d [Hd _]] | Hr].
    + rewrite Hd. cbn [bind andb].
      assert (NDr : NoDup (keys acc ++ keys td)).
      { cbn [keys map fst] in ND. fold (keys td) in ND.
        apply NoDup_remove_1 in ND. exact ND. }
      assert (Nk : ~ In k (keys acc)).
      { cbn [keys map fst] in ND. fold (keys td) in ND.
        apply NoDup_remove_2 in ND. intros Hin. apply ND.
        apply in_or_app. left. exact Hin. }
      destruct ((year d =? y) && (month d =? m)).
      * rewrite (dict_set_fresh String.eqb String.eqb_eq) by exact Nk.
        rewrite IH.
        -- destruct (forallb parses (keys td)); [ | reflexivity].
           rewrite <- app_assoc. reflexivity.
        -- unfold keys. rewrite map_app. cbn [map fst]. rewrite <- app_assoc.
           exact ND.
      * apply IH. exact NDr.
    + rewrite Hr. cbn [bind andb]. apply add_to_month_raise.
Qed.

(** X17: the month filter keeps exactly the records whose key is a date of the
    selected year and month, in store order; a key that is not a date makes
    it raise ValueError. *)
Theorem month_filter_keeps_the_month (tracker_data : dict string Entry.t) (y m : Z) :
  NoDup (keys tracker_data) ->
  (Forall is_date_string (keys tracker_data) ->
   month_data_of tracker_data y m
   = Ok (filter (fun kv => in_month y m (fst kv)) tracker_data))
  /\ (~ Forall is_date_string (keys tracker_data) ->
      month_data_of tracker_data y m = Raise ValueError).
Proof.
  intros ND.
  assert (E : month_data_of tracker_data y m
              = if forallb parses (keys tracker_data)
                then Ok (filter (fun kv => in_month y m (fst kv)) tracker_data)
                else Raise ValueError)
    by exact (add_to_month_fold y m tracker_data [] ND).
  rewrite E.
  destruct (forallb parses (keys tracker_data)) eqn:F.
  - split; [reflexivity | ]. intros N. exfalso. apply N.
    rewrite forallb_forall in F. apply Forall_forall. intros k Hk.
    apply parses_is_date_string. apply F. exact Hk.
  - split; [ | reflexivity]. intros A. exfalso.
    assert (T : forallb parses (keys tracker_data) = true).
    { apply forallb_forall. intros k Hk. apply parses_is_date_string.
      rewrite Forall_forall in A. apply A. exact Hk. }
    congruence.
Qed.

Lemma records_of_week_app (w : Z) (l1 l2 : dict string Entry.t) :
  records_of_week w (l1 ++ l2) = records_of_week w l1 ++ records_of_week w l2.
Proof. unfold records_of_week. rewrite filter_app. apply values_app. Qed.

Lemma add_to_week_groups (g : dict Z (list Entry.t)) (done : dict string Entry.t)
      (item : string * Entry.t) :
  is_date_string (fst item) ->
  NoDup (keys g) ->
  (forall w, dict_get Z.eqb w g = nonempty_list (records_of_week w done)) ->
  exists g',
    add_to_week (Ok g) item = Ok g'
    /\ NoDup (keys g')
    /\ (forall w, dict_get Z.eqb w g'
                  = nonempty_list (records_of_week w (done ++ [item]))).
Proof.
  intros Hk ND Inv.
  destruct (get_week_number_date_string _ Hk) as [dflt Hd].
  unfold add_to_week. cbn [bind]. rewrite Hd. cbn [bind].
  assert (Wk : match Entry.week (snd item) with
               | Some w => w
               | None => dflt
               end = week_of item).
  { unfold week_of. rewrite Hd. reflexivity. }
  rewrite Wk. set (w0 := week_of item).
  assert (Rec : forall w, records_of_week w (done ++ [item])
                          = records_of_week w done
                            ++ (if w0 =? w then [snd item] else [])).
  { intros w. rewrite records_of_week_app. f_equal.
    unfold records_of_week. cbn [filter]. fold w0.
    destruct (w0 =? w); reflexivity. }
  unfold dict_mem, getitem.
  destruct (dict_get Z.eqb w0 g) as [old | ] eqn:G; cbn [negb].
  - rewrite G. cbn [bind]. eexists. split; [reflexivity | ].
    split; [apply dict_set_NoDup; [apply Z.eqb_eq | exact ND] | ].
    intros w. rewrite Rec. destruct (Z.eqb_spec w0 w) as [<- | N].
    + rewrite (dict_get_set_same Z.eqb Z.eqb_eq).
      rewrite Inv in G. destruct (records_of_week w0 done) as [ | a l];
        [discriminate G | ].
      injection G as <-. reflexivity.
    + rewrite (dict_get_set_other Z.eqb Z.eqb_eq) by congruence.
      rewrite app_nil_r. apply Inv.
  - rewrite (dict_get_set_same Z.eqb Z.eqb_eq). cbn [bind app].
    rewrite (dict_set_set Z.eqb Z.eqb_eq).
    eexists. split; [reflexivity | ].
    split; [apply dict_set_NoDup; [apply Z.eqb_eq | exact ND] | ].
    intros w. rewrite Rec. destruct (Z.eqb_spec w0 w) as [<- | N].
    + rewrite (dict_get_set_same Z.eqb Z.eqb_eq).
      rewrite Inv in G. destruct (records_of_week w0 done) as [ | a l];
        [reflexivity | discriminate G].
    + rewrite (dict_get_set_other Z.eqb Z.eqb_eq) by congruence.
      rewrite app_nil_r. apply Inv.
Qed.

Lemma weekly_data_groups (month_data done : dict string Entry.t)
      (g : dict Z (list Entry.t)) :
  Forall is_date_string (keys month_data) ->
  NoDup (keys g) ->
  (forall w, dict_get Z.eqb w g = nonempty_list (records_of_week w done)) ->
  exists g',
    fold_left add_to_week month_data (Ok g) = Ok g'
    /\ NoDup (keys g')
    /\ (forall w, dict_get Z.eqb w g'
                  = nonempty_list (records_of_week w (done ++ month_data))).
Proof.
  revert done g. induction month_data as [ | item md IH]; intros done g HK ND Inv.
  - exists g. rewrite app_nil_r. repeat split; assumption.
  - cbn [keys map] in HK. apply Forall_cons_iff in HK. destruct HK as [Hk HK].
    destruct (add_to_week_groups g done item Hk ND Inv) as (g1 & E1 & ND1 & Inv1).
    destruct (IH (done ++ [item]) g1 HK ND1 Inv1) as (g' & E' & ND' & Inv').
    exists g'. cbn [fold_left]. rewrite E1. split; [exact E' | ].
    split; [exact ND' | ]. intros w. rewrite Inv', <- app_assoc. reflexivity.
Qed.

Lemma sorted_NoDup_strict {V : Type} (l : list (Z * V)) :
  StronglySorted (fun a b => fst a <= fst b) l -> NoDup (map fst l) ->
  StronglySorted (fun a b => fst a < fst b) l.
Proof.
  induction 1 as [ | x l S IH F]; intros ND; [constructor | ].
  cbn [map] in ND. apply NoDup_cons_iff in ND. destruct ND as [Nx ND].
  constructor; [apply IH; exact ND | ].
  rewrite Forall_forall in *. intros y Hy.
  specialize (F y Hy).
  assert (fst x <> fst y).
  { intros E. apply Nx. rewrite E. apply in_map. exact Hy. }
  lia.
Qed.

(** X18: the weekly trend table has one row per stored week of the month, in
    strictly ascending week order, and each row holds the statistics of
    exactly the month's records filed under that week. *)
Theorem week_rows_partition_the_month (month_data : dict string Entry.t) :
  Forall is_date_string (keys month_data) ->
  exists rows,
    weekly_summary_of month_data = Ok rows
    /\ StronglySorted (fun a b => fst a < fst b) rows
    /\ (forall w st,
           In (w, st) rows <->
           filter (fun item => week_of item =? w) month_data <> []
           /\ get_summary_stats (filter (fun item => week_of item =? w) month_data)
              = Ok st).
Proof.
  intros HK.
  destruct (weekly_data_groups month_data [] [] HK (NoDup_nil _)
                               (fun w => eq_refl)) as (g & Eg & NDg & Inv).
  cbn [app] in Inv.
  assert (Eg' : weekly_data_of month_data = Ok g) by exact Eg.
  assert (In_g : forall w es, In (w, es) g <->
                              es <> [] /\ es = records_of_week w month_data).
  { intros w es. split.
    - intros Hin.
      apply (dict_get_In_NoDup Z.eqb Z.eqb_eq _ _ _ NDg) in Hin.
      rewrite Inv in Hin. destruct (records_of_week w month_data) as [ | a l];
        [discriminate Hin | ].
      injection Hin as <-. split; [discriminate | reflexivity].
    - intros [N ->]. apply (dict_get_In Z.eqb Z.eqb_eq). rewrite Inv.
      destruct (records_of_week w month_data); [contradiction | reflexivity]. }
  assert (Ns : Forall nonempty (values (sorted_items g))).
  { apply Forall_forall. intros es Hes. unfold values in Hes.
    apply in_map_iff in Hes. destruct Hes as [[w es'] [<- Hin]].
    apply (Permutation_in _ (sorted_items_Permutation g)) in Hin.
    apply In_g in Hin. apply Hin. }
  exists (week_rows (sorted_items g)).
  split.
  { unfold weekly_summary_of. rewrite Eg'. cbn [bind].
    rewrite (weekly_summary_fold (sorted_items g) [] Ns). reflexivity. }
  split.
  { apply sorted_NoDup_strict.
    - apply week_rows_sorted. apply sorted_items_sorted.
    - unfold week_rows. rewrite map_map. cbn [fst].
      eapply Permutation_NoDup; [ | exact NDg].
      apply Permutation_map. apply Permutation_sym. apply sorted_items_Permutation. }
  intros w st.
  assert (V : forall w, records_of_week w month_data
                        = values (filter (fun item => week_of item =? w) month_data))
    by reflexivity.
  unfold week_rows. rewrite in_map_iff. split.
  - intros [[w' es] [E Hin]]. cbn [fst snd] in E. injection E as -> <-.
    apply (Permutation_in _ (sorted_items_Permutation g)) in Hin.
    apply In_g in Hin. destruct Hin as [N ->].
    assert (NF : filter (fun item => week_of item =? w) month_data <> []).
    { intros C. apply N. rewrite V, C. reflexivity. }
    split; [exact NF | ]. rewrite get_summary_stats_nonempty by exact NF.
    reflexivity.
  - intros [NF Hs]. rewrite get_summary_stats_nonempty in Hs by exact NF.
    injection Hs as <-.
    exists (w, records_of_week w month_data). split; [reflexivity | ].
    apply (Permutation_in _ (Permutation_sym (sorted_items_Permutation g))).
    apply In_g. split; [ | reflexivity].
    rewrite V. intros C. apply NF.
    destruct (filter (fun item => week_of item =? w) month_data);
      [reflexivity | discriminate C].
Qed.

(** ** Sorted views and the month list *)

Local Open Scope Z_scope.

Lemma string_leb_trans (a b c : string) :
  String.leb a b = true -> String.leb b c = true -> String.leb a c = true.
Proof.
  unfold String.leb. intros H1 H2.
  destruct (String.compare a b) eqn:C1; try discriminate H1;
    destruct (String.compare b c) eqn:C2; try discriminate H2.
  - apply String_as_OT.cmp_eq in C1, C2. subst.
    assert (E : String.compare c c = Eq) by (apply String_as_OT.cmp_eq; reflexivity).
    rewrite E. reflexivity.
  - apply String_as_OT.cmp_eq in C1. subst. rewrite C2. reflexivity.
  - apply String_as_OT.cmp_eq in C2. subst. rewrite C1. reflexivity.
  - apply String_as_OT.cmp_lt in C1, C2.
    pose proof (String_as_OT.lt_trans _ _ _ C1 C2) as T.
    apply String_as_OT.cmp_lt in T. unfold String_as_OT.cmp in T. rewrite T.
    reflexivity.
Qed.

Lemma string_leb_false (a b : string) :
  String.leb a b = false -> String.leb b a = true.
Proof.
  intros H. destruct (String.leb_total a b) as [T | T]; congruence.
Qed.

Lemma insert_by_key_Permutation {V : Type} (kv : string * V) (l : list (string * V)) :
  Permutation (insert_by_key kv l) (kv :: l).
Proof.
  induction l as [ | x l IH]; cbn [insert_by_key].
  - apply Permutation_refl.
  - destruct (String.leb (fst kv) (fst x)).
    + apply Permutation_refl.
    + eapply Permutation_trans; [apply perm_skip; exact IH | apply perm_swap].
Qed.

Lemma sorted_by_key_Permutation {V : Type} (d : dict string V) :
  Permutation (sorted_by_key d) d.
Proof.
  unfold sorted_by_key. induction d as [ | x d IH]; cbn [fold_right].
  - apply Permutation_refl.
  - eapply Permutation_trans; [apply insert_by_key_Permutation | ].
    apply perm_skip. exact IH.
Qed.

Lemma insert_by_key_sorted {V : Type} (kv : string * V) (l : list (string * V)) :
  StronglySorted key_le l -> StronglySorted key_le (insert_by_key kv l).
Proof.
  induction 1 as [ | x l S IH F]; cbn [insert_by_key].
  - constructor; constructor.
  - destruct (String.leb (fst kv) (fst x)) eqn:E.
    + constructor; [constructor; assumption | ].
      constructor; [exact E | ].
      eapply Forall_impl; [ | exact F]. intros a Ha. unfold key_le in *.
      eapply string_leb_trans; eassumption.
    + constructor; [exact IH | ].
      eapply Permutation_Forall;
        [apply Permutation_sym; apply insert_by_key_Permutation | ].
      constructor; [apply string_leb_false; exact E | exact F].
Qed.

Lemma sorted_by_key_sorted {V : Type} (d : dict string V) :
  StronglySorted key_le (sorted_by_key d).
Proof.
  unfold sorted_by_key. induction d as [ | x d IH]; cbn [fold_right].
  - constructor.
  - apply insert_by_key_sorted. exact IH.
Qed.

Lemma insert_by_key_desc_Permutation {V : Type} (kv : string * V)
      (l : list (string * V)) :
  Permutation (insert_by_key_desc kv l) (kv :: l).
Proof.
  induction l as [ | x l IH]; cbn [insert_by_key_desc].
  - apply Permutation_refl.
  - destruct (String.leb (fst x) (fst kv)).
    + apply Permutation_refl.
    + eapply Permutation_trans; [apply perm_skip; exact IH | apply perm_swap].
Qed.

Lemma sorted_by_key_desc_Permutation {V : Type} (d : dict string V) :
  Permutation (sorted_by_key_desc d) d.
Proof.
  unfold sorted_by_key_desc. induction d as [ | x d IH]; cbn [fold_right].
  - apply Permutation_refl.
  - eapply Permutation_trans; [apply insert_by_key_desc_Permutation | ].
    apply perm_skip. exact IH.
Qed.

Lemma insert_by_key_desc_sorted {V : Type} (kv : string * V) (l : list (string * V)) :
  StronglySorted (fun a b => key_le b a) l ->
  StronglySorted (fun a b => key_le b a) (insert_by_key_desc kv l).
Proof.
  induction 1 as [ | x l S IH F]; cbn [insert_by_key_desc].
  - constructor; constructor.
  - destruct (String.leb (fst x) (fst kv)) eqn:E.
    + constructor; [constructor; assumption | ].
      constructor; [exact E | ].
      eapply Forall_impl; [ | exact F]. intros a Ha. unfold key_le in *.
      eapply string_leb_trans; eassumption.
    + constructor; [exact IH | ].
      eapply Permutation_Forall;
        [apply Permutation_sym; apply insert_by_key_desc_Permutation | ].
      constructor; [apply string_leb_false; exact E | exact F].
Qed.

Lemma sorted_by_key_desc_sorted {V : Type} (d : dict string V) :
  StronglySorted (fun a b => key_le b a) (sorted_by_key_desc d).
Proof.
  unfold sorted_by_key_desc. induction d as [ | x d IH]; cbn [fold_right].
  - constructor.
  - apply insert_by_key_desc_sorted. exact IH.
Qed.

Lemma dict_of_items_NoDup {V : Type} (items : list (string * V)) :
  NoDup (keys items) -> dict_of_items items = items.
Proof.
  unfold dict_of_items.
  assert (G : forall (acc : dict string V),
             NoDup (keys acc ++ keys items) ->
             fold_left (fun d kv => dict_set String.eqb (fst kv) (snd kv) d) items acc
             = acc ++ items).
  { induction items as [ | [k v] items IH]; intros acc ND.
    - cbn. rewrite app_nil_r. reflexivity.
    - cbn [fold_left fst snd].
      rewrite (dict_set_fresh String.eqb String.eqb_eq).
      + rewrite IH.
        * rewrite <- app_assoc. reflexivity.
        * unfold keys in *. rewrite map_app. cbn [map fst] in *.
          rewrite <- app_assoc. exact ND.
      + cbn [keys map fst] in ND. apply NoDup_remove_2 in ND.
        intros Hin. apply ND. apply in_or_app. left. exact Hin. }
  intros ND. apply (G []). exact ND.
Qed.

Lemma firstn_skipn_sorted {A : Type} (R : A -> A -> Prop) (n : nat) (l : list A) :
  StronglySorted R l ->
  StronglySorted R (firstn n l)
  /\ forall a b, In a (firstn n l) -> In b (skipn n l) -> R a b.
Proof.
  intros S. rewrite <- (firstn_skipn n l) in S.
  revert S. generalize (firstn n l), (skipn n l). intros l1 l2.
  induction l1 as [ | x l1 IH]; cbn [app]; intros S.
  - split; [constructor | intros a b []].
  - inversion S as [ | ? ? S' F]; subst.
    destruct (IH S') as [S1 C]. split.
    + constructor; [exact S1 | ].
      rewrite Forall_forall in *. intros y Hy. apply F. apply in_or_app. left. exact Hy.
    + intros a b [<- | Ha] Hb.
      * rewrite Forall_forall in F. apply F. apply in_or_app. right. exact Hb.
      * apply C; assumption.
Qed.

(** X20: the recent entries are min(7, number of records) records of the
    store, greatest key first, and every record left out has a key that is
    not above any key shown. *)
Theorem recent_data_are_the_last_seven (tracker_data : dict string Entry.t) :
  NoDup (keys tracker_data) ->
  List.length (recent_data tracker_data) = Nat.min 7 (List.length tracker_data)
  /\ StronglySorted (fun a b => key_le b a) (recent_data tracker_data)
  /\ (forall item, In item (recent_data tracker_data) -> In item tracker_data)
  /\ (forall shown hidden,
         In shown (recent_data tracker_data) -> In hidden tracker_data ->
         ~ In hidden (recent_data tracker_data) ->
         key_le hidden shown).
Proof.
  intros ND.
  pose proof (sorted_by_key_desc_Permutation tracker_data) as P.
  pose proof (sorted_by_key_desc_sorted tracker_data) as S.
  set (sorted := sorted_by_key_desc tracker_data) in *.
  assert (NDs : NoDup (keys sorted)).
  { eapply Permutation_NoDup; [ | exact ND].
    apply Permutation_map. apply Permutation_sym. exact P. }
  assert (E : recent_data tracker_data = firstn 7 sorted).
  { unfold recent_data. fold sorted. apply dict_of_items_NoDup.
    unfold keys in *. rewrite <- (firstn_skipn 7 sorted), map_app in NDs.
    apply NoDup_app_remove_r in NDs. exact NDs. }
  rewrite E. destruct (firstn_skipn_sorted _ 7 sorted S) as [S1 C].
  split; [rewrite length_firstn, (Permutation_length P); reflexivity | ].
  split; [exact S1 | ]. split.
  - intros item Hin. apply (Permutation_in _ P).
    rewrite <- (firstn_skipn 7 sorted). apply in_or_app. left. exact Hin.
  - intros shown hidden Hs Hh Nh. apply (C shown hidden Hs).
    apply (Permutation_in _ (Permutation_sym P)) in Hh.
    rewrite <- (firstn_skipn 7 sorted) in Hh. apply in_app_or in Hh.
    destruct Hh as [Hh | Hh]; [contradiction | exact Hh].
Qed.

Lemma digit_char_compare (x y : Z) :
  Ascii.compare (digit_char x) (digit_char y) = (x mod 10 ?= y mod 10).
Proof.
  unfold digit_char.
  pose proof (Z.mod_pos_bound x 10 (ltac:(lia) : 0 < 10)) as Bx.
  pose proof (Z.mod_pos_bound y 10 (ltac:(lia) : 0 < 10)) as By.
  remember (x mod 10) as a eqn:Ea. remember (y mod 10) as b eqn:Eb. clear Ea Eb.
  assert (Ca : a = 0 \/ a = 1 \/ a = 2 \/ a = 3 \/ a = 4 \/ a = 5 \/ a = 6
               \/ a = 7 \/ a = 8 \/ a = 9) by lia.
  assert (Cb : b = 0 \/ b = 1 \/ b = 2 \/ b = 3 \/ b = 4 \/ b = 5 \/ b = 6
               \/ b = 7 \/ b = 8 \/ b = 9) by lia.
  clear Bx By.
  repeat (destruct Ca as [-> | Ca]; [
            repeat (destruct Cb as [-> | Cb]; [reflexivity | ]);
            subst b; reflexivity | ]).
  subst a.
  repeat (destruct Cb as [-> | Cb]; [reflexivity | ]).
  subst b. reflexivity.
Qed.

Lemma compare_pad2 (m m' : Z) (s s' : string) :
  0 <= m < 100 -> 0 <= m' < 100 ->
  String.compare (String (digit_char (m / 10)) (String (digit_char m) s))
                 (String (digit_char (m' / 10)) (String (digit_char m') s'))
  = then_compare (m ?= m') (String.compare s s').
Proof.
  intros H H'. cbn [String.compare]. rewrite !digit_char_compare.
  pose proof (Z.div_mod m 10 (ltac:(lia) : 10 <> 0)).
  pose proof (Z.mod_pos_bound m 10 (ltac:(lia) : 0 < 10)).
  pose proof (Z.div_mod m' 10 (ltac:(lia) : 10 <> 0)).
  pose proof (Z.mod_pos_bound m' 10 (ltac:(lia) : 0 < 10)).
  assert (0 <= m / 10 < 10) by (split; [apply Z.div_pos | apply Z.div_lt_upper_bound]; lia).
  assert (0 <= m' / 10 < 10) by (split; [apply Z.div_pos | apply Z.div_lt_upper_bound]; lia).
  rewrite (Z.mod_small (m / 10) 10), (Z.mod_small (m' / 10) 10) by lia.
  destruct (Z.compare_spec (m / 10) (m' / 10));
    destruct (Z.compare_spec (m mod 10) (m' mod 10));
    destruct (Z.compare_spec m m'); cbn [then_compare]; try reflexivity; lia.
Qed.

Lemma compare_pad4 (y y' : Z) (s s' : string) :
  0 <= y < 10000 -> 0 <= y' < 10000 ->
  String.compare
    (String (digit_char (y / 1000)) (String (digit_char (y / 100))
       (String (digit_char (y / 10)) (String (digit_char y) s))))
    (String (digit_char (y' / 1000)) (String (digit_char (y' / 100))
       (String (digit_char (y' / 10)) (String (digit_char y') s'))))
  = then_compare (y ?= y') (String.compare s s').
Proof.
  intros H H'.
  assert (A : forall n, n / 1000 = (n / 100) / 10 /\ n / 10 = n / 10
                        /\ n / 100 = (n / 100)).
  { intros n. rewrite Z.div_div by lia. repeat split. }
  set (h := y / 100). set (h' := y' / 100).
  assert (Hh : 0 <= h < 100)
    by (unfold h; split; [apply Z.div_pos | apply Z.div_lt_upper_bound]; lia).
  assert (Hh' : 0 <= h' < 100)
    by (unfold h'; split; [apply Z.div_pos | apply Z.div_lt_upper_bound]; lia).
  replace (y / 1000) with (h / 10) by (unfold h; rewrite Z.div_div by lia; reflexivity).
  replace (y' / 1000) with (h' / 10) by (unfold h'; rewrite Z.div_div by lia; reflexivity).
  rewrite compare_pad2 by assumption.
  set (l := y mod 100). set (l' := y' mod 100).
  pose proof (Z.div_mod y 100 (ltac:(lia) : 100 <> 0)) as E.
  pose proof (Z.mod_pos_bound y 100 (ltac:(lia) : 0 < 100)) as B.
  pose proof (Z.div_mod y' 100 (ltac:(lia) : 100 <> 0)) as E'.
  pose proof (Z.mod_pos_bound y' 100 (ltac:(lia) : 0 < 100)) as B'.
  fold h l in E. fold h' l' in E'. fold l in B. fold l' in B'.
  assert (D : forall n, digit_char (n / 10) = digit_char ((n mod 100) / 10)
                        /\ digit_char n = digit_char (n mod 100)).
  { intros n. unfold digit_char.
    pose proof (Z.div_mod n 100 (ltac:(lia) : 100 <> 0)).
    pose proof (Z.mod_pos_bound n 100 (ltac:(lia) : 0 < 100)).
    pose proof (Z.div_mod n 10 (ltac:(lia) : 10 <> 0)).
    pose proof (Z.mod_pos_bound n 10 (ltac:(lia) : 0 < 10)).
    pose proof (Z.div_mod (n mod 100) 10 (ltac:(lia) : 10 <> 0)).
    pose proof (Z.mod_pos_bound (n mod 100) 10 (ltac:(lia) : 0 < 10)).
    pose proof (Z.div_mod (n / 10) 10 (ltac:(lia) : 10 <> 0)).
    pose proof (Z.mod_pos_bound (n / 10) 10 (ltac:(lia) : 0 < 10)).
    pose proof (Z.div_mod (n mod 100 / 10) 10 (ltac:(lia) : 10 <> 0)).
    pose proof (Z.mod_pos_bound (n mod 100 / 10) 10 (ltac:(lia) : 0 < 10)).
    assert ((n mod 100) mod 10 = n mod 10) by lia.
    assert ((n mod 100 / 10) mod 10 = (n / 10) mod 10) by lia.
    split; do 3 f_equal; lia. }
  rewrite (proj1 (D y)), (proj2 (D y)), (proj1 (D y')), (proj2 (D y')).
  fold l l'. rewrite compare_pad2 by assumption.
  destruct (Z.compare_spec h h'); destruct (Z.compare_spec l l');
    destruct (Z.compare_spec y y'); cbn [then_compare]; try reflexivity; lia.
Qed.

Lemma strftime_compare (a b : date) :
  valid_date a = true -> valid_date b = true ->
  String.compare (strftime_ymd a) (strftime_ymd b)
  = then_compare (year a ?= year b)
      (then_compare (month a ?= month b) (day a ?= day b)).
Proof.
  intros Va Vb.
  assert (R : forall d, valid_date d = true ->
                        0 <= year d < 10000 /\ 0 <= month d < 100 /\ 0 <= day d < 100).
  { intros d V. apply valid_date_spec in V. destruct d as [y m dd].
    cbn [year month day] in *. destruct V as (Vy & Vm & Vd).
    assert (dd <= 31).
    { unfold days_in_month in Vd.
      destruct ((m =? 2) && is_leap y); [lia | ].
      month_cases m; eval_tables; lia. }
    lia. }
  destruct (R a Va) as (Ya & Ma & Da). destruct (R b Vb) as (Yb & Mb & Db).
  unfold strftime_ymd, pad4, pad2. cbn [String.append].
  assert (Dash : forall s s' : string,
             String.compare (String "-" s) (String "-" s') = String.compare s s')
    by reflexivity.
  rewrite compare_pad4 by assumption. f_equal.
  rewrite Dash, compare_pad2 by assumption. f_equal.
  rewrite Dash, compare_pad2 by assumption.
  cbn [String.compare]. destruct (day a ?= day b); reflexivity.
Qed.

Lemma strftime_leb (a b : date) :
  valid_date a = true -> valid_date b = true ->
  String.leb (strftime_ymd a) (strftime_ymd b) = date_leb a b.
Proof.
  intros Va Vb. unfold String.leb.
  rewrite (strftime_compare a b Va Vb).
  unfold date_leb, date_ltb.
  destruct (Z.compare_spec (year a) (year b)) as [Ey | Ly | Gy];
    destruct (Z.compare_spec (month a) (month b)) as [Em | Lm | Gm];
    destruct (Z.compare_spec (day a) (day b)) as [Ed | Ld | Gd];
    cbn [then_compare];
    repeat match goal with
           | |- context [?x <? ?y] => destruct (Z.ltb_spec x y); try lia
           | |- context [?x =? ?y] => destruct (Z.eqb_spec x y); try lia
           end; reflexivity.
Qed.

(** X21: date keys sort like dates: for the keys that the form writes, the
    string order used by sorted() is the order of the dates. *)
Theorem date_keys_sort_chronologically (a b : date) :
  valid_date a = true -> valid_date b = true ->
  String.leb (strftime_ymd a) (strftime_ymd b) = date_leb a b
  /\ String.ltb (strftime_ymd a) (strftime_ymd b) = date_ltb a b.
Proof.
  intros Va Vb. unfold String.leb, String.ltb.
  rewrite (strftime_compare a b Va Vb).
  unfold date_leb, date_ltb.
  destruct (Z.compare_spec (year a) (year b)) as [Ey | Ly | Gy];
    destruct (Z.compare_spec (month a) (month b)) as [Em | Lm | Gm];
    destruct (Z.compare_spec (day a) (day b)) as [Ed | Ld | Gd];
    cbn [then_compare];
    repeat match goal with
           | |- context [?x <? ?y] => destruct (Z.ltb_spec x y); try lia
           | |- context [?x =? ?y] => destruct (Z.eqb_spec x y); try lia
           end; reflexivity.
Qed.

Lemma StronglySorted_impl {A : Type} (R1 R2 : A -> A -> Prop) (l : list A) :
  (forall a b, R1 a b -> R2 a b) -> StronglySorted R1 l -> StronglySorted R2 l.
Proof.
  intros H. induction 1 as [ | x l S IH F]; constructor; [exact IH | ].
  eapply Forall_impl; [ | exact F]. intros a Ha. apply H. exact Ha.
Qed.

(** X22: the chart rows come in ascending key order, which for date keys is
    chronological order; sorting loses and adds no record. *)
Theorem sorted_items_are_chronological (tracker_data : dict string Entry.t) :
  Permutation (sorted_by_key tracker_data) tracker_data
  /\ StronglySorted
       (fun i j =>
          key_le i j
          /\ forall a b, valid_date a = true -> valid_date b = true ->
                         fst i = strftime_ymd a -> fst j = strftime_ymd b ->
                         date_leb a b = true)
       (sorted_by_key tracker_data).
Proof.
  split; [apply sorted_by_key_Permutation | ].
  eapply StronglySorted_impl; [ | apply sorted_by_key_sorted].
  intros i j L. split; [exact L | ].
  intros a b Va Vb Ei Ej. unfold key_le in L. rewrite Ei, Ej in L.
  rewrite <- (strftime_leb a b Va Vb). exact L.
Qed.

Lemma pair_leb_spec (a b : Z * Z) :
  pair_leb a b = true <-> pair_lt a b \/ a = b.
Proof.
  unfold pair_leb, pair_lt. destruct a as [y1 m1], b as [y2 m2]. cbn [fst snd].
  rewrite orb_true_iff, andb_true_iff, Z.ltb_lt, Z.eqb_eq, Z.leb_le.
  split.
  - intros [H | [-> H]]; [left; left; exact H | ].
    destruct (Z.eq_dec m1 m2) as [-> | N]; [right; reflexivity | left; right; lia].
  - intros [[H | [-> H]] | E]; [left; exact H | right; lia | ].
    injection E as -> ->. right. lia.
Qed.

Lemma insert_pair_Permutation (p : Z * Z) (l : list (Z * Z)) :
  Permutation (insert_pair p l) (p :: l).
Proof.
  induction l as [ | x l IH]; cbn [insert_pair].
  - apply Permutation_refl.
  - destruct (pair_leb p x).
    + apply Permutation_refl.
    + eapply Permutation_trans; [apply perm_skip; exact IH | apply perm_swap].
Qed.

Lemma sort_pairs_Permutation (l : list (Z * Z)) :
  Permutation (fold_right insert_pair [] l) l.
Proof.
  induction l as [ | x l IH]; cbn [fold_right].
  - apply Permutation_refl.
  - eapply Permutation_trans; [apply insert_pair_Permutation | ].
    apply perm_skip. exact IH.
Qed.

Lemma insert_pair_sorted (p : Z * Z) (l : list (Z * Z)) :
  ~ In p l -> StronglySorted pair_lt l -> StronglySorted pair_lt (insert_pair p l).
Proof.
  intros N S. induction S as [ | x l S IH F]; cbn [insert_pair].
  - constructor; constructor.
  - assert (Nx : p <> x) by (intros ->; apply N; left; reflexivity).
    assert (Nl : ~ In p l) by (intros H; apply N; right; exact H).
    destruct (pair_leb p x) eqn:E.
    + apply pair_leb_spec in E. destruct E as [L | E]; [ | contradiction].
      constructor; [constructor; assumption | ].
      constructor; [exact L | ].
      eapply Forall_impl; [ | exact F]. intros a Ha.
      unfold pair_lt in *. lia.
    + constructor; [apply IH; exact Nl | ].
      eapply Permutation_Forall;
        [apply Permutation_sym; apply insert_pair_Permutation | ].
      constructor; [ | exact F].
      assert (NL : ~ (pair_lt p x \/ p = x)).
      { rewrite <- pair_leb_spec. congruence. }
      unfold pair_lt in *. destruct p as [y1 m1], x as [y2 m2]. cbn [fst snd] in *.
      assert (~ (y1 = y2 /\ m1 = m2)) by (intros [-> ->]; apply Nx; reflexivity).
      lia.
Qed.

Lemma sort_pairs_sorted (l : list (Z * Z)) :
  NoDup l -> StronglySorted pair_lt (fold_right insert_pair [] l).
Proof.
  induction 1 as [ | x l N ND IH]; cbn [fold_right].
  - constructor.
  - apply insert_pair_sorted; [ | exact IH].
    intros Hin. apply N. apply (Permutation_in _ (sort_pairs_Permutation l)). exact Hin.
Qed.

Lemma parse_keys_Ok (ks : list string) :
  Forall is_date_string ks ->
  exists ds, parse_keys ks = Ok ds
             /\ forall y m, In (y, m) (map (fun d => (year d, month d)) ds)
                            <-> exists k, In k ks /\ in_month y m k = true.
Proof.
  induction 1 as [ | k ks [d Hd] F IH].
  - exists []. split; [reflexivity | ]. intros y m. split; [intros [] | ].
    intros [k [[] _]].
  - destruct IH as (ds & E & I). exists (d :: ds). cbn [parse_keys].
    rewrite Hd, E. split; [reflexivity | ]. intros y m. cbn [map In]. rewrite I.
    assert (M : (year d, month d) = (y, m) <-> in_month y m k = true).
    { unfold in_month. rewrite Hd, andb_true_iff, !Z.eqb_eq. split.
      - intros H. injection H as <- <-. split; reflexivity.
      - intros [<- <-]. reflexivity. }
    split.
    + intros [H | [k' [Hk' Hm]]].
      * exists k. split; [left; reflexivity | apply M; exact H].
      * exists k'. split; [right; exact Hk' | exact Hm].
    + intros [k' [[<- | Hk'] Hm]].
      * left. apply M. exact Hm.
      * right. exists k'. split; assumption.
Qed.

(** X19: the month list of the monthly view holds each month that has a
    record exactly once, in ascending order, and every listed month has a
    non-empty record set. *)
Theorem listed_months_have_records (tracker_data : dict string Entry.t) :
  NoDup (keys tracker_data) ->
  Forall is_date_string (keys tracker_data) ->
  exists months,
    months_of tracker_data = Ok months
    /\ StronglySorted pair_lt months
    /\ (forall y m, In (y, m) months <->
                    exists key, In key (keys tracker_data)
                                /\ in_month y m key = true)
    /\ (forall y m, In (y, m) months ->
                    exists month_data,
                      month_data_of tracker_data y m = Ok month_data
                      /\ month_data <> []).
Proof.
  intros ND HK.
  destruct (parse_keys_Ok _ HK) as (ds & E & I).
  unfold months_of. rewrite E. cbn [bind].
  set (pairs := nodup pair_eq_dec (map (fun d => (year d, month d)) ds)).
  exists (fold_right insert_pair [] pairs).
  split; [reflexivity | ].
  split; [apply sort_pairs_sorted; apply NoDup_nodup | ].
  assert (M : forall y m, In (y, m) (fold_right insert_pair [] pairs) <->
                          exists key, In key (keys tracker_data)
                                      /\ in_month y m key = true).
  { intros y m. rewrite <- I. split; intros H.
    - apply (Permutation_in _ (sort_pairs_Permutation pairs)) in H.
      unfold pairs in H. apply nodup_In in H. exact H.
    - apply (Permutation_in _ (Permutation_sym (sort_pairs_Permutation pairs))).
      unfold pairs. apply nodup_In. exact H. }
  split; [exact M | ].
  intros y m Hin. apply M in Hin. destruct Hin as [key [Hk Hm]].
  assert (F : month_data_of tracker_data y m
              = Ok (filter (fun kv => in_month y m (fst kv)) tracker_data)).
  { assert (E' : month_data_of tracker_data y m
                 = if forallb parses (keys tracker_data)
                   then Ok (filter (fun kv => in_month y m (fst kv)) tracker_data)
                   else Raise ValueError)
      by exact (add_to_month_fold y m tracker_data [] ND).
    assert (T : forallb parses (keys tracker_data) = true).
    { apply forallb_forall. intros k0 Hk0. apply parses_is_date_string.
      rewrite Forall_forall in HK. apply HK. exact Hk0. }
    rewrite E', T. reflexivity. }
  eexists. split; [exact F | ].
  unfold keys in Hk. apply in_map_iff in Hk. destruct Hk as [[k v] [<- Hkv]].
  intros C.
  assert (Hf : In (k, v) (filter (fun kv => in_month y m (fst kv)) tracker_data)).
  { apply filter_In. split; [exact Hkv | exact Hm]. }
  rewrite C in Hf. exact Hf.
Qed.

(** * Aggregation in floating point *)

Local Open Scope Z_scope.

(** ** Arithmetic *)

Lemma overflow_bound_large : 2 ^ 80 < Binary64.overflow_bound.
Proof. vm_compute. reflexivity. Qed.

(* The bound is where rounding overflows. *)
Example overflow_bound_sharp :
  Binary64.round_int (Binary64.overflow_bound - 1)
  = S754_finite false (2 ^ 53 - 1) 971
  /\ Binary64.round_int Binary64.overflow_bound = S754_infinity false
  /\ Binary64.round_quotient (7 * Binary64.overflow_bound - 1) 7
     = S754_finite false (2 ^ 53 - 1) 971
  /\ Binary64.round_quotient (7 * Binary64.overflow_bound) 7 = S754_infinity false.
Proof. repeat split; vm_compute; reflexivity. Qed.

Lemma of_int_Ok (z : Z) :
  Z.abs z < Binary64.overflow_bound ->
  Binary64.of_int z = Ok (Binary64.round_int z).
Proof.
  intros H. unfold Binary64.of_int.
  destruct (Z.ltb_spec (Z.abs z) Binary64.overflow_bound); [reflexivity | lia].
Qed.

Lemma truediv_ints (x y : Z) :
  y <> 0 -> Z.abs x < Binary64.overflow_bound * Z.abs y ->
  Binary64.truediv (Binary64.PInt x) (Binary64.PInt y)
  = Ok (Binary64.PFloat (Binary64.round_quotient x y)).
Proof.
  intros N H. unfold Binary64.truediv.
  destruct (Z.eqb_spec y 0); [contradiction | ].
  destruct (Z.ltb_spec (Z.abs x) (Binary64.overflow_bound * Z.abs y));
    [reflexivity | lia].
Qed.

Lemma truediv_float_int (f : Binary64.float) (y : Z) :
  y <> 0 -> Z.abs y < Binary64.overflow_bound ->
  Binary64.truediv (Binary64.PFloat f) (Binary64.PInt y)
  = Ok (Binary64.PFloat (SFdiv Binary64.prec Binary64.emax f (Binary64.round_int y))).
Proof.
  intros N H. unfold Binary64.truediv. rewrite (of_int_Ok y H). cbn [bind].
  destruct (Z.eqb_spec y 0); [contradiction | reflexivity].
Qed.

Lemma gtb_ints (x y : Z) :
  Binary64.gtb (Binary64.PInt x) (Binary64.PInt y) = (x >? y).
Proof. reflexivity. Qed.

(** ** The aggregator on records written by the form *)

Lemma Zsum_app (l1 l2 : list Z) : Zsum (l1 ++ l2) = Zsum l1 + Zsum l2.
Proof.
  induction l1 as [ | x l1 IH]; cbn [app Zsum fold_right].
  - reflexivity.
  - fold (Zsum (l1 ++ l2)) (Zsum l1). lia.
Qed.

Lemma Zsum_Permutation (l1 l2 : list Z) : Permutation l1 l2 -> Zsum l1 = Zsum l2.
Proof.
  induction 1 as [ | x l1 l2 P IH | x y l | l1 l2 l3 P1 IH1 P2 IH2];
    cbn [Zsum fold_right].
  - reflexivity.
  - fold (Zsum l1) (Zsum l2). lia.
  - lia.
  - congruence.
Qed.

Lemma int_total_app (field : Entry.t -> option num) (l1 l2 : list Entry.t) :
  int_total field (l1 ++ l2) = int_total field l1 + int_total field l2.
Proof. unfold int_total. rewrite map_app. apply Zsum_app. Qed.

Lemma int_total_Permutation (field : Entry.t -> option num) (l1 l2 : list Entry.t) :
  Permutation l1 l2 -> int_total field l1 = int_total field l2.
Proof. intros P. apply Zsum_Permutation. apply Permutation_map. exact P. Qed.

Lemma session_count_app (l1 l2 : list Entry.t) :
  session_count (l1 ++ l2) = session_count l1 + session_count l2.
Proof. unfold session_count. rewrite filter_app, length_app. lia. Qed.

Lemma session_count_Permutation (l1 l2 : list Entry.t) :
  Permutation l1 l2 -> session_count l1 = session_count l2.
Proof.
  intros P. unfold session_count. f_equal. apply Permutation_length.
  induction P as [ | x l1 l2 P IH | x y l | l1 l2 l3 P1 IH1 P2 IH2]; cbn [filter].
  - constructor.
  - destruct (counts_as_session x); [constructor | ]; exact IH.
  - destruct (counts_as_session x), (counts_as_session y);
      try apply Permutation_refl. apply perm_swap.
  - eapply Permutation_trans; eassumption.
Qed.

Lemma py_sum_from (a : Z) (zs : list Z) :
  fold_left (fun acc x => s <- acc ;; Binary64.add s x)
            (map Binary64.PInt zs) (Ok (Binary64.PInt a))
  = Ok (Binary64.PInt (a + Zsum zs)).
Proof.
  revert a. induction zs as [ | z zs IH]; intros a;
    cbn [map fold_left Zsum fold_right bind Binary64.add].
  - rewrite Z.add_0_r. reflexivity.
  - rewrite IH. fold (Zsum zs). rewrite Z.add_assoc. reflexivity.
Qed.

Lemma get_or_0_int (field : option num) :
  (exists z, field = Some (Int z)) ->
  Binary64.get_or_0 field = Binary64.PInt (counted_int field).
Proof.
  intros [z ->]. cbn [Binary64.get_or_0 Binary64.of_num Binary64.truthy counted_int].
  destruct (Z.eqb_spec z 0) as [-> | N]; reflexivity.
Qed.

Lemma py_sum_int_fields (field : Entry.t -> option num) (records : list Entry.t) :
  Forall (fun data => exists z, field data = Some (Int z)) records ->
  Binary64.py_sum (map (fun data => Binary64.get_or_0 (field data)) records)
  = Ok (Binary64.PInt (int_total field records)).
Proof.
  intros F.
  assert (E : map (fun data => Binary64.get_or_0 (field data)) records
              = map Binary64.PInt (map (fun data => counted_int (field data)) records)).
  { induction F as [ | r records Hr F IH]; cbn [map]; [reflexivity | ].
    rewrite (get_or_0_int _ Hr), IH. reflexivity. }
  rewrite E. unfold Binary64.py_sum. rewrite py_sum_from. reflexivity.
Qed.

Lemma py_sum_sessions (records : list Entry.t) :
  Binary64.py_sum
    (map (fun _ => Binary64.PInt 1)
         (filter (fun data => get_flag (Entry.strength_training data)) records))
  = Ok (Binary64.PInt (session_count records)).
Proof.
  unfold session_count, counts_as_session.
  set (l := filter (fun data => get_flag (Entry.strength_training data)) records).
  assert (E : map (fun _ : Entry.t => Binary64.PInt 1) l
              = map Binary64.PInt (map (fun _ => 1) l)).
  { rewrite map_map. reflexivity. }
  rewrite E. unfold Binary64.py_sum. rewrite py_sum_from. do 2 f_equal.
  clear E. clearbody l. unfold Zsum.
  induction l as [ | x l IH]; cbn [map fold_right List.length] in *; lia.
Qed.

Lemma int_total_bounds (field : Entry.t -> option num) (hi : Z)
      (records : list Entry.t) :
  Forall (fun data => int_within 0 hi (field data)) records ->
  0 <= int_total field records <= hi * Z.of_nat (List.length records).
Proof.
  induction 1 as [ | r records (z & E & B) F IH].
  - cbn. lia.
  - unfold int_total in *. cbn [map Zsum fold_right List.length].
    fold (Zsum (map (fun data => counted_int (field data)) records)).
    rewrite E. cbn [counted_int]. rewrite Nat2Z.inj_succ, Z.mul_succ_r. lia.
Qed.

Lemma int_within_int (lo hi : Z) (field : option num) :
  int_within lo hi field -> exists z, field = Some (Int z).
Proof. intros (z & E & _). exists z. exact E. Qed.

(* The floats of a sum stay floats. *)
Lemma py_sum_floats_from (a : Binary64.float) (xs : list Binary64.pynum) :
  Forall is_float xs ->
  exists f,
    fold_left (fun acc x => s <- acc ;; Binary64.add s x) xs
              (Ok (Binary64.PFloat a))
    = Ok (Binary64.PFloat f).
Proof.
  intros F. revert a. induction F as [ | x xs [g ->] F IH]; intros a.
  - exists a. reflexivity.
  - cbn [fold_left bind Binary64.add]. apply IH.
Qed.

Lemma py_sum_floats (xs : list Binary64.pynum) :
  xs <> [] -> Forall is_float xs ->
  exists f, Binary64.py_sum xs = Ok (Binary64.PFloat f).
Proof.
  intros NE F. destruct F as [ | x xs [g ->] F]; [contradiction | ].
  unfold Binary64.py_sum. cbn [fold_left bind Binary64.add].
  rewrite (of_int_Ok 0) by (pose proof overflow_bound_large; lia).
  cbn [bind]. apply py_sum_floats_from. exact F.
Qed.

Lemma mean_Ok (xs : list Binary64.pynum) :
  Forall is_float xs ->
  Z.of_nat (List.length xs) < 2 ^ 64 ->
  exists v,
    (if is_empty xs then Ok (Binary64.PInt 0)
     else s <- Binary64.py_sum xs ;; Binary64.truediv s (Binary64.len xs))
    = Ok v.
Proof.
  intros F B. destruct xs as [ | x xs]; cbn [is_empty].
  - eexists. reflexivity.
  - destruct (py_sum_floats (x :: xs)) as [f Hf]; [discriminate | exact F | ].
    rewrite Hf. cbn [bind]. unfold Binary64.len.
    rewrite truediv_float_int.
    + eexists. reflexivity.
    + cbn [List.length]. lia.
    + pose proof overflow_bound_large. lia.
Qed.

Lemma change_Ok (xs : list Binary64.pynum) :
  Forall is_float xs ->
  exists v,
    (if Binary64.gtb (Binary64.len xs) (Binary64.PInt 1)
     then Binary64.sub (last xs (Binary64.PInt 0)) (hd (Binary64.PInt 0) xs)
     else Ok (Binary64.PInt 0))
    = Ok v.
Proof.
  intros F. destruct (Binary64.gtb (Binary64.len xs) (Binary64.PInt 1));
    [ | eexists; reflexivity].
  destruct xs as [ | x xs]; [eexists; reflexivity | ].
  assert (L : is_float (last (x :: xs) (Binary64.PInt 0))).
  { rewrite Forall_forall in F. apply F.
    destruct (exists_last (l := x :: xs)) as (l' & a & E); [discriminate | ].
    rewrite E, last_last. apply in_or_app. right. left. reflexivity. }
  apply Forall_inv in F. destruct F as [f ->]. destruct L as [g ->].
  eexists. reflexivity.
Qed.

Lemma collect_floats (records : list Entry.t) (ws bs : list Binary64.pynum) :
  Forall form_record records ->
  Forall is_float ws -> Forall is_float bs ->
  Forall is_float (fst (fold_left Binary64.collect records (ws, bs)))
  /\ Forall is_float (snd (fold_left Binary64.collect records (ws, bs)))
  /\ (List.length (fst (fold_left Binary64.collect records (ws, bs)))
      <= List.length ws + List.length records)%nat
  /\ (List.length (snd (fold_left Binary64.collect records (ws, bs)))
      <= List.length bs + List.length records)%nat.
Proof.
  intros F. revert ws bs.
  induction F as [ | r records (_ & _ & _ & Hw & Hb) F IH]; intros ws bs Fw Fb.
  - cbn [fold_left fst snd List.length]. repeat split; try assumption; lia.
  - cbn [fold_left].
    set (ws' := match Entry.weight r with
                | Some weight =>
                    if Binary64.gtb (Binary64.of_num weight) (Binary64.PInt 0)
                    then ws ++ [Binary64.of_num weight] else ws
                | None => ws
                end).
    set (bs' := match Entry.blood_sugar r with
                | Some blood_sugar =>
                    if Binary64.gtb (Binary64.of_num blood_sugar) (Binary64.PInt 0)
                    then bs ++ [Binary64.of_num blood_sugar] else bs
                | None => bs
                end).
    assert (Step : forall (field : option num) (acc : list Binary64.pynum),
               float_or_absent field -> Forall is_float acc ->
               let acc' := match field with
                           | Some v =>
                               if Binary64.gtb (Binary64.of_num v) (Binary64.PInt 0)
                               then acc ++ [Binary64.of_num v] else acc
                           | None => acc
                           end in
               Forall is_float acc'
               /\ (List.length acc' <= S (List.length acc))%nat).
    { intros field acc Hf Fa. destruct field as [[z | q] | ]; cbn zeta.
      - destruct Hf.
      - destruct (Binary64.gtb (Binary64.of_num (Float q)) (Binary64.PInt 0)).
        + split.
          * apply Forall_app. split; [exact Fa | ].
            constructor; [ | constructor]. eexists. reflexivity.
          * rewrite length_app. cbn [List.length]. lia.
        + split; [exact Fa | lia].
      - split; [exact Fa | lia]. }
    destruct (Step (Entry.weight r) ws Hw Fw) as [Fw' Lw].
    destruct (Step (Entry.blood_sugar r) bs Hb Fb) as [Fb' Lb].
    fold ws' in Fw', Lw. fold bs' in Fb', Lb.
    destruct (IH ws' bs' Fw' Fb') as (A & B & C & D).
    change (Binary64.collect (ws, bs) r) with (ws', bs').
    cbn [List.length]. repeat split; try assumption; lia.
Qed.

(* The aggregator on records as the form writes them. *)
Lemma form_records_stats (data_dict : dict string Entry.t) :
  data_dict <> [] ->
  Forall form_record (values data_dict) ->
  Z.of_nat (List.length data_dict) < 2 ^ 64 ->
  exists st,
    Binary64.get_summary_stats data_dict = Ok st
    /\ exercise_statistics (values data_dict) st.
Proof.
  intros NE F B.
  assert (E : is_empty data_dict = false)
    by (destruct data_dict; [contradiction | reflexivity]).
  unfold Binary64.get_summary_stats. rewrite E.
  set (records := values data_dict) in *.
  assert (Ln : List.length data_dict = List.length records)
    by (unfold records, values; rewrite length_map; reflexivity).
  set (n := Z.of_nat (List.length records)).
  assert (Bn : 1 <= n < 2 ^ 64).
  { unfold n. rewrite <- Ln. split; [ | exact B].
    destruct data_dict; [contradiction | cbn [List.length]; lia]. }
  assert (Ft : Forall (fun data => int_within 0 300 (Entry.treadmill_time data)) records)
    by (eapply Forall_impl; [ | exact F]; intros a Ha; apply Ha).
  assert (Fs : Forall (fun data => int_within 0 50000 (Entry.steps data)) records)
    by (eapply Forall_impl; [ | exact F]; intros a Ha; apply Ha).
  assert (Fl : Forall (fun data => int_within 0 120 (Entry.lunch_walk_time data)) records)
    by (eapply Forall_impl; [ | exact F]; intros a Ha; apply Ha).
  pose proof (int_total_bounds _ _ _ Ft) as Bt.
  pose proof (int_total_bounds _ _ _ Fs) as Bs.
  pose proof (int_total_bounds _ _ _ Fl) as Bl.
  fold n in Bt, Bs, Bl.
  set (tt := int_total Entry.treadmill_time records) in *.
  set (ts := int_total Entry.steps records) in *.
  set (tl := int_total Entry.lunch_walk_time records) in *.
  pose proof overflow_bound_large as Big.
  rewrite (py_sum_int_fields Entry.treadmill_time records)
    by (eapply Forall_impl; [ | exact Ft]; intros a; apply int_within_int).
  rewrite (py_sum_int_fields Entry.steps records)
    by (eapply Forall_impl; [ | exact Fs]; intros a; apply int_within_int).
  rewrite (py_sum_int_fields Entry.lunch_walk_time records)
    by (eapply Forall_impl; [ | exact Fl]; intros a; apply int_within_int).
  rewrite py_sum_sessions. cbn [bind]. fold tt ts tl.
  assert (Ex : exists tex,
             composite_exercise_time tt ts tl = Ok (Binary64.PFloat tex)).
  { unfold composite_exercise_time.
    rewrite (truediv_ints ts 100) by lia. cbn [bind Binary64.add].
    rewrite (of_int_Ok tt) by lia. cbn [bind Binary64.add].
    rewrite (of_int_Ok tl) by lia. cbn [bind]. eexists. reflexivity. }
  destruct Ex as [tex Ex].
  assert (Ex' : (steps_minutes <- Binary64.truediv (Binary64.PInt ts) (Binary64.PInt 100) ;;
                 with_steps <- Binary64.add (Binary64.PInt tt) steps_minutes ;;
                 Binary64.add with_steps (Binary64.PInt tl))
                = Ok (Binary64.PFloat tex)) by exact Ex.
  destruct (Binary64.truediv (Binary64.PInt ts) (Binary64.PInt 100))
    as [steps_minutes | e]; [ | discriminate Ex'].
  cbn [bind] in Ex' |- *.
  destruct (Binary64.add (Binary64.PInt tt) steps_minutes)
    as [with_steps | e]; [ | discriminate Ex'].
  cbn [bind] in Ex' |- *. rewrite Ex'. cbn [bind].
  destruct (collect_floats records [] [] F (Forall_nil _) (Forall_nil _))
    as (Fw & Fb & Lw & Lb).
  destruct (fold_left Binary64.collect records ([], [])) as [weights blood_sugars].
  cbn [fst snd List.length] in Fw, Fb, Lw, Lb.
  assert (Eln : Binary64.len data_dict = Binary64.PInt n)
    by (unfold Binary64.len; rewrite Ln; reflexivity).
  rewrite !Eln, !gtb_ints.
  destruct (Z.gtb_spec n 0) as [_ | C]; [ | lia].
  rewrite (truediv_ints tt n) by nia. cbn [bind].
  rewrite (truediv_ints ts n) by nia. cbn [bind].
  rewrite (truediv_ints tl n) by nia. cbn [bind].
  rewrite (truediv_float_int tex n) by lia. cbn [bind].
  destruct (mean_Ok weights Fw ltac:(lia)) as [aw Haw]. rewrite Haw. cbn [bind].
  destruct (mean_Ok blood_sugars Fb ltac:(lia)) as [ab Hab]. rewrite Hab. cbn [bind].
  destruct (change_Ok weights Fw) as [wc Hwc]. rewrite Hwc. cbn [bind].
  eexists. split; [reflexivity | ].
  constructor; try reflexivity.
  - intros key Hin. unfold statistic_keys in Hin. cbn [In] in Hin.
    repeat (destruct Hin as [<- | Hin]; [eexists; reflexivity | ]).
    destruct Hin.
  - fold tt ts tl. rewrite Ex. reflexivity.
  - fold tt. fold n. rewrite (truediv_ints tt n) by nia. reflexivity.
  - fold ts. fold n. rewrite (truediv_ints ts n) by nia. reflexivity.
  - fold tl. fold n. rewrite (truediv_ints tl n) by nia. reflexivity.
  - fold tt ts tl n. rewrite Ex. cbn [bind].
    rewrite (truediv_float_int tex n) by lia. reflexivity.
Qed.

(** ** The week rows of a month *)

Lemma int_measure_app (m : Entry.t -> Z) (l1 l2 : list Entry.t) :
  int_measure m (l1 ++ l2) = int_measure m l1 + int_measure m l2.
Proof. unfold int_measure. rewrite map_app. apply Zsum_app. Qed.

Lemma int_measure_concat (m : Entry.t -> Z) (groups : list (list Entry.t)) :
  int_measure m (List.concat groups) = Zsum (map (int_measure m) groups).
Proof.
  induction groups as [ | g groups IH]; cbn [List.concat map Zsum fold_right].
  - reflexivity.
  - rewrite int_measure_app, IH. reflexivity.
Qed.

Lemma int_measure_Permutation (m : Entry.t -> Z) (l1 l2 : list Entry.t) :
  Permutation l1 l2 -> int_measure m l1 = int_measure m l2.
Proof. intros P. apply Zsum_Permutation. apply Permutation_map. exact P. Qed.

Lemma length_measure (records : list Entry.t) :
  Z.of_nat (List.length records) = int_measure (fun _ => 1) records.
Proof.
  unfold int_measure, Zsum.
  induction records as [ | r records IH]; cbn [map fold_right List.length] in *; lia.
Qed.

Lemma session_count_measure (records : list Entry.t) :
  session_count records
  = int_measure (fun data => if counts_as_session data then 1 else 0) records.
Proof.
  unfold session_count, int_measure, Zsum.
  induction records as [ | r records IH]; cbn [filter map fold_right List.length].
  - reflexivity.
  - destruct (counts_as_session r); cbn [List.length]; lia.
Qed.

Lemma day_dict_form_records (es : list Entry.t) :
  es <> [] -> Forall form_record es -> Z.of_nat (List.length es) < 2 ^ 64 ->
  exists st,
    Binary64.get_summary_stats (day_dict es) = Ok st
    /\ exercise_statistics es st.
Proof.
  intros NE F B.
  pose proof (values_day_dict es) as V.
  destruct (form_records_stats (day_dict es)) as (st & E & S).
  - intros C. apply NE. rewrite <- V, C. reflexivity.
  - rewrite V. exact F.
  - assert (L : List.length (day_dict es) = List.length es).
    { rewrite <- V at 2. unfold values. rewrite length_map. reflexivity. }
    rewrite L. exact B.
  - exists st. rewrite V in S. split; [exact E | exact S].
Qed.

Lemma weekly_summary_rows (items : list (Z * list Entry.t))
      (acc : list (Z * dict string Binary64.pynum)) :
  Forall (fun item => snd item <> [] /\ Forall form_record (snd item)
                      /\ Z.of_nat (List.length (snd item)) < 2 ^ 64) items ->
  exists rows,
    fold_left
      (fun acc item =>
         weekly_summary <- acc ;;
         week_stats <- Binary64.get_summary_stats (day_dict (snd item)) ;;
         _ <- Binary64.stat "total_days" week_stats ;;
         _ <- Binary64.stat "avg_treadmill" week_stats ;;
         _ <- Binary64.stat "avg_steps" week_stats ;;
         _ <- Binary64.stat "avg_lunch_walks" week_stats ;;
         _ <- Binary64.stat "avg_exercise_time" week_stats ;;
         _ <- Binary64.stat "strength_sessions" week_stats ;;
         Ok (weekly_summary ++ [(fst item, week_stats)]))
      items (Ok acc)
    = Ok (acc ++ rows)
    /\ Forall2 row_of items rows.
Proof.
  intros F. revert acc. induction F as [ | item items (NE & Fr & B) F IH]; intros acc.
  - exists []. rewrite app_nil_r. split; [reflexivity | constructor].
  - destruct (day_dict_form_records (snd item) NE Fr B) as (st & E & S).
    pose proof (has_statistics _ _ S) as K.
    cbn [fold_left bind]. rewrite E. cbn [bind].
    destruct (K "total_days"%string ltac:(cbn; tauto)) as [v1 ->].
    destruct (K "avg_treadmill"%string ltac:(cbn; tauto)) as [v2 ->].
    destruct (K "avg_steps"%string ltac:(cbn; tauto)) as [v3 ->].
    destruct (K "avg_lunch_walks"%string ltac:(cbn; tauto)) as [v4 ->].
    destruct (K "avg_exercise_time"%string ltac:(cbn; tauto)) as [v5 ->].
    destruct (K "strength_sessions"%string ltac:(cbn; tauto)) as [v6 ->].
    cbn [bind].
    destruct (IH (acc ++ [(fst item, st)])) as (rows & Er & R).
    exists ((fst item, st) :: rows). split.
    + rewrite <- app_assoc in Er. exact Er.
    + constructor; [ | exact R]. split; [reflexivity | split; assumption].
Qed.

Lemma exercise_time_of_statistics (records : list Entry.t)
      (st : dict string Binary64.pynum) :
  exercise_statistics records st -> exercise_time_from_totals st.
Proof.
  intros S.
  destruct (has_statistics _ _ S "total_exercise_time"%string) as [tex Hx];
    [cbn; tauto | ].
  exists (int_total Entry.treadmill_time records), (int_total Entry.steps records),
         (int_total Entry.lunch_walk_time records), tex.
  split; [apply (has_total_treadmill _ _ S) | ].
  split; [apply (has_total_steps _ _ S) | ].
  split; [apply (has_total_lunch_walks _ _ S) | ].
  split; [ | exact Hx].
  rewrite <- (has_total_exercise_time _ _ S). exact Hx.
Qed.

Lemma Forall2_In_r {A B : Type} (R : A -> B -> Prop) (l1 : list A) (l2 : list B) (y : B) :
  Forall2 R l1 l2 -> In y l2 -> exists x, In x l1 /\ R x y.
Proof.
  induction 1 as [ | x0 y0 l1 l2 H F IH]; intros Hin; [destruct Hin | ].
  destruct Hin as [<- | Hin].
  - exists x0. split; [left; reflexivity | exact H].
  - destruct (IH Hin) as (x & Hx & Rx). exists x. split; [right; exact Hx | exact Rx].
Qed.

Lemma Forall2_In_l {A B : Type} (R : A -> B -> Prop) (l1 : list A) (l2 : list B) (x : A) :
  Forall2 R l1 l2 -> In x l1 -> exists y, In y l2 /\ R x y.
Proof.
  induction 1 as [ | x0 y0 l1 l2 H F IH]; intros Hin; [destruct Hin | ].
  destruct Hin as [<- | Hin].
  - exists y0. split; [left; reflexivity | exact H].
  - destruct (IH Hin) as (y & Hy & Ry). exists y. split; [right; exact Hy | exact Ry].
Qed.

Lemma rows_sorted (items : list (Z * list Entry.t))
      (rows : list (Z * dict string Binary64.pynum)) :
  Forall2 row_of items rows ->
  StronglySorted (fun a b => fst a < fst b) items ->
  StronglySorted (fun a b => fst a < fst b) rows.
Proof.
  induction 1 as [ | item row items rows (E & _) F IH]; intros S; [constructor | ].
  apply StronglySorted_inv in S. destruct S as [S Lt].
  constructor; [apply IH; exact S | ].
  apply Forall_forall. intros row' Hin.
  destruct (Forall2_In_r _ _ _ _ F Hin) as (item' & Hi & (E' & _)).
  rewrite Forall_forall in Lt. rewrite E, E'. apply Lt. exact Hi.
Qed.

(* Summing an integer statistic over the rows adds its measure over the
   groups. *)
Lemma sum_stat_rows (key : string) (m : Entry.t -> Z)
      (items : list (Z * list Entry.t))
      (rows : list (Z * dict string Binary64.pynum)) (a : Z) :
  Forall2 (fun item row =>
             Binary64.stat key (snd row)
             = Ok (Binary64.PInt (int_measure m (snd item)))) items rows ->
  fold_left (fun acc row =>
               s <- acc ;; v <- Binary64.stat key (snd row) ;; Binary64.add s v)
            rows (Ok (Binary64.PInt a))
  = Ok (Binary64.PInt (a + int_measure m (List.concat (map snd items)))).
Proof.
  intros F. revert a. induction F as [ | item row items rows H F IH]; intros a.
  - cbn. rewrite Z.add_0_r. reflexivity.
  - cbn [fold_left bind map List.concat]. rewrite H. cbn [bind Binary64.add].
    rewrite IH, int_measure_app, Z.add_assoc. reflexivity.
Qed.

Lemma records_of_week_subset (w : Z) (month_data : dict string Entry.t) :
  incl (records_of_week w month_data) (values month_data)
  /\ (List.length (records_of_week w month_data) <= List.length month_data)%nat.
Proof.
  unfold records_of_week, values. split.
  - intros e He. apply in_map_iff in He. destruct He as (item & <- & Hin).
    apply filter_In in Hin. apply in_map. apply Hin.
  - rewrite length_map. apply filter_length_le.
Qed.

Lemma dict_set_length_le {K V : Type} (K_eqb : K -> K -> bool) (k : K) (v : V)
      (d : dict K V) :
  (List.length (dict_set K_eqb k v d) <= S (List.length d))%nat.
Proof.
  induction d as [ | [k' v'] d IH]; cbn [dict_set List.length]; [lia | ].
  destruct (K_eqb k k'); cbn [List.length]; lia.
Qed.

(* The month filter keeps records of the store, and no more than it holds. *)
Lemma add_to_month_records (y m : Z) (tracker_data acc md : dict string Entry.t) :
  fold_left (add_to_month y m) tracker_data (Ok acc) = Ok md ->
  (forall e, In e (values md) -> In e (values acc) \/ In e (values tracker_data))
  /\ (List.length md <= List.length acc + List.length tracker_data)%nat.
Proof.
  revert acc. induction tracker_data as [ | item td IH]; intros acc.
  - cbn [fold_left]. intros H. injection H as <-.
    split; [intros e He; left; exact He | cbn [List.length]; lia].
  - cbn [fold_left]. unfold add_to_month at 2. cbn [bind].
    destruct (strptime_ymd (fst item)) as [d | e] eqn:P; cbn [bind].
    + destruct ((year d =? y) && (month d =? m)).
      * intros H. destruct (IH _ H) as [I L]. split.
        -- intros e He. destruct (I e He) as [Ha | Ht].
           ++ unfold values in Ha. apply in_map_iff in Ha.
              destruct Ha as [[k0 v0] [<- Hin]]. cbn [snd].
              apply (dict_set_In String.eqb) in Hin. destruct Hin as [-> | Hin].
              ** right. left. reflexivity.
              ** left. apply (in_map snd) in Hin. exact Hin.
           ++ right. right. exact Ht.
        -- pose proof (dict_set_length_le String.eqb (fst item) (snd item) acc).
           cbn [List.length]. lia.
      * intros H. destruct (IH _ H) as [I L]. split.
        -- intros e He. destruct (I e He) as [Ha | Ht];
             [left; exact Ha | right; right; exact Ht].
        -- cbn [List.length]. lia.
    + rewrite add_to_month_raise. intros H. discriminate H.
Qed.

(** C8, as the claim states it, fails for the exercise time: after saving 10
    steps for a day of week 2 and 20 steps for a day of week 3, the week rows
    hold 0.1 and 0.2, whose sum is 0.30000000000000004, and the month holds
    0.3. *)
Lemma exercise_time_of_week_rows_not_additive :
  exists month_data st rows s v,
    two_week_steps = Ok month_data
    /\ month_data_of month_data 2025 6 = Ok month_data
    /\ Binary64.get_summary_stats month_data = Ok st
    /\ Binary64.weekly_summary_of month_data = Ok rows
    /\ map fst rows = [2; 3]
    /\ map (fun row => Binary64.stat "total_exercise_time" (snd row)) rows
       = [ Ok (Binary64.PFloat (Binary64.round_quotient 1 10));
           Ok (Binary64.PFloat (Binary64.round_quotient 2 10)) ]
    /\ Binary64.sum_stat "total_exercise_time" rows = Ok s
    /\ Binary64.stat "total_exercise_time" st = Ok v
    /\ v = Binary64.PFloat (Binary64.round_quotient 3 10)
    /\ s = Binary64.PFloat (S754_finite false 5404319552844596 (-54))
    /\ v = Binary64.PFloat (S754_finite false 5404319552844595 (-54))
    /\ Binary64.eqb s v = false.
Proof.
  do 5 eexists.
  split; [vm_compute; reflexivity | ].
  split; [vm_compute; reflexivity | ].
  split; [vm_compute; reflexivity | ].
  split; [vm_compute; reflexivity | ].
  split; [reflexivity | ].
  split; [vm_compute; reflexivity | ].
  split; [vm_compute; reflexivity | ].
  split; [vm_compute; reflexivity | ].
  split; [vm_compute; reflexivity | ].
  split; [reflexivity | ].
  split; [reflexivity | ].
  vm_compute. reflexivity.
Qed.

(** C8, amended: in the arithmetic of Python, the week rows of a non-empty
    month whose records are written by the entry form are the statistics of
    the records with that stored week, one row per week in ascending order,
    and each of the five integer totals summed over the rows is the month
    total.  The exercise time of every row and of the month is the composite
    of its own integer totals, computed in floating point.  This holds for
    any such record set keyed by date strings, and so for every month that
    the monthly view filters out of a store written by the form. *)
Theorem week_rows_add_up_to_month :
  (forall month_data : dict string Entry.t,
      month_data <> [] ->
      Forall is_date_string (keys month_data) ->
      Forall form_record (values month_data) ->
      Z.of_nat (List.length month_data) < 2 ^ 64 ->
      exists st rows,
        Binary64.get_summary_stats month_data = Ok st
        /\ Binary64.weekly_summary_of month_data = Ok rows
        /\ StronglySorted (fun a b => fst a < fst b) rows
        /\ (forall w ws,
               In (w, ws) rows <->
               records_of_week w month_data <> []
               /\ Binary64.get_summary_stats
                    (day_dict (records_of_week w month_data)) = Ok ws)
        /\ (forall key,
               In key integer_total_keys ->
               exists v,
                 Binary64.stat key st = Ok (Binary64.PInt v)
                 /\ Binary64.sum_stat key rows = Ok (Binary64.PInt v))
        /\ exercise_time_from_totals st
        /\ Forall (fun row => exercise_time_from_totals (snd row)) rows)
  /\ (forall (tracker_data : dict string Entry.t) (y m : Z)
             (month_data : dict string Entry.t),
         Forall form_record (values tracker_data) ->
         Z.of_nat (List.length tracker_data) < 2 ^ 64 ->
         month_data_of tracker_data y m = Ok month_data ->
         month_data <> [] ->
         rows_add_up month_data).
Proof.
  assert (Main : forall month_data : dict string Entry.t,
             month_data <> [] ->
             Forall is_date_string (keys month_data) ->
             Forall form_record (values month_data) ->
             Z.of_nat (List.length month_data) < 2 ^ 64 ->
             rows_add_up month_data).
  { intros month_data NE HK F B. unfold rows_add_up.
    destruct (weekly_data_groups month_data [] [] HK (NoDup_nil _)
                                 (fun w => eq_refl)) as (g & Eg & NDg & Inv).
    cbn [app] in Inv.
    destruct (weekly_data_fold month_data [] HK (Forall_nil _)) as (g' & Eg' & _ & Pg).
    rewrite Eg in Eg'. injection Eg' as <-.
    cbn [values map List.concat app] in Pg. fold (values g) in Pg.
    fold (values month_data) in Pg.
    assert (Ew : weekly_data_of month_data = Ok g) by exact Eg.
    assert (In_g : forall w es, In (w, es) g <->
                                es <> [] /\ es = records_of_week w month_data).
    { intros w es. split.
      - intros Hin.
        apply (dict_get_In_NoDup Z.eqb Z.eqb_eq _ _ _ NDg) in Hin.
        rewrite Inv in Hin. destruct (records_of_week w month_data) as [ | a l];
          [discriminate Hin | ].
        injection Hin as <-. split; [discriminate | reflexivity].
      - intros [N ->]. apply (dict_get_In Z.eqb Z.eqb_eq). rewrite Inv.
        destruct (records_of_week w month_data); [contradiction | reflexivity]. }
    set (items := sorted_items g).
    assert (In_items : forall w es, In (w, es) items <->
                                    es <> [] /\ es = records_of_week w month_data).
    { intros w es. rewrite <- In_g. split; intros Hin.
      - apply (Permutation_in _ (sorted_items_Permutation g)). exact Hin.
      - apply (Permutation_in _ (Permutation_sym (sorted_items_Permutation g))).
        exact Hin. }
    assert (Fi : Forall (fun item => snd item <> [] /\ Forall form_record (snd item)
                                     /\ Z.of_nat (List.length (snd item)) < 2 ^ 64)
                        items).
    { apply Forall_forall. intros [w es] Hin. cbn [snd].
      apply In_items in Hin. destruct Hin as [N ->]. split; [exact N | ].
      destruct (records_of_week_subset w month_data) as [Sub Len]. split.
      - apply Forall_forall. intros e He. rewrite Forall_forall in F.
        apply F. apply Sub. exact He.
      - lia. }
    destruct (weekly_summary_rows items [] Fi) as (rows & Er & R).
    cbn [app] in Er.
    destruct (form_records_stats month_data NE F B) as (st & Est & S).
    exists st, rows.
    split; [exact Est | ].
    split; [unfold Binary64.weekly_summary_of; rewrite Ew; exact Er | ].
    split.
    { apply (rows_sorted items rows R). apply sorted_NoDup_strict.
      - apply sorted_items_sorted.
      - eapply Permutation_NoDup; [ | exact NDg].
        apply Permutation_map. apply Permutation_sym. apply sorted_items_Permutation. }
    split.
    { intros w ws. split.
      - intros Hin. destruct (Forall2_In_r _ _ _ _ R Hin) as ([w' es] & Hi & (E1 & E2 & _)).
        cbn [fst snd] in E1, E2. subst w'.
        apply In_items in Hi. destruct Hi as [N ->]. split; assumption.
      - intros [N Hs].
        assert (Hi : In (w, records_of_week w month_data) items)
          by (apply In_items; split; [exact N | reflexivity]).
        destruct (Forall2_In_l _ _ _ _ R Hi) as ([w' ws'] & Hr & (E1 & E2 & _)).
        cbn [fst snd] in E1, E2. subst w'. rewrite Hs in E2. injection E2 as <-.
        exact Hr. }
    split.
    { assert (Sum : forall m, int_measure m (List.concat (map snd items))
                              = int_measure m (values month_data)).
      { intros m. rewrite int_measure_concat.
        rewrite (Zsum_Permutation _ (map (int_measure m) (values g))).
        - rewrite <- int_measure_concat. apply int_measure_Permutation. exact Pg.
        - apply Permutation_map. apply Permutation_map.
          apply sorted_items_Permutation. }
      assert (Row : forall key (m : Entry.t -> Z),
                 (forall es stats, exercise_statistics es stats ->
                                   Binary64.stat key stats
                                   = Ok (Binary64.PInt (int_measure m es))) ->
                 exists v,
                   Binary64.stat key st = Ok (Binary64.PInt v)
                   /\ Binary64.sum_stat key rows = Ok (Binary64.PInt v)).
      { intros key m Hm. exists (int_measure m (values month_data)).
        split; [apply Hm; exact S | ].
        unfold Binary64.sum_stat. rewrite (sum_stat_rows key m items rows 0).
        - rewrite Sum. reflexivity.
        - eapply Forall2_impl; [ | exact R].
          intros item row (_ & _ & Sr). apply Hm. exact Sr. }
      intros key Hin. unfold integer_total_keys in Hin. cbn [In] in Hin.
      destruct Hin as [<- | [<- | [<- | [<- | [<- | []]]]]].
      - apply (Row _ (fun _ => 1)). intros es stats Ss.
        rewrite (has_total_days _ _ Ss), length_measure. reflexivity.
      - apply (Row _ (fun data => counted_int (Entry.treadmill_time data))).
        intros es stats Ss. apply (has_total_treadmill _ _ Ss).
      - apply (Row _ (fun data => counted_int (Entry.steps data))).
        intros es stats Ss. apply (has_total_steps _ _ Ss).
      - apply (Row _ (fun data => counted_int (Entry.lunch_walk_time data))).
        intros es stats Ss. apply (has_total_lunch_walks _ _ Ss).
      - apply (Row _ (fun data => if counts_as_session data then 1 else 0)).
        intros es stats Ss.
        rewrite (has_strength_sessions _ _ Ss), session_count_measure. reflexivity. }
    split; [apply (exercise_time_of_statistics _ _ S) | ].
    apply Forall_forall. intros row Hin.
    destruct (Forall2_In_r _ _ _ _ R Hin) as (item & _ & (_ & _ & Sr)).
    apply (exercise_time_of_statistics _ _ Sr). }
  split; [exact Main | ].
  intros tracker_data y m month_data F B Hm NE.
  destruct (add_to_month_records y m tracker_data [] month_data Hm) as [I L].
  apply (Main month_data NE).
  - apply (month_data_of_keys tracker_data y m). exact Hm.
  - apply Forall_forall. intros e He. rewrite Forall_forall in F.
    destruct (I e He) as [[] | Ht]. apply F. exact Ht.
  - cbn [List.length] in L. lia.
Qed.

(** ** Iteration order and saving *)

Lemma positive_or_none_float (v : option num) :
  float_or_absent v -> float_or_absent (positive_or_none v).
Proof.
  destruct v as [[z | q] | ]; cbn [float_or_absent positive_or_none]; intros H.
  - destruct H.
  - destruct (num_truthy (Float q) && num_gtb (Float q) (Int 0)); exact I.
  - exact I.
Qed.

Lemma saved_record_form_record (selected_date : date) (widgets : Form.t) (w : Z) :
  form_input widgets -> form_record (saved_record selected_date widgets w).
Proof.
  intros (Ht & Hs & Hl & Hw & Hb). unfold form_record, saved_record.
  cbn [Entry.treadmill_time Entry.steps Entry.lunch_walk_time Entry.weight
       Entry.blood_sugar].
  split; [eexists; split; [reflexivity | exact Ht] | ].
  split; [eexists; split; [reflexivity | exact Hs] | ].
  split; [eexists; split; [reflexivity | exact Hl] | ].
  split; apply positive_or_none_float; assumption.
Qed.

Lemma form_with_weight_input (w : Q) : form_input (form_with_weight w).
Proof.
  unfold form_input, form_with_weight. cbn. repeat split; lia.
Qed.

Lemma june_store_form_records : Forall form_record (values june_store).
Proof.
  unfold june_store. cbn [values map snd].
  repeat (constructor; [apply saved_record_form_record; apply form_with_weight_input | ]).
  constructor.
Qed.

Lemma out_of_order_store_form_records : Forall form_record (values out_of_order_store).
Proof.
  unfold out_of_order_store. cbn [values map snd].
  repeat (constructor; [apply saved_record_form_record; apply form_with_weight_input | ]).
  constructor.
Qed.

(** X10: on records as the entry form writes them, the statistics of the
    exercise fields do not depend on the iteration order of the mapping: the
    five integer totals are sums of ints, and the exercise time and the four
    per-day averages are computed from these totals. *)
Theorem exercise_statistics_order_independent (d1 d2 : dict string Entry.t) :
  Permutation d1 d2 -> d1 <> [] ->
  Forall form_record (values d1) ->
  Z.of_nat (List.length d1) < 2 ^ 64 ->
  exists st1 st2,
    Binary64.get_summary_stats d1 = Ok st1
    /\ Binary64.get_summary_stats d2 = Ok st2
    /\ forall key, In key exercise_keys ->
                   exists v, Binary64.stat key st1 = Ok v
                             /\ Binary64.stat key st2 = Ok v.
Proof.
  intros P N1 F1 B1.
  assert (N2 : d2 <> []).
  { intros ->. apply Permutation_sym, Permutation_nil in P. contradiction. }
  assert (PV : Permutation (values d1) (values d2))
    by (apply Permutation_map; exact P).
  assert (F2 : Forall form_record (values d2))
    by (eapply Permutation_Forall; eassumption).
  assert (B2 : Z.of_nat (List.length d2) < 2 ^ 64)
    by (rewrite <- (Permutation_length P); exact B1).
  destruct (form_records_stats d1 N1 F1 B1) as (st1 & E1 & S1).
  destruct (form_records_stats d2 N2 F2 B2) as (st2 & E2 & S2).
  exists st1, st2. split; [exact E1 | ]. split; [exact E2 | ].
  set (r1 := values d1) in *. set (r2 := values d2) in *.
  assert (Tt : int_total Entry.treadmill_time r1 = int_total Entry.treadmill_time r2)
    by (apply int_total_Permutation; exact PV).
  assert (Ts : int_total Entry.steps r1 = int_total Entry.steps r2)
    by (apply int_total_Permutation; exact PV).
  assert (Tl : int_total Entry.lunch_walk_time r1 = int_total Entry.lunch_walk_time r2)
    by (apply int_total_Permutation; exact PV).
  assert (Tn : List.length r1 = List.length r2) by (apply Permutation_length; exact PV).
  assert (Tc : session_count r1 = session_count r2)
    by (apply session_count_Permutation; exact PV).
  assert (Same : forall key,
             Binary64.stat key st1 = Binary64.stat key st2 ->
             In key statistic_keys ->
             exists v, Binary64.stat key st1 = Ok v /\ Binary64.stat key st2 = Ok v).
  { intros key E Hin. destruct (has_statistics _ _ S1 key Hin) as [v Hv].
    exists v. split; [exact Hv | rewrite <- E; exact Hv]. }
  intros key Hin. unfold exercise_keys in Hin. cbn [In] in Hin.
  destruct Hin as [<- | [<- | [<- | [<- | [<- | [<- | [<- | [<- | [<- | [<- | []]]]]]]]]]];
    (apply Same; [ | cbn; tauto]).
  - rewrite (has_total_days _ _ S1), (has_total_days _ _ S2), Tn. reflexivity.
  - rewrite (has_total_treadmill _ _ S1), (has_total_treadmill _ _ S2), Tt. reflexivity.
  - rewrite (has_avg_treadmill _ _ S1), (has_avg_treadmill _ _ S2), Tt, Tn. reflexivity.
  - rewrite (has_total_steps _ _ S1), (has_total_steps _ _ S2), Ts. reflexivity.
  - rewrite (has_avg_steps _ _ S1), (has_avg_steps _ _ S2), Ts, Tn. reflexivity.
  - rewrite (has_total_lunch_walks _ _ S1), (has_total_lunch_walks _ _ S2), Tl.
    reflexivity.
  - rewrite (has_avg_lunch_walks _ _ S1), (has_avg_lunch_walks _ _ S2), Tl, Tn.
    reflexivity.
  - rewrite (has_total_exercise_time _ _ S1), (has_total_exercise_time _ _ S2),
      Tt, Ts, Tl. reflexivity.
  - rewrite (has_avg_exercise_time _ _ S1), (has_avg_exercise_time _ _ S2),
      Tt, Ts, Tl, Tn. reflexivity.
  - rewrite (has_strength_sessions _ _ S1), (has_strength_sessions _ _ S2), Tc.
    reflexivity.
Qed.

Lemma int_total_one (field : Entry.t -> option num) (data : Entry.t) :
  int_total field [data] = counted_int (field data).
Proof. unfold int_total. cbn [map Zsum fold_right]. lia. Qed.

(** X16: saving a date that is not yet in a non-empty store of form-written
    records adds one day, the entered minutes and steps and the session to
    the five integer totals; the exercise time afterwards is the composite of
    the new integer totals. *)
Theorem saving_new_date_adds_to_totals (tracker_data : dict string Entry.t)
        (selected_date : date) (widgets : Form.t) :
  tracker_data <> [] ->
  dict_mem String.eqb (strftime_ymd selected_date) tracker_data = false ->
  Forall form_record (values tracker_data) ->
  form_input widgets ->
  Z.of_nat (List.length tracker_data) + 1 < 2 ^ 64 ->
  exists td' st st' w,
    show_daily_entry tracker_data selected_date widgets = Ok td'
    /\ get_week_number (TDate selected_date) = Ok w
    /\ Binary64.get_summary_stats tracker_data = Ok st
    /\ Binary64.get_summary_stats td' = Ok st'
    /\ (forall key entered,
           In (key, entered)
              [ ("total_days"%string, 1);
                ("total_treadmill"%string, Form.treadmill_time widgets);
                ("total_steps"%string, Form.steps widgets);
                ("total_lunch_walks"%string, Form.lunch_walk_time widgets);
                ("strength_sessions"%string,
                 if (3 <=? w) && Form.strength_training widgets then 1 else 0) ] ->
           exists v,
             Binary64.stat key st = Ok (Binary64.PInt v)
             /\ Binary64.stat key st' = Ok (Binary64.PInt (v + entered)))
    /\ exercise_time_from_totals st'.
Proof.
  intros NE M F FI B.
  destruct (show_daily_entry_eq tracker_data selected_date widgets)
    as (w & Hw & _ & E).
  assert (G : dict_get String.eqb (strftime_ymd selected_date) tracker_data = None).
  { unfold dict_mem in M.
    destruct (dict_get String.eqb (strftime_ymd selected_date) tracker_data);
      [discriminate M | reflexivity]. }
  rewrite (dict_set_new String.eqb _ _ _ G) in E.
  set (r := saved_record selected_date widgets w) in *.
  set (td' := tracker_data ++ [(strftime_ymd selected_date, r)]) in *.
  assert (NE' : td' <> []).
  { unfold td'. intros C. apply app_eq_nil in C. destruct C as [_ C]. discriminate C. }
  assert (V' : values td' = values tracker_data ++ [r]).
  { unfold td'. rewrite values_app. reflexivity. }
  assert (F' : Forall form_record (values td')).
  { rewrite V'. apply Forall_app. split; [exact F | ].
    constructor; [apply saved_record_form_record; exact FI | constructor]. }
  assert (B' : Z.of_nat (List.length td') < 2 ^ 64).
  { unfold td'. rewrite length_app. cbn [List.length]. lia. }
  destruct (form_records_stats tracker_data NE F ltac:(lia)) as (st & Est & S).
  destruct (form_records_stats td' NE' F' B') as (st' & Est' & S').
  exists td', st, st', w.
  split; [exact E | ]. split; [exact Hw | ].
  split; [exact Est | ]. split; [exact Est' | ].
  split; [ | apply (exercise_time_of_statistics _ _ S')].
  rewrite V' in S'.
  intros key entered Hin. cbn [In] in Hin.
  destruct Hin as [H | [H | [H | [H | [H | []]]]]]; injection H as <- <-;
    eexists.
  - split; [apply (has_total_days _ _ S) | ].
    rewrite (has_total_days _ _ S'), length_app. cbn [List.length].
    do 2 f_equal. lia.
  - split; [apply (has_total_treadmill _ _ S) | ].
    rewrite (has_total_treadmill _ _ S'), int_total_app, int_total_one. reflexivity.
  - split; [apply (has_total_steps _ _ S) | ].
    rewrite (has_total_steps _ _ S'), int_total_app, int_total_one. reflexivity.
  - split; [apply (has_total_lunch_walks _ _ S) | ].
    rewrite (has_total_lunch_walks _ _ S'), int_total_app, int_total_one. reflexivity.
  - split; [apply (has_strength_sessions _ _ S) | ].
    rewrite (has_strength_sessions _ _ S'), session_count_app. do 3 f_equal.
    unfold session_count, counts_as_session, r.
    cbn [filter saved_record Entry.strength_training get_flag].
    destruct (3 <=? w), (Form.strength_training widgets); reflexivity.
Qed.

(** * Instances *)

Lemma june_store_NoDup : NoDup (keys june_store).
Proof.
  cbn. repeat (constructor; [cbn [In]; intuition discriminate | ]). constructor.
Qed.

Lemma week_number_monotone_witness :
  valid_date june_10 = true /\ valid_date june_16 = true
  /\ date_leb june_10 june_16 = true
  /\ exists wa wb,
      get_week_number (TDate june_10) = Ok wa
      /\ get_week_number (TDate june_16) = Ok wb /\ wa <= wb.
Proof.
  repeat (split; [reflexivity | ]).
  apply (week_number_monotone june_10 june_16); reflexivity.
Defined.

Lemma strength_stays_available_witness :
  valid_date june_16 = true /\ valid_date june_17 = true
  /\ date_leb june_16 june_17 = true
  /\ is_strength_available (TDate june_16) = Ok true
  /\ is_strength_available (TDate june_17) = Ok true.
Proof.
  split; [reflexivity | ]. split; [reflexivity | ]. split; [reflexivity | ].
  split; [vm_compute; reflexivity | ].
  apply (strength_stays_available june_16 june_17); reflexivity.
Defined.

Lemma week_number_shift_witness :
  valid_date june_10 = true /\ date_leb start_date june_10 = true /\ 0 <= 1
  /\ date_add june_10 (timedelta_weeks 1) = Ok june_17
  /\ date_ltb june_17 end_date = true
  /\ exists w,
      get_week_number (TDate june_10) = Ok w
      /\ get_week_number (TDate june_17) = Ok (w + 1).
Proof.
  split; [reflexivity | ]. split; [reflexivity | ]. split; [lia | ].
  split; [vm_compute; reflexivity | ]. split; [reflexivity | ].
  apply (week_number_shift june_10 june_17 1); try reflexivity; lia.
Defined.

Lemma week_number_of_saved_key_witness :
  valid_date june_16 = true /\ 1000 <= year june_16
  /\ strptime_ymd (strftime_ymd june_16) = Ok june_16
  /\ get_week_number (TStr (strftime_ymd june_16)) = get_week_number (TDate june_16).
Proof.
  split; [reflexivity | ]. split; [cbn; lia | ].
  apply (week_number_of_saved_key june_16); [reflexivity | cbn; lia].
Defined.

Lemma weekly_view_selects_the_week_witness :
  1 <= 3 <= 30
  /\ exists week_data,
      week_data_of june_store 3 = Ok week_data
      /\ (List.length week_data <= 7)%nat.
Proof.
  split; [lia | ].
  destruct (weekly_view_selects_the_week june_store 3 ltac:(lia))
    as (wd & E & L & _).
  exists wd. split; assumption.
Defined.

Lemma weekly_views_skip_dates_outside_the_window_witness :
  valid_date end_date = true /\ 1000 <= year end_date
  /\ date_leb end_date end_date = true
  /\ 1 <= 30 <= 30
  /\ exists w week_data,
      get_week_number (TDate end_date) = Ok w
      /\ week_data_of june_store 30 = Ok week_data
      /\ ~ In (strftime_ymd end_date) (keys week_data).
Proof.
  split; [reflexivity | ]. split; [cbn; lia | ]. split; [reflexivity | ].
  split; [lia | ].
  destruct (weekly_views_skip_dates_outside_the_window
              june_store end_date 30 eq_refl ltac:(cbn; lia)
              (or_intror eq_refl) ltac:(lia))
    as (w & wd & H1 & _ & _ & H4 & H5).
  exists w, wd. repeat split; assumption.
Defined.

Lemma strength_sessions_at_most_days_witness :
  june_store <> []
  /\ exists st s,
      get_summary_stats june_store = Ok st
      /\ stat "strength_sessions" st = Ok (Int s)
      /\ (0 <= s <= 3)%Z.
Proof.
  split; [discriminate | ].
  destruct (strength_sessions_at_most_days june_store ltac:(discriminate))
    as (st & s & H1 & H2 & _ & _ & H5).
  exists st, s. repeat split; try assumption; apply H5.
Defined.

Lemma totals_do_not_depend_on_order_witness :
  Permutation by_date_store out_of_order_store
  /\ by_date_store <> []
  /\ exists st1 st2,
      get_summary_stats by_date_store = Ok st1
      /\ get_summary_stats out_of_order_store = Ok st2.
Proof.
  split; [apply perm_swap | ]. split; [discriminate | ].
  destruct (totals_do_not_depend_on_order by_date_store out_of_order_store
              (perm_swap _ _ _) ltac:(discriminate)) as (st1 & st2 & H1 & H2 & _).
  exists st1, st2. split; assumption.
Defined.

Lemma stats_ignore_keys_witness :
  values steps_example
  = values [ ("2025-06-02", with_steps 1000 blank);
             ("2025-06-03", with_steps 0 blank) ]%string
  /\ get_summary_stats steps_example
     = get_summary_stats [ ("2025-06-02", with_steps 1000 blank);
                           ("2025-06-03", with_steps 0 blank) ]%string.
Proof.
  split; [reflexivity | ].
  apply (stats_ignore_keys steps_example). reflexivity.
Defined.

Lemma written_one_record_per_date_witness :
  written out_of_order_store /\ NoDup (keys out_of_order_store).
Proof.
  split; [exact (proj2 out_of_order_store_written) | ].
  apply (written_one_record_per_date out_of_order_store).
  exact (proj2 out_of_order_store_written).
Defined.

Lemma stored_week_matches_key_witness :
  valid_date june_16 = true /\ 1000 <= year june_16
  /\ exists td' data w,
      show_daily_entry june_store june_16 (form_with_weight 71) = Ok td'
      /\ dict_get String.eqb (strftime_ymd june_16) td' = Some data
      /\ Entry.week data = Some w
      /\ get_week_number (TStr (strftime_ymd june_16)) = Ok w.
Proof.
  split; [reflexivity | ]. split; [cbn; lia | ].
  destruct (stored_week_matches_key june_store june_16 (form_with_weight 71)
              eq_refl ltac:(cbn; lia))
    as (td' & data & w & H1 & H2 & _ & H4 & H5 & _).
  exists td', data, w. repeat split; assumption.
Defined.

Lemma saves_for_different_dates_commute_witness :
  valid_date june_16 = true /\ 1000 <= year june_16
  /\ valid_date june_17 = true /\ 1000 <= year june_17
  /\ june_16 <> june_17
  /\ exists td12 td21,
      (td <- show_daily_entry [] june_16 (form_with_weight 70) ;;
       show_daily_entry td june_17 (form_with_weight 68.5)) = Ok td12
      /\ (td <- show_daily_entry [] june_17 (form_with_weight 68.5) ;;
          show_daily_entry td june_16 (form_with_weight 70)) = Ok td21
      /\ forall key, dict_get String.eqb key td12 = dict_get String.eqb key td21.
Proof.
  split; [reflexivity | ]. split; [cbn; lia | ].
  split; [reflexivity | ]. split; [cbn; lia | ]. split; [discriminate | ].
  apply (saves_for_different_dates_commute [] june_16 june_17);
    try reflexivity; try (cbn; lia); discriminate.
Defined.

Lemma month_filter_keeps_the_month_witness :
  NoDup (keys june_store) /\ Forall is_date_string (keys june_store)
  /\ month_data_of june_store 2025 7
     = Ok (filter (fun kv => in_month 2025 7 (fst kv)) june_store).
Proof.
  split; [exact june_store_NoDup | ]. split; [exact june_store_keys | ].
  apply (proj1 (month_filter_keeps_the_month june_store 2025 7 june_store_NoDup)).
  exact june_store_keys.
Defined.

Lemma week_rows_partition_the_month_witness :
  Forall is_date_string (keys june_store)
  /\ exists rows,
      weekly_summary_of june_store = Ok rows
      /\ StronglySorted (fun a b => fst a < fst b) rows.
Proof.
  split; [exact june_store_keys | ].
  destruct (week_rows_partition_the_month june_store june_store_keys)
    as (rows & H1 & H2 & _).
  exists rows. split; assumption.
Defined.

Lemma listed_months_have_records_witness :
  NoDup (keys june_store) /\ Forall is_date_string (keys june_store)
  /\ exists months,
      months_of june_store = Ok months /\ StronglySorted pair_lt months.
Proof.
  split; [exact june_store_NoDup | ]. split; [exact june_store_keys | ].
  destruct (listed_months_have_records june_store june_store_NoDup june_store_keys)
    as (months & H1 & H2 & _).
  exists months. split; assumption.
Defined.

Lemma recent_data_are_the_last_seven_witness :
  NoDup (keys june_store)
  /\ List.length (recent_data june_store) = Nat.min 7 (List.length june_store).
Proof.
  split; [exact june_store_NoDup | ].
  apply (recent_data_are_the_last_seven june_store june_store_NoDup).
Defined.

Lemma date_keys_sort_chronologically_witness :
  valid_date june_10 = true /\ valid_date june_16 = true
  /\ String.leb (strftime_ymd june_10) (strftime_ymd june_16)
     = date_leb june_10 june_16.
Proof.
  split; [reflexivity | ]. split; [reflexivity | ].
  apply (date_keys_sort_chronologically june_10 june_16); reflexivity.
Defined.

Example june_store_views :
  recent_data june_store = june_store
  /\ keys (sorted_by_key june_store) = ["2025-06-10"; "2025-06-16"; "2025-06-17"]%string
  /\ months_of june_store = Ok [(2025, 6)].
Proof. repeat split; vm_compute; reflexivity. Qed.

Lemma sorted_items_are_chronological_witness :
  Permutation (sorted_by_key june_store) june_store.
Proof. apply (proj1 (sorted_items_are_chronological june_store)). Defined.

Lemma week_rows_add_up_to_month_witness :
  june_store <> []
  /\ Forall is_date_string (keys june_store)
  /\ Forall form_record (values june_store)
  /\ Z.of_nat (List.length june_store) < 2 ^ 64
  /\ month_data_of june_store 2025 6 = Ok june_store
  /\ exists st rows,
      Binary64.get_summary_stats june_store = Ok st
      /\ Binary64.weekly_summary_of june_store = Ok rows
      /\ StronglySorted (fun a b => fst a < fst b) rows
      /\ exercise_time_from_totals st.
Proof.
  split; [discriminate | ].
  split; [exact june_store_keys | ].
  split; [exact june_store_form_records | ].
  split; [cbn; lia | ].
  split; [vm_compute; reflexivity | ].
  destruct (proj1 week_rows_add_up_to_month june_store ltac:(discriminate)
              june_store_keys june_store_form_records ltac:(cbn; lia))
    as (st & rows & H1 & H2 & H3 & _ & _ & H6 & _).
  exists st, rows. split; [exact H1 | ]. split; [exact H2 | ].
  split; [exact H3 | exact H6].
Defined.

Lemma exercise_statistics_order_independent_witness :
  Permutation by_date_store out_of_order_store
  /\ by_date_store <> []
  /\ Forall form_record (values by_date_store)
  /\ Z.of_nat (List.length by_date_store) < 2 ^ 64
  /\ exists st1 st2,
      Binary64.get_summary_stats by_date_store = Ok st1
      /\ Binary64.get_summary_stats out_of_order_store = Ok st2.
Proof.
  assert (F : Forall form_record (values by_date_store)).
  { unfold by_date_store. cbn [values map snd].
    repeat (constructor;
            [apply saved_record_form_record; apply form_with_weight_input | ]).
    constructor. }
  split; [apply perm_swap | ]. split; [discriminate | ].
  split; [exact F | ]. split; [cbn; lia | ].
  destruct (exercise_statistics_order_independent by_date_store out_of_order_store
              (perm_swap _ _ _) ltac:(discriminate) F ltac:(cbn; lia))
    as (st1 & st2 & H1 & H2 & _).
  exists st1, st2. split; assumption.
Defined.

Lemma saving_new_date_adds_to_totals_witness :
  out_of_order_store <> []
  /\ dict_mem String.eqb (strftime_ymd june_10) out_of_order_store = false
  /\ Forall form_record (values out_of_order_store)
  /\ form_input (form_with_weight 69)
  /\ Z.of_nat (List.length out_of_order_store) + 1 < 2 ^ 64
  /\ exists td' st',
      show_daily_entry out_of_order_store june_10 (form_with_weight 69) = Ok td'
      /\ Binary64.get_summary_stats td' = Ok st'
      /\ exercise_time_from_totals st'.
Proof.
  split; [discriminate | ]. split; [reflexivity | ].
  split; [exact out_of_order_store_form_records | ].
  split; [apply form_with_weight_input | ]. split; [cbn; lia | ].
  destruct (saving_new_date_adds_to_totals
              out_of_order_store june_10 (form_with_weight 69)
              ltac:(discriminate) eq_refl out_of_order_store_form_records
              (form_with_weight_input 69) ltac:(cbn; lia))
    as (td' & st & st' & w & H1 & _ & _ & H4 & _ & H6).
  exists td', st'. split; [exact H1 | ]. split; [exact H4 | exact H6].
Defined.
